(** * arb-node: the startup orchestrator of the Arbitrum RPC node

    A shallow embedding of [startup] from
    packages/arb-rpc-node/cmd/arb-node/arb-node.go and the properties of
    its configuration gate, its two retry loops, its deferred releases and
    its terminal wait.

    [startup] is one long Go function whose observable behaviour is the
    sequence of calls it makes on its collaborators, the text it prints
    and the error it returns.  The embedding is a writer monad: a
    computation yields a result together with the events it performed and
    the calls it deferred.  The collaborators (monitor, txdb, rpc, ...)
    are outside this file; their answers are read from an [Env]. *)

From Stdlib Require Import String Ascii List Bool Arith ZArith NArith Lia.
From Stdlib Require Import Sorted.
Import ListNotations.
Open Scope string_scope.

(** ** Go values *)

(** The text of a non-nil Go error, as returned by its [Error()] method. *)
Definition Error := string.

(** A value of Go's interface type [error]: [None] is [nil]. *)
Definition error := option Error.

Definition nil_error : error := None.

(** A Go result pair [(v, err)]: [v] is only read when [err == nil]. *)
Inductive Result (T : Type) : Type :=
| Ok (v : T)
| Err (e : Error).
Arguments Ok {T} v.
Arguments Err {T} e.

Definition errors_New (msg : string) : error := Some msg.

(** [errors.Wrap(err, msg)] from github.com/pkg/errors: the text is
    [msg: err]. *)
Definition errors_Wrap (err : Error) (msg : string) : error :=
  Some (msg ++ ": " ++ err).

(** The newline character written by [\n] and by [fmt.Println]. *)
Definition nl : string := String (ascii_of_nat 10) EmptyString.

(** [strings.Contains(s, substr)]. *)
Fixpoint strings_Contains (s substr : string) : bool :=
  String.prefix substr s ||
  match s with
  | EmptyString => false
  | String _ s' => strings_Contains s' substr
  end.

(** [time.Duration] counts nanoseconds. *)
Definition time_Second : Z := 1000000000.

Definition largeChannelBuffer : nat := 200.

(** ** Configuration

    The struct behind [config] is declared in the configuration package;
    the record has the fields [startup] reads, and field [A_B_C] stands
    for the Go path [config.A.B.C]. *)

Record NodeConfig := mkNodeConfig {
  BridgeUtilsAddress : string;
  Feed_Input_URLs : list string;
  Healthcheck_Addr : string;
  Healthcheck_L1Node : bool;
  Healthcheck_Metrics : bool;
  Healthcheck_Port : string;
  Healthcheck_Sequencer : bool;
  L1_URL : string;
  Node_Aggregator_InboxAddress : string;
  Node_Aggregator_MaxBatchTime : Z;
  Node_Aggregator_Stateful : bool;
  Node_ChainID : N;
  Node_Forwarder_Target : string;
  Node_Sequencer_CreateBatchBlockInterval : Z;
  Node_Sequencer_DelayedMessagesTargetDelay : Z;
  Node_Sequencer_Lockout_Redis : string;
  Node_Sequencer_Lockout_SelfRPCURL : string;
  Node_Type : string;
  Persistent_Chain : string;
  Persistent_GlobalConfig : string;
  PProfEnable : bool;
  Rollup_Address : string;
  Rollup_FromBlock : Z;
  Rollup_Machine_Filename : string;
  WaitToCatchUp : bool
}.

(** The assignment [config.WaitToCatchUp = v]. *)
Definition set_WaitToCatchUp (v : bool) (c : NodeConfig) : NodeConfig :=
  {| BridgeUtilsAddress := BridgeUtilsAddress c;
     Feed_Input_URLs := Feed_Input_URLs c;
     Healthcheck_Addr := Healthcheck_Addr c;
     Healthcheck_L1Node := Healthcheck_L1Node c;
     Healthcheck_Metrics := Healthcheck_Metrics c;
     Healthcheck_Port := Healthcheck_Port c;
     Healthcheck_Sequencer := Healthcheck_Sequencer c;
     L1_URL := L1_URL c;
     Node_Aggregator_InboxAddress := Node_Aggregator_InboxAddress c;
     Node_Aggregator_MaxBatchTime := Node_Aggregator_MaxBatchTime c;
     Node_Aggregator_Stateful := Node_Aggregator_Stateful c;
     Node_ChainID := Node_ChainID c;
     Node_Forwarder_Target := Node_Forwarder_Target c;
     Node_Sequencer_CreateBatchBlockInterval :=
       Node_Sequencer_CreateBatchBlockInterval c;
     Node_Sequencer_DelayedMessagesTargetDelay :=
       Node_Sequencer_DelayedMessagesTargetDelay c;
     Node_Sequencer_Lockout_Redis := Node_Sequencer_Lockout_Redis c;
     Node_Sequencer_Lockout_SelfRPCURL := Node_Sequencer_Lockout_SelfRPCURL c;
     Node_Type := Node_Type c;
     Persistent_Chain := Persistent_Chain c;
     Persistent_GlobalConfig := Persistent_GlobalConfig c;
     PProfEnable := PProfEnable c;
     Rollup_Address := Rollup_Address c;
     Rollup_FromBlock := Rollup_FromBlock c;
     Rollup_Machine_Filename := Rollup_Machine_Filename c;
     WaitToCatchUp := v |}.

(** The value copied by [lockoutConf := config.Node.Sequencer.Lockout]. *)
Record Lockout := mkLockout {
  Redis : string;
  SelfRPCURL : string
}.

Definition Node_Sequencer_Lockout (c : NodeConfig) : Lockout :=
  {| Redis := Node_Sequencer_Lockout_Redis c;
     SelfRPCURL := Node_Sequencer_Lockout_SelfRPCURL c |}.

(** ** Handles and batcher modes *)

(** [*monitor.InboxReader], named by the call that produced it. *)
Definition InboxReader := nat.

(** [*bind.TransactOpts]; [startup] reads its [From] address. *)
Record TransactOpts := mkTransactOpts { From : string }.

(** [common.HexToAddress] applied to a configuration string. *)
Inductive Address := HexToAddress (hex : string).

(** The implementations of [rpc.BatcherMode] that [startup] builds;
    [big.NewInt] of an int64 is the integer itself. *)
Inductive BatcherMode :=
| ForwarderBatcherMode (NodeURL : string)
| SequencerBatcherMode (Auth : TransactOpts) (reader : InboxReader)
    (DelayedMessagesTargetDelay CreateBatchBlockInterval : Z)
| StatefulBatcherMode (Auth : TransactOpts) (InboxAddress : Address)
| StatelessBatcherMode (Auth : TransactOpts) (InboxAddress : Address).

(** The dynamic type of a [batcher.TransactionBatcher] value. *)
Inductive BatcherType :=
| T_Forwarder
| T_StatelessBatcher
| T_StatefulBatcher
| T_SequencerBatcher
| T_LockoutBatcher.

Record Batcher := mkBatcher {
  batcher_type : BatcherType;
  batcher_id : nat
}.

(** [nodehealth.Log]; fields left out of a literal have their zero value. *)
Record nodehealth_Log := mkHealthLog {
  Config : bool;
  Var : string;
  ValStr : string;
  ValBool : bool
}.

(** ** Events *)

Inductive Level := NoLevel | InfoLevel | WarnLevel.

Inductive Event :=
| Ev_cancelFunc
| Ev_Print (text : string)
| Ev_Log (lvl : Level) (err : error) (msg : string)
| Ev_ParseLogFlags (r : error)
| Ev_go_pprof
| Ev_NewMonitor (r : error)
| Ev_mon_Close
| Ev_go_StartNodeHealthCheck
| Ev_healthChan_send (l : nodehealth_Log)
| Ev_nodehealth_Init
| Ev_ConnectInBackground (url : string)
| Ev_StartInboxReader (r : Result InboxReader)
| Ev_ctx_Done
| Ev_time_After (d : Z)
| Ev_GetKeystore (r : Result TransactOpts)
| Ev_WaitForBalance (r : error)
| Ev_RegisterNodeStoreMetrics
| Ev_txdb_New (r : error)
| Ev_db_Close
| Ev_WaitToCatchUp (reader : InboxReader)
| Ev_SetupBatcher (mode : BatcherMode) (r : Result Batcher)
| Ev_SetupLockout (b : Batcher) (conf : Lockout) (r : Result Batcher)
| Ev_go_batch_Start (b : Batcher)
| Ev_RegisterSystemMetrics
| Ev_RegisterStaticMetrics
| Ev_NewServer (b : Batcher)
| Ev_GenerateWeb3Server (r : error)
| Ev_go_LaunchPublicServer
| Ev_recv_txDBErrChan (err : error)
| Ev_recv_errChan (err : error)
| Ev_recv_cancelChan.

(** ** The environment *)

(** The arm of a retry loop's [select] that proceeds. *)
Inductive RetryArm := Arm_ctx_Done | Arm_time_After.

(** A communication on one of the three channels of the final [select].
    A receive from an error channel yields an [error] value, which is nil
    when the channel was closed. *)
Inductive Signal :=
| Sig_txDBErrChan (err : error)
| Sig_errChan (err : error)
| Sig_cancelChan.

(** What the collaborators answer.  Calls that are repeated are indexed by
    the number of earlier calls.  For the final [select], [ready] lists
    the communications that can already proceed when it is reached, among
    which Go selects by a pseudo-random [pick]; when there is none the
    [select] blocks until the first of [arrivals]. *)
Record Env := mkEnv {
  WalletArgsString : string;
  ParseLogFlags : error;
  NewMonitor : error;
  StartInboxReader : nat -> Result InboxReader;
  inboxSelect : nat -> RetryArm;
  GetKeystore : Result TransactOpts;
  WaitForBalance : error;
  txdb_New : error;
  SetupBatcher : nat -> BatcherMode -> Result Batcher;
  SetupLockout : nat -> Batcher -> Lockout -> Result Batcher;
  batcherSelect : nat -> RetryArm;
  GenerateWeb3Server : error;
  ready : list Signal;
  pick : nat;
  arrivals : list Signal
}.

(** ** The monad *)

(** How a block of statements ends. *)
Inductive Res (A : Type) : Type :=
| Val (a : A)            (* control reaches the next statement *)
| Return (err : error)   (* a [return] statement of [startup] *)
| Panic (msg : string)   (* a run-time panic *)
| Blocked                (* a [select] none of whose arms ever proceeds *)
| OutOfFuel.             (* a loop that ran longer than the model's bound *)
Arguments Val {A} a.
Arguments Return {A} err.
Arguments Panic {A} msg.
Arguments Blocked {A}.
Arguments OutOfFuel {A}.

(** What a block did: the events in order, and the calls it deferred,
    most recent first. *)
Record Log := mkLog {
  events : list Event;
  deferred : list Event
}.

Definition M (A : Type) : Type := (Res A * Log)%type.

Definition log_nil : Log := {| events := []; deferred := [] |}.

Definition log_app (w1 w2 : Log) : Log :=
  {| events := events w1 ++ events w2;
     deferred := deferred w2 ++ deferred w1 |}.

Definition ret {A} (a : A) : M A := (Val a, log_nil).

Definition bind {A B} (m : M A) (f : A -> M B) : M B :=
  match m with
  | (Val a, w) => let '(r, w') := f a in (r, log_app w w')
  | (Return err, w) => (Return err, w)
  | (Panic msg, w) => (Panic msg, w)
  | (Blocked, w) => (Blocked, w)
  | (OutOfFuel, w) => (OutOfFuel, w)
  end.

Definition emit (e : Event) : M unit :=
  (Val tt, {| events := [e]; deferred := [] |}).

Definition defer (d : Event) : M unit :=
  (Val tt, {| events := []; deferred := [d] |}).

Definition return_ {A} (err : error) : M A := (Return err, log_nil).
Definition panic {A} (msg : string) : M A := (Panic msg, log_nil).
Definition blocked {A} : M A := (Blocked, log_nil).
Definition out_of_fuel {A} : M A := (OutOfFuel, log_nil).

Declare Scope go_scope.
Delimit Scope go_scope with go.
Notation "x <- m ;; k" := (bind m (fun x => k))
  (at level 61, m at next level, right associativity) : go_scope.
Notation "m ;; k" := (bind m (fun _ => k))
  (at level 61, right associativity) : go_scope.
Open Scope go_scope.

Definition fmt_Printf (text : string) : M unit := emit (Ev_Print text).
Definition fmt_Println (text : string) : M unit := emit (Ev_Print (text ++ nl)).

(** ** Configuration gate: lines 92-147 *)

Definition printSampleUsage (env : Env) : M unit :=
  fmt_Printf nl ;;
  fmt_Printf ("Sample usage:                  arb-node --conf=<filename> " ++ nl) ;;
  fmt_Printf ("          or:  forwarder node: arb-node --l1.url=<L1 RPC> [optional arguments]" ++ nl ++ nl) ;;
  fmt_Printf ("          or: aggregator node: arb-node --l1.url=<L1 RPC> --node.type=aggregator [optional arguments] "
              ++ WalletArgsString env ++ nl) ;;
  fmt_Printf ("          or:       sequencer: arb-node --l1.url=<L1 RPC> --node.type=sequencer [optional arguments] "
              ++ WalletArgsString env ++ nl).

(** The disjuncts of the condition at lines 93-96 that read [config]. *)
Definition usageGate (config : NodeConfig) : bool :=
  (String.length (Persistent_GlobalConfig config) =? 0)%nat
  || (String.length (L1_URL config) =? 0)%nat
  || (String.length (Rollup_Address config) =? 0)%nat
  || (String.length (BridgeUtilsAddress config) =? 0)%nat
  || (negb (Node_Type config =? "sequencer")
      && negb (String.length (Node_Sequencer_Lockout_Redis config) =? 0)%nat)
  || xorb (String.length (Node_Sequencer_Lockout_Redis config) =? 0)%nat
          (String.length (Node_Sequencer_Lockout_SelfRPCURL config) =? 0)%nat.

(** Lines 105-147.  [badConfig] is threaded through the checks; the
    sequencer branch assigns [config.WaitToCatchUp]. *)
Definition checkConfig (config : NodeConfig) : M NodeConfig :=
  let badConfig := false in
  badConfig <-
    (if BridgeUtilsAddress config =? "" then
       fmt_Println "Missing --bridge-utils-address" ;; ret true
     else ret badConfig) ;;
  badConfig <-
    (if Persistent_Chain config =? "" then
       fmt_Println "Missing --persistent.chain" ;; ret true
     else ret badConfig) ;;
  badConfig <-
    (if Rollup_Address config =? "" then
       fmt_Println "Missing --rollup.address" ;; ret true
     else ret badConfig) ;;
  badConfig <-
    (if (Node_ChainID config =? 0)%N then
       fmt_Println "Missing --rollup.chain-id" ;; ret true
     else ret badConfig) ;;
  badConfig <-
    (if Rollup_Machine_Filename config =? "" then
       fmt_Println "Missing --rollup.machine.filename" ;; ret true
     else ret badConfig) ;;
  st <-
    (if Node_Type config =? "forwarder" then
       if Node_Forwarder_Target config =? "" then
         fmt_Println "Forwarder node needs --node.forwarder.target" ;;
         ret (true, config)
       else ret (badConfig, config)
     else if Node_Type config =? "aggregator" then
       if Node_Aggregator_InboxAddress config =? "" then
         fmt_Println "Aggregator node needs --node.aggregator.inbox-address" ;;
         ret (true, config)
       else ret (badConfig, config)
     else if Node_Type config =? "sequencer" then
       (* Sequencer always waits *)
       ret (badConfig, set_WaitToCatchUp true config)
     else
       fmt_Printf ("Unrecognized node type " ++ Node_Type config) ;;
       ret (true, config)) ;;
  let '(badConfig, config) := st in
  if badConfig then return_ nil_error else ret config.

(** Lines 92-147: the result of [configuration.ParseNode] is tested by
    the short-circuit condition of line 93, then by [checkConfig]. *)
Definition validate (env : Env) (parsed : Result NodeConfig) : M NodeConfig :=
  match parsed with
  | Err err =>
      printSampleUsage env ;;
      (if negb (strings_Contains err "help requested") then
         fmt_Printf (err ++ nl)
       else ret tt) ;;
      return_ nil_error
  | Ok config =>
      if usageGate config then
        printSampleUsage env ;;
        return_ nil_error
      else checkConfig config
  end.

(** ** Start-up of the collaborators: lines 149-201 *)

(** [if err != nil { return wrap(err) }] after a call that answered [r]. *)
Definition check (r : error) (wrap : Error -> error) : M unit :=
  match r with
  | Some err => return_ (wrap err)
  | None => ret tt
  end.

(** Lines 181-190: the sends on [healthChan], whose buffer of
    [largeChannelBuffer] entries they never fill. *)
Definition publishHealth (config : NodeConfig) : M unit :=
  emit (Ev_healthChan_send
          {| Config := true; Var := "healthcheckMetrics"; ValStr := "";
             ValBool := Healthcheck_Metrics config |}) ;;
  emit (Ev_healthChan_send
          {| Config := true; Var := "disablePrimaryCheck"; ValStr := "";
             ValBool := negb (Healthcheck_Sequencer config) |}) ;;
  emit (Ev_healthChan_send
          {| Config := true; Var := "disableOpenEthereumCheck"; ValStr := "";
             ValBool := negb (Healthcheck_L1Node config) |}) ;;
  emit (Ev_healthChan_send
          {| Config := true; Var := "healthcheckRPC";
             ValStr := Healthcheck_Addr config ++ ":" ++ Healthcheck_Port config;
             ValBool := false |}) ;;
  (if Node_Type config =? "forwarder" then
     emit (Ev_healthChan_send
             {| Config := true; Var := "primaryHealthcheckRPC";
                ValStr := Node_Forwarder_Target config; ValBool := false |})
   else ret tt) ;;
  emit (Ev_healthChan_send
          {| Config := true; Var := "openethereumHealthcheckRPC";
             ValStr := L1_URL config; ValBool := false |}) ;;
  emit Ev_nodehealth_Init.

(** The [for _, url := range config.Feed.Input.URLs] of lines 197-200. *)
Fixpoint connectFeeds (urls : list string) : M unit :=
  match urls with
  | [] => ret tt
  | url :: urls' => emit (Ev_ConnectInBackground url) ;; connectFeeds urls'
  end.

(** Lines 192-201. *)
Definition subscribeFeed (config : NodeConfig) : M unit :=
  if (List.length (Feed_Input_URLs config) =? 0)%nat then
    emit (Ev_Log WarnLevel nil_error "Missing --feed.url so not subscribing to feed")
  else connectFeeds (Feed_Input_URLs config).

(** ** The inbox-reader retry loop: lines 202-219

    [k] counts the calls of [mon.StartInboxReader] made so far. *)
Fixpoint inboxReaderLoop (env : Env) (fuel k : nat) : M InboxReader :=
  match fuel with
  | O => out_of_fuel
  | S fuel' =>
      let r := StartInboxReader env k in
      emit (Ev_StartInboxReader r) ;;
      match r with
      | Ok inboxReader => ret inboxReader
      | Err err =>
          emit (Ev_Log WarnLevel (Some err)
                  "failed to start inbox reader, waiting and retrying") ;;
          match inboxSelect env k with
          | Arm_ctx_Done =>
              emit Ev_ctx_Done ;;
              return_ (errors_New "ctx cancelled StartInboxReader retry loop")
          | Arm_time_After =>
              emit (Ev_time_After (5 * time_Second)) ;;
              inboxReaderLoop env fuel' (S k)
          end
      end
  end.

(** ** The batcher mode: lines 221-260 *)
Definition resolveBatcherMode (env : Env) (config : NodeConfig)
    (inboxReader : InboxReader) : M BatcherMode :=
  if Node_Type config =? "forwarder" then
    emit (Ev_Log InfoLevel nil_error "Arbitrum node starting in forwarder mode") ;;
    ret (ForwarderBatcherMode (Node_Forwarder_Target config))
  else
    let r := GetKeystore env in
    emit (Ev_GetKeystore r) ;;
    match r with
    | Err err => return_ (errors_Wrap err "error running GetKeystore")
    | Ok auth =>
        emit (Ev_Log InfoLevel nil_error "Arbitrum node submitting batches") ;;
        let r := WaitForBalance env in
        emit (Ev_WaitForBalance r) ;;
        check r (fun err => errors_Wrap err "error waiting for balance") ;;
        if Node_Type config =? "sequencer" then
          ret (SequencerBatcherMode auth inboxReader
                 (Node_Sequencer_DelayedMessagesTargetDelay config)
                 (Node_Sequencer_CreateBatchBlockInterval config))
        else
          let inboxAddress := HexToAddress (Node_Aggregator_InboxAddress config) in
          if Node_Aggregator_Stateful config then
            ret (StatefulBatcherMode auth inboxAddress)
          else
            ret (StatelessBatcherMode auth inboxAddress)
    end.

(** ** The batcher retry loop: lines 274-303 *)

(** The name the Go runtime prints for a dynamic type. *)
Definition type_name (t : BatcherType) : string :=
  match t with
  | T_Forwarder => "*batcher.Forwarder"
  | T_StatelessBatcher => "*batcher.StatelessBatcher"
  | T_StatefulBatcher => "*batcher.StatefulBatcher"
  | T_SequencerBatcher => "*batcher.SequencerBatcher"
  | T_LockoutBatcher => "*batcher.LockoutBatcher"
  end.

(** The type assertion of [batch] to a pointer to [batcher.SequencerBatcher]
    at line 290, which panics on any other dynamic type; the panic names
    the interface, the dynamic type and the asserted type. *)
Definition assert_SequencerBatcher (batch : Batcher) : M Batcher :=
  match batcher_type batch with
  | T_SequencerBatcher => ret batch
  | t =>
      panic ("interface conversion: batcher.TransactionBatcher is "
             ++ type_name t ++ ", not *batcher.SequencerBatcher")
  end.

(** One pass through lines 277-291: [rpc.SetupBatcher], then
    [rpc.SetupLockout] when it succeeded and a redis address is set. *)
Definition setupAttempt (env : Env) (config : NodeConfig) (batcherMode : BatcherMode)
    (k : nat) : M (Result Batcher) :=
  let r := SetupBatcher env k batcherMode in
  emit (Ev_SetupBatcher batcherMode r) ;;
  let lockoutConf := Node_Sequencer_Lockout config in
  match r with
  | Ok batch =>
      if negb (Redis lockoutConf =? "") then
        seq <- assert_SequencerBatcher batch ;;
        let r := SetupLockout env k seq lockoutConf in
        emit (Ev_SetupLockout seq lockoutConf r) ;;
        ret r
      else ret r
  | Err _ => ret r
  end.

(** [k] counts the passes made so far. *)
Fixpoint batcherLoop (env : Env) (config : NodeConfig) (batcherMode : BatcherMode)
    (fuel k : nat) : M Batcher :=
  match fuel with
  | O => out_of_fuel
  | S fuel' =>
      r <- setupAttempt env config batcherMode k ;;
      match r with
      | Ok batch =>
          emit (Ev_go_batch_Start batch) ;;
          ret batch
      | Err err =>
          emit (Ev_Log WarnLevel (Some err)
                  "failed to setup batcher, waiting and retrying") ;;
          match batcherSelect env k with
          | Arm_ctx_Done =>
              emit Ev_ctx_Done ;;
              return_ (errors_New "ctx cancelled setup batcher")
          | Arm_time_After =>
              emit (Ev_time_After (5 * time_Second)) ;;
              batcherLoop env config batcherMode fuel' (S k)
          end
      end
  end.

(** ** The terminal wait: lines 320-327 *)

(** The communication the final [select] proceeds with, if any. *)
Definition selected (env : Env) : option Signal :=
  match ready env with
  | [] => hd_error (arrivals env)
  | s :: rest => Some (nth (pick env mod List.length (s :: rest)) (s :: rest) s)
  end.

Definition terminalSelect {A} (env : Env) : M A :=
  match selected env with
  | Some (Sig_txDBErrChan err) => emit (Ev_recv_txDBErrChan err) ;; return_ err
  | Some (Sig_errChan err) => emit (Ev_recv_errChan err) ;; return_ err
  | Some Sig_cancelChan => emit Ev_recv_cancelChan ;; return_ nil_error
  | None => blocked
  end.

(** ** startup *)

(** Lines 149-260: the first deferred log message, the monitor, the health
    check, the feed, the inbox reader and the batcher mode.  [fuel] bounds
    the passes of the retry loop. *)
Definition prepare (env : Env) (config : NodeConfig) (fuel : nat)
    : M (InboxReader * BatcherMode) :=
  defer (Ev_Log NoLevel nil_error "Cleanly shutting down node") ;;
  (let r := ParseLogFlags env in
   emit (Ev_ParseLogFlags r) ;;
   check r (fun err => Some err)) ;;
  (if PProfEnable config then emit Ev_go_pprof else ret tt) ;;
  emit (Ev_Log InfoLevel nil_error "Launching arbitrum node") ;;
  (let r := NewMonitor env in
   emit (Ev_NewMonitor r) ;;
   check r (fun err => errors_Wrap err "error opening monitor")) ;;
  defer Ev_mon_Close ;;
  emit Ev_go_StartNodeHealthCheck ;;
  publishHealth config ;;
  subscribeFeed config ;;
  inboxReader <- inboxReaderLoop env fuel 0 ;;
  batcherMode <- resolveBatcherMode env config inboxReader ;;
  ret (inboxReader, batcherMode).

(** Lines 274-318: the batcher, the metrics and the public server. *)
Definition serve (env : Env) (config : NodeConfig) (batcherMode : BatcherMode)
    (fuel : nat) : M unit :=
  batch <- batcherLoop env config batcherMode fuel 0 ;;
  emit Ev_RegisterSystemMetrics ;;
  emit Ev_RegisterStaticMetrics ;;
  emit (Ev_NewServer batch) ;;
  (let r := GenerateWeb3Server env in
   emit (Ev_GenerateWeb3Server r) ;;
   check r (fun err => Some err)) ;;
  emit Ev_go_LaunchPublicServer.

(** Lines 149-318, with the transaction database of lines 262-272 between
    [prepare] and [serve]. *)
Definition launch (env : Env) (config : NodeConfig) (fuel : nat) : M unit :=
  p <- prepare env config fuel ;;
  let '(inboxReader, batcherMode) := p in
  emit Ev_RegisterNodeStoreMetrics ;;
  (let r := txdb_New env in
   emit (Ev_txdb_New r) ;;
   check r (fun err => errors_Wrap err "error opening txdb")) ;;
  defer Ev_db_Close ;;
  (if WaitToCatchUp config then emit (Ev_WaitToCatchUp inboxReader) else ret tt) ;;
  serve env config batcherMode fuel.

(** The body of [startup], before its deferred calls run. *)
Definition startup_body (env : Env) (parsed : Result NodeConfig) (fuel : nat)
    : M Empty_set :=
  defer Ev_cancelFunc ;;
  config <- validate env parsed ;;
  launch env config fuel ;;
  terminalSelect env.

(** How a call of [startup] ends. *)
Inductive Outcome :=
| Returned (err : error)
| Panicked (msg : string)
| Waiting       (* blocked in the final [select] for ever *)
| Unfinished.   (* still in a retry loop when the fuel ran out *)

(** [startup]: the body, then, when the function returns or panics, the
    deferred calls, last deferred first.  The result is the outcome and
    every event in order. *)
Definition startup (env : Env) (parsed : Result NodeConfig) (fuel : nat)
    : Outcome * list Event :=
  match startup_body env parsed fuel with
  | (Val v, _) => match v with end
  | (Return err, w) => (Returned err, (events w ++ deferred w)%list)
  | (Panic msg, w) => (Panicked msg, (events w ++ deferred w)%list)
  | (Blocked, w) => (Waiting, events w)
  | (OutOfFuel, w) => (Unfinished, events w)
  end.

(** ** Sample environments *)

Definition cfg_sequencer : NodeConfig :=
  {| BridgeUtilsAddress := "0xb"; Feed_Input_URLs := [];
     Healthcheck_Addr := ""; Healthcheck_L1Node := false;
     Healthcheck_Metrics := false; Healthcheck_Port := "";
     Healthcheck_Sequencer := false; L1_URL := "http://l1";
     Node_Aggregator_InboxAddress := ""; Node_Aggregator_MaxBatchTime := 10;
     Node_Aggregator_Stateful := false; Node_ChainID := 42161;
     Node_Forwarder_Target := "";
     Node_Sequencer_CreateBatchBlockInterval := 270;
     Node_Sequencer_DelayedMessagesTargetDelay := 12;
     Node_Sequencer_Lockout_Redis := "r:6379";
     Node_Sequencer_Lockout_SelfRPCURL := "http://self";
     Node_Type := "sequencer"; Persistent_Chain := "/data/chain";
     Persistent_GlobalConfig := "/data"; PProfEnable := false;
     Rollup_Address := "0xa"; Rollup_FromBlock := 0;
     Rollup_Machine_Filename := "arbos.mexe"; WaitToCatchUp := false |}.

(** Every collaborator succeeds at once and hands out batchers of the
    type its mode asks for; the operator then cancels. *)
Definition env_ok : Env :=
  {| WalletArgsString := "[wallet arguments]";
     ParseLogFlags := None;
     NewMonitor := None;
     StartInboxReader := fun k => Ok k;
     inboxSelect := fun _ => Arm_time_After;
     GetKeystore := Ok {| From := "0xf" |};
     WaitForBalance := None;
     txdb_New := None;
     SetupBatcher := fun k mode =>
       Ok {| batcher_type :=
               match mode with
               | ForwarderBatcherMode _ => T_Forwarder
               | SequencerBatcherMode _ _ _ _ => T_SequencerBatcher
               | StatefulBatcherMode _ _ => T_StatefulBatcher
               | StatelessBatcherMode _ _ => T_StatelessBatcher
               end;
             batcher_id := k |};
     SetupLockout := fun k b _ =>
       Ok {| batcher_type := T_LockoutBatcher; batcher_id := batcher_id b |};
     batcherSelect := fun _ => Arm_time_After;
     GenerateWeb3Server := None;
     ready := [];
     pick := 0;
     arrivals := [Sig_cancelChan] |}.

(** The collaborators of [env_ok], except that the inbox reader and the
    batcher both fail twice before they succeed. *)
Definition env_flaky : Env :=
  {| WalletArgsString := WalletArgsString env_ok;
     ParseLogFlags := None;
     NewMonitor := None;
     StartInboxReader := fun k =>
       if (k <? 2)%nat then Err "dial tcp: connection refused" else Ok k;
     inboxSelect := fun _ => Arm_time_After;
     GetKeystore := GetKeystore env_ok;
     WaitForBalance := None;
     txdb_New := None;
     SetupBatcher := fun k mode =>
       if (k <? 2)%nat then Err "nonce too low" else SetupBatcher env_ok k mode;
     SetupLockout := SetupLockout env_ok;
     batcherSelect := fun _ => Arm_time_After;
     GenerateWeb3Server := None;
     ready := [];
     pick := 0;
     arrivals := [Sig_cancelChan] |}.

(** A forwarder that was given no target to forward to. *)
Definition cfg_forwarder_no_target : NodeConfig :=
  {| BridgeUtilsAddress := "0xb"; Feed_Input_URLs := [];
     Healthcheck_Addr := ""; Healthcheck_L1Node := false;
     Healthcheck_Metrics := false; Healthcheck_Port := "";
     Healthcheck_Sequencer := false; L1_URL := "http://l1";
     Node_Aggregator_InboxAddress := ""; Node_Aggregator_MaxBatchTime := 10;
     Node_Aggregator_Stateful := false; Node_ChainID := 42161;
     Node_Forwarder_Target := "";
     Node_Sequencer_CreateBatchBlockInterval := 270;
     Node_Sequencer_DelayedMessagesTargetDelay := 12;
     Node_Sequencer_Lockout_Redis := "";
     Node_Sequencer_Lockout_SelfRPCURL := "";
     Node_Type := "forwarder"; Persistent_Chain := "/data/chain";
     Persistent_GlobalConfig := "/data"; PProfEnable := false;
     Rollup_Address := "0xa"; Rollup_FromBlock := 0;
     Rollup_Machine_Filename := "arbos.mexe"; WaitToCatchUp := false |}.

(** A sequencer with neither an L1 URL nor a chain id. *)
Definition cfg_no_url_no_chain_id : NodeConfig :=
  {| BridgeUtilsAddress := "0xb"; Feed_Input_URLs := [];
     Healthcheck_Addr := ""; Healthcheck_L1Node := false;
     Healthcheck_Metrics := false; Healthcheck_Port := "";
     Healthcheck_Sequencer := false; L1_URL := "";
     Node_Aggregator_InboxAddress := ""; Node_Aggregator_MaxBatchTime := 10;
     Node_Aggregator_Stateful := false; Node_ChainID := 0;
     Node_Forwarder_Target := "";
     Node_Sequencer_CreateBatchBlockInterval := 270;
     Node_Sequencer_DelayedMessagesTargetDelay := 12;
     Node_Sequencer_Lockout_Redis := "";
     Node_Sequencer_Lockout_SelfRPCURL := "";
     Node_Type := "sequencer"; Persistent_Chain := "/data/chain";
     Persistent_GlobalConfig := "/data"; PProfEnable := false;
     Rollup_Address := "0xa"; Rollup_FromBlock := 0;
     Rollup_Machine_Filename := "arbos.mexe"; WaitToCatchUp := false |}.

(** An aggregator with neither a chain id nor a machine file. *)
Definition cfg_no_chain_id_no_machine : NodeConfig :=
  {| BridgeUtilsAddress := "0xb"; Feed_Input_URLs := [];
     Healthcheck_Addr := ""; Healthcheck_L1Node := false;
     Healthcheck_Metrics := false; Healthcheck_Port := "";
     Healthcheck_Sequencer := false; L1_URL := "http://l1";
     Node_Aggregator_InboxAddress := "0xc"; Node_Aggregator_MaxBatchTime := 10;
     Node_Aggregator_Stateful := false; Node_ChainID := 0;
     Node_Forwarder_Target := "";
     Node_Sequencer_CreateBatchBlockInterval := 270;
     Node_Sequencer_DelayedMessagesTargetDelay := 12;
     Node_Sequencer_Lockout_Redis := "";
     Node_Sequencer_Lockout_SelfRPCURL := "";
     Node_Type := "aggregator"; Persistent_Chain := "/data/chain";
     Persistent_GlobalConfig := "/data"; PProfEnable := false;
     Rollup_Address := "0xa"; Rollup_FromBlock := 0;
     Rollup_Machine_Filename := ""; WaitToCatchUp := false |}.

(** A sequencer with a redis address and no RPC URL of its own. *)
Definition cfg_redis_without_self : NodeConfig :=
  {| BridgeUtilsAddress := "0xb"; Feed_Input_URLs := [];
     Healthcheck_Addr := ""; Healthcheck_L1Node := false;
     Healthcheck_Metrics := false; Healthcheck_Port := "";
     Healthcheck_Sequencer := false; L1_URL := "http://l1";
     Node_Aggregator_InboxAddress := ""; Node_Aggregator_MaxBatchTime := 10;
     Node_Aggregator_Stateful := false; Node_ChainID := 42161;
     Node_Forwarder_Target := "";
     Node_Sequencer_CreateBatchBlockInterval := 270;
     Node_Sequencer_DelayedMessagesTargetDelay := 12;
     Node_Sequencer_Lockout_Redis := "r:6379";
     Node_Sequencer_Lockout_SelfRPCURL := "";
     Node_Type := "sequencer"; Persistent_Chain := "/data/chain";
     Persistent_GlobalConfig := "/data"; PProfEnable := false;
     Rollup_Address := "0xa"; Rollup_FromBlock := 0;
     Rollup_Machine_Filename := "arbos.mexe"; WaitToCatchUp := false |}.

(** A stateless aggregator configured to wait for the inbox reader. *)
Definition cfg_aggregator_waits : NodeConfig :=
  {| BridgeUtilsAddress := "0xb"; Feed_Input_URLs := ["ws://feed"];
     Healthcheck_Addr := ""; Healthcheck_L1Node := false;
     Healthcheck_Metrics := false; Healthcheck_Port := "";
     Healthcheck_Sequencer := false; L1_URL := "http://l1";
     Node_Aggregator_InboxAddress := "0xc"; Node_Aggregator_MaxBatchTime := 10;
     Node_Aggregator_Stateful := false; Node_ChainID := 42161;
     Node_Forwarder_Target := "";
     Node_Sequencer_CreateBatchBlockInterval := 270;
     Node_Sequencer_DelayedMessagesTargetDelay := 12;
     Node_Sequencer_Lockout_Redis := "";
     Node_Sequencer_Lockout_SelfRPCURL := "";
     Node_Type := "aggregator"; Persistent_Chain := "/data/chain";
     Persistent_GlobalConfig := "/data"; PProfEnable := false;
     Rollup_Address := "0xa"; Rollup_FromBlock := 0;
     Rollup_Machine_Filename := "arbos.mexe"; WaitToCatchUp := true |}.

(** The collaborators of [env_ok], except that the inbox reader cannot
    be started and the operator cancels during the first wait. *)
Definition env_cancelled_retry : Env :=
  {| WalletArgsString := WalletArgsString env_ok;
     ParseLogFlags := None;
     NewMonitor := None;
     StartInboxReader := fun _ => Err "dial tcp: connection refused";
     inboxSelect := fun _ => Arm_ctx_Done;
     GetKeystore := GetKeystore env_ok;
     WaitForBalance := None;
     txdb_New := None;
     SetupBatcher := SetupBatcher env_ok;
     SetupLockout := SetupLockout env_ok;
     batcherSelect := fun _ => Arm_time_After;
     GenerateWeb3Server := None;
     ready := [];
     pick := 0;
     arrivals := [Sig_cancelChan] |}.

(** The collaborators of [env_ok], except that the first lockout wrap
    fails, and that the transaction database reports an error before the
    operator cancels. *)
Definition env_lockout_fails_once : Env :=
  {| WalletArgsString := WalletArgsString env_ok;
     ParseLogFlags := None;
     NewMonitor := None;
     StartInboxReader := StartInboxReader env_ok;
     inboxSelect := fun _ => Arm_time_After;
     GetKeystore := GetKeystore env_ok;
     WaitForBalance := None;
     txdb_New := None;
     SetupBatcher := SetupBatcher env_ok;
     SetupLockout := fun k b conf =>
       match k with
       | O => Err "redis: connection refused"
       | S _ => SetupLockout env_ok k b conf
       end;
     batcherSelect := fun _ => Arm_time_After;
     GenerateWeb3Server := None;
     ready := [];
     pick := 0;
     arrivals := [Sig_txDBErrChan (Some "txdb: core thread failed");
                  Sig_cancelChan] |}.

(** ** The validation rules, as the specification lists them *)

Inductive Rule :=
| R_persistent_global_config
| R_l1_url
| R_rollup_address
| R_bridge_utils_address
| R_lockout_sequencer_only
| R_lockout_pair
| R_persistent_chain
| R_chain_id
| R_machine_filename
| R_forwarder_target
| R_aggregator_inbox_address
| R_node_type.

Definition is_empty (s : string) : bool := s =? "".

(** [violated r config]: the configuration breaks rule [r]. *)
Definition violated (config : NodeConfig) (r : Rule) : bool :=
  match r with
  | R_persistent_global_config => is_empty (Persistent_GlobalConfig config)
  | R_l1_url => is_empty (L1_URL config)
  | R_rollup_address => is_empty (Rollup_Address config)
  | R_bridge_utils_address => is_empty (BridgeUtilsAddress config)
  | R_lockout_sequencer_only =>
      negb (Node_Type config =? "sequencer")
      && negb (is_empty (Node_Sequencer_Lockout_Redis config))
  | R_lockout_pair =>
      xorb (is_empty (Node_Sequencer_Lockout_Redis config))
           (is_empty (Node_Sequencer_Lockout_SelfRPCURL config))
  | R_persistent_chain => is_empty (Persistent_Chain config)
  | R_chain_id => (Node_ChainID config =? 0)%N
  | R_machine_filename => is_empty (Rollup_Machine_Filename config)
  | R_forwarder_target =>
      (Node_Type config =? "forwarder") && is_empty (Node_Forwarder_Target config)
  | R_aggregator_inbox_address =>
      (Node_Type config =? "aggregator")
      && is_empty (Node_Aggregator_InboxAddress config)
  | R_node_type =>
      negb (Node_Type config =? "forwarder")
      && negb (Node_Type config =? "aggregator")
      && negb (Node_Type config =? "sequencer")
  end.

(** The rules tested by the condition of lines 93-96, which has no text
    of its own for any of them. *)
Definition gateRules : list Rule :=
  [R_persistent_global_config; R_l1_url; R_rollup_address;
   R_bridge_utils_address; R_lockout_sequencer_only; R_lockout_pair].

(** The rules tested one by one at lines 105-143, in that order. *)
Definition checkedRules : list Rule :=
  [R_bridge_utils_address; R_persistent_chain; R_rollup_address; R_chain_id;
   R_machine_filename; R_forwarder_target; R_aggregator_inbox_address;
   R_node_type].

Definition allRules : list Rule := (gateRules ++ checkedRules)%list.

(** The line the source prints for a rule, for the rules that have one. *)
Definition rule_text (config : NodeConfig) (r : Rule) : option string :=
  match r with
  | R_bridge_utils_address => Some ("Missing --bridge-utils-address" ++ nl)
  | R_persistent_chain => Some ("Missing --persistent.chain" ++ nl)
  | R_rollup_address => Some ("Missing --rollup.address" ++ nl)
  | R_chain_id => Some ("Missing --rollup.chain-id" ++ nl)
  | R_machine_filename => Some ("Missing --rollup.machine.filename" ++ nl)
  | R_forwarder_target =>
      Some ("Forwarder node needs --node.forwarder.target" ++ nl)
  | R_aggregator_inbox_address =>
      Some ("Aggregator node needs --node.aggregator.inbox-address" ++ nl)
  | R_node_type => Some ("Unrecognized node type " ++ Node_Type config)
  | _ => None
  end.

Definition rule_event (config : NodeConfig) (r : Rule) : list Event :=
  match rule_text config r with
  | Some text => [Ev_Print text]
  | None => []
  end.

(** One line for every violated rule of [checkedRules], in order. *)
Definition reported (config : NodeConfig) : list Event :=
  flat_map (rule_event config) (filter (violated config) checkedRules).

(** The text of [printSampleUsage]. *)
Definition usage (env : Env) : list Event := events (snd (printSampleUsage env)).

(** The configuration as it is after line 143. *)
Definition checked (config : NodeConfig) : NodeConfig :=
  if Node_Type config =? "sequencer" then set_WaitToCatchUp true config
  else config.

(** ** Where an event can come from *)

(** The log message deferred at line 149. *)
Definition shutdown_message : Event :=
  Ev_Log NoLevel nil_error "Cleanly shutting down node".

(** The calls [startup] defers: lines 90, 149, 170 and 268. *)
Definition is_release (e : Event) : bool :=
  match e with
  | Ev_cancelFunc | Ev_mon_Close | Ev_db_Close | Ev_Log NoLevel _ _ => true
  | _ => false
  end.

(** Events of lines 149-260 outside the retry loop. *)
Definition in_setup (e : Event) : bool :=
  match e with
  | Ev_Log InfoLevel _ _ | Ev_Log WarnLevel _ _
  | Ev_ParseLogFlags _ | Ev_go_pprof | Ev_NewMonitor _
  | Ev_go_StartNodeHealthCheck | Ev_healthChan_send _ | Ev_nodehealth_Init
  | Ev_ConnectInBackground _ | Ev_GetKeystore _ | Ev_WaitForBalance _ => true
  | _ => false
  end.

(** Events of lines 149-260. *)
Definition in_prepare (e : Event) : bool :=
  in_setup e ||
  match e with
  | Ev_StartInboxReader _ | Ev_ctx_Done | Ev_time_After _ => true
  | _ => false
  end.

(** Events of the batcher loop, lines 276-303. *)
Definition in_batcher_loop (e : Event) : bool :=
  match e with
  | Ev_Log WarnLevel _ _ | Ev_SetupBatcher _ _ | Ev_SetupLockout _ _ _
  | Ev_go_batch_Start _ | Ev_ctx_Done | Ev_time_After _ => true
  | _ => false
  end.

(** Events of lines 274-318. *)
Definition in_serve (e : Event) : bool :=
  in_batcher_loop e ||
  match e with
  | Ev_RegisterSystemMetrics | Ev_RegisterStaticMetrics | Ev_NewServer _
  | Ev_GenerateWeb3Server _ | Ev_go_LaunchPublicServer => true
  | _ => false
  end.

Definition is_print (e : Event) : bool :=
  match e with Ev_Print _ => true | _ => false end.

(** [startup] returned or panicked: its deferred calls ran. *)
Definition exited (o : Outcome) : bool :=
  match o with
  | Returned _ | Panicked _ => true
  | Waiting | Unfinished => false
  end.

(** The deferred calls pending once the transaction database is open, in
    the order in which they run. *)
Definition releases : list Event :=
  [Ev_db_Close; Ev_mon_Close; shutdown_message; Ev_cancelFunc].

(** The value a communication of the final [select] makes [startup]
    return, and the event of receiving it. *)
Definition signal_error (s : Signal) : error :=
  match s with
  | Sig_txDBErrChan err => err
  | Sig_errChan err => err
  | Sig_cancelChan => nil_error
  end.

Definition received (s : Signal) : Event :=
  match s with
  | Sig_txDBErrChan err => Ev_recv_txDBErrChan err
  | Sig_errChan err => Ev_recv_errChan err
  | Sig_cancelChan => Ev_recv_cancelChan
  end.

Definition is_recv (e : Event) : bool :=
  match e with
  | Ev_recv_txDBErrChan _ | Ev_recv_errChan _ | Ev_recv_cancelChan => true
  | _ => false
  end.

Definition is_SequencerBatcherMode (mode : BatcherMode) : bool :=
  match mode with
  | SequencerBatcherMode _ _ _ _ => true
  | _ => false
  end.

(** The errors returned when a retry loop sees the context cancelled. *)
Definition cancelled_inbox : error :=
  errors_New "ctx cancelled StartInboxReader retry loop".
Definition cancelled_batcher : error :=
  errors_New "ctx cancelled setup batcher".

(** ** What a failed pass of a retry loop leaves in the trace *)

Definition failed {T} (r : Result T) : bool :=
  match r with Err _ => true | Ok _ => false end.

Definition err_of {T} (r : Result T) : error :=
  match r with Err e => Some e | Ok _ => None end.

(** Lines 204-218 when the call fails and the timer fires. *)
Definition inbox_failure (env : Env) (i : nat) : list Event :=
  [Ev_StartInboxReader (StartInboxReader env i);
   Ev_Log WarnLevel (err_of (StartInboxReader env i))
     "failed to start inbox reader, waiting and retrying";
   Ev_time_After (5 * time_Second)].

(** The answer of pass [i] of the batcher loop, when it does not panic. *)
Definition pass_result (env : Env) (config : NodeConfig) (mode : BatcherMode)
    (i : nat) : option (Result Batcher) :=
  match fst (setupAttempt env config mode i) with
  | Val r => Some r
  | _ => None
  end.

Definition pass_failed (env : Env) (config : NodeConfig) (mode : BatcherMode)
    (i : nat) : bool :=
  match pass_result env config mode i with
  | Some r => failed r
  | None => false
  end.

Definition pass_error (env : Env) (config : NodeConfig) (mode : BatcherMode)
    (i : nat) : error :=
  match pass_result env config mode i with
  | Some r => err_of r
  | None => None
  end.

(** Lines 277-302 when the pass fails and the timer fires. *)
Definition pass_failure (env : Env) (config : NodeConfig) (mode : BatcherMode)
    (i : nat) : list Event :=
  (events (snd (setupAttempt env config mode i)) ++
   [Ev_Log WarnLevel (pass_error env config mode i)
      "failed to setup batcher, waiting and retrying";
    Ev_time_After (5 * time_Second)])%list.

Definition count (c : Event -> bool) (tr : list Event) : nat :=
  List.length (filter c tr).

Definition is_StartInboxReader (e : Event) : bool :=
  match e with Ev_StartInboxReader _ => true | _ => false end.

Definition is_SetupBatcher (e : Event) : bool :=
  match e with Ev_SetupBatcher _ _ => true | _ => false end.

Definition is_warning (e : Event) : bool :=
  match e with Ev_Log WarnLevel (Some _) _ => true | _ => false end.

Definition is_five_second_wait (e : Event) : bool :=
  match e with Ev_time_After d => (d =? 5000000000)%Z | _ => false end.

(** ** The calls of the batcher loop *)

Definition is_SetupLockout (e : Event) : bool :=
  match e with Ev_SetupLockout _ _ _ => true | _ => false end.

(** Every call of [rpc.SetupLockout] in [tr] comes right after a
    successful call of [rpc.SetupBatcher], and wraps the batcher which that
    call produced. *)
Definition wraps_fresh_batchers (tr : list Event) : Prop :=
  forall pre b conf r post,
    tr = (pre ++ Ev_SetupLockout b conf r :: post)%list ->
    exists pre' mode, pre = (pre' ++ [Ev_SetupBatcher mode (Ok b)])%list.

(** What the batcher loop of a run with configuration [config] and mode
    [mode] passes to its collaborators. *)
Definition call_ok (config : NodeConfig) (mode : BatcherMode) (e : Event) : Prop :=
  match e with
  | Ev_SetupBatcher m _ => m = mode
  | Ev_SetupLockout b conf _ =>
      Node_Sequencer_Lockout_Redis config <> "" /\
      batcher_type b = T_SequencerBatcher /\
      conf = Node_Sequencer_Lockout config
  | _ => True
  end.

(** ** main: lines 63-78 *)





(** ** What a trace shows of the start-up sequence *)

Definition is_healthChan_send (e : Event) : bool :=
  match e with Ev_healthChan_send _ => true | _ => false end.

(** The feed URLs a broadcast client was connected to, in order. *)
Definition connected (tr : list Event) : list string :=
  flat_map (fun e => match e with
                     | Ev_ConnectInBackground url => [url]
                     | _ => []
                     end) tr.

(** The timers of [tr] all last five seconds. *)
Definition fixed_wait (e : Event) : bool :=
  match e with
  | Ev_time_After d => (d =? 5 * time_Second)%Z
  | _ => true
  end.

(** The place of a call in [startup]: the statements of lines 92-327 in
    the order of the text (printing 92-147, then lines 151, 157, 166, 175,
    181-189, 190, 199, 204, 228, 235, 263, 264, 271, 277 and 290, 293, 305,
    306, 308, 309, 314 and the receive of 320-326), followed by the
    deferred calls of lines 268, 170, 149 and 90, last deferred first.
    Log messages other than the deferred one and the arms of the retry
    waits have no place. *)
Definition stage (e : Event) : option nat :=
  match e with
  | Ev_Print _ => Some 0
  | Ev_ParseLogFlags _ => Some 1
  | Ev_go_pprof => Some 2
  | Ev_NewMonitor _ => Some 3
  | Ev_go_StartNodeHealthCheck => Some 4
  | Ev_healthChan_send _ => Some 5
  | Ev_nodehealth_Init => Some 6
  | Ev_ConnectInBackground _ => Some 7
  | Ev_StartInboxReader _ => Some 8
  | Ev_GetKeystore _ => Some 9
  | Ev_WaitForBalance _ => Some 10
  | Ev_RegisterNodeStoreMetrics => Some 11
  | Ev_txdb_New _ => Some 12
  | Ev_WaitToCatchUp _ => Some 13
  | Ev_SetupBatcher _ _ => Some 14
  | Ev_SetupLockout _ _ _ => Some 14
  | Ev_go_batch_Start _ => Some 15
  | Ev_RegisterSystemMetrics => Some 16
  | Ev_RegisterStaticMetrics => Some 17
  | Ev_NewServer _ => Some 18
  | Ev_GenerateWeb3Server _ => Some 19
  | Ev_go_LaunchPublicServer => Some 20
  | Ev_recv_txDBErrChan _ | Ev_recv_errChan _ | Ev_recv_cancelChan => Some 21
  | Ev_db_Close => Some 22
  | Ev_mon_Close => Some 23
  | Ev_Log NoLevel _ _ => Some 24
  | Ev_cancelFunc => Some 25
  | Ev_Log _ _ _ | Ev_ctx_Done | Ev_time_After _ => None
  end.

Definition stages (tr : list Event) : list nat :=
  flat_map (fun e => match stage e with Some n => [n] | None => [] end) tr.

(** The stages whose call sits in a loop or is written more than once:
    printing, the sends on [healthChan], the feed clients, and the two
    retried constructors. *)
Definition repeats (n : nat) : bool :=
  match n with
  | 0 | 5 | 7 | 8 | 14 => true
  | _ => false
  end.

(** Stage [a] may come before stage [b] in a run. *)
Definition precedes (a b : nat) : Prop :=
  a < b \/ (a = b /\ repeats a = true).

(** The warning of line 194. *)
Definition feed_warning : Event :=
  Ev_Log WarnLevel nil_error "Missing --feed.url so not subscribing to feed".

(** The events of [prepare] once the monitor is open, up to the end of
    the inbox-reader loop. *)
Definition opened_events (env : Env) (config : NodeConfig) (fuel : nat)
    : list Event :=
  Ev_ParseLogFlags None
  :: (if PProfEnable config then [Ev_go_pprof] else [])
  ++ Ev_Log InfoLevel nil_error "Launching arbitrum node"
  :: Ev_NewMonitor None
  :: Ev_go_StartNodeHealthCheck
  :: events (snd (publishHealth config))
  ++ events (snd (subscribeFeed config))
  ++ events (snd (inboxReaderLoop env fuel 0)).

(** Events of the loop of lines 203-219. *)
Definition in_inbox_loop (e : Event) : bool :=
  match e with
  | Ev_StartInboxReader _ | Ev_Log WarnLevel (Some _) _ | Ev_ctx_Done
  | Ev_time_After _ => true
  | _ => false
  end.

(** Events of lines 262-318. *)
Definition in_launch_tail (e : Event) : bool :=
  match e with
  | Ev_RegisterNodeStoreMetrics | Ev_txdb_New _ | Ev_WaitToCatchUp _
  | Ev_SetupBatcher _ _ | Ev_SetupLockout _ _ _ | Ev_go_batch_Start _
  | Ev_Log WarnLevel (Some _) _ | Ev_ctx_Done | Ev_time_After _
  | Ev_RegisterSystemMetrics | Ev_RegisterStaticMetrics | Ev_NewServer _
  | Ev_GenerateWeb3Server _ | Ev_go_LaunchPublicServer => true
  | _ => false
  end.

(** Events of lines 149-318. *)
Definition in_launch (e : Event) : bool := in_prepare e || in_launch_tail e.

(** Events of the way out of [startup]: the receive of lines 320-327 and
    the deferred calls. *)
Definition in_exit (e : Event) : bool := is_recv e || is_release e.

(** The batcher mode of lines 221-260, given the keystore's answer. *)
Definition resolved_mode (config : NodeConfig) (auth : TransactOpts)
    (inboxReader : InboxReader) : BatcherMode :=
  if Node_Type config =? "forwarder" then
    ForwarderBatcherMode (Node_Forwarder_Target config)
  else if Node_Type config =? "sequencer" then
    SequencerBatcherMode auth inboxReader
      (Node_Sequencer_DelayedMessagesTargetDelay config)
      (Node_Sequencer_CreateBatchBlockInterval config)
  else if Node_Aggregator_Stateful config then
    StatefulBatcherMode auth (HexToAddress (Node_Aggregator_InboxAddress config))
  else
    StatelessBatcherMode auth (HexToAddress (Node_Aggregator_InboxAddress config)).

(** The collaborators of [env_ok], except that neither retried
    constructor ever succeeds. *)
Definition env_never_ready : Env :=
  {| WalletArgsString := WalletArgsString env_ok;
     ParseLogFlags := None;
     NewMonitor := None;
     StartInboxReader := fun _ => Err "dial tcp: connection refused";
     inboxSelect := fun _ => Arm_time_After;
     GetKeystore := GetKeystore env_ok;
     WaitForBalance := None;
     txdb_New := None;
     SetupBatcher := fun _ _ => Err "nonce too low";
     SetupLockout := SetupLockout env_ok;
     batcherSelect := fun _ => Arm_time_After;
     GenerateWeb3Server := None;
     ready := [];
     pick := 0;
     arrivals := [] |}.

(** The collaborators of [env_ok], except that the monitor cannot be
    opened. *)
Definition env_no_monitor : Env :=
  {| WalletArgsString := WalletArgsString env_ok;
     ParseLogFlags := None;
     NewMonitor := Some "open /data/chain: permission denied";
     StartInboxReader := StartInboxReader env_ok;
     inboxSelect := fun _ => Arm_time_After;
     GetKeystore := GetKeystore env_ok;
     WaitForBalance := None;
     txdb_New := None;
     SetupBatcher := SetupBatcher env_ok;
     SetupLockout := SetupLockout env_ok;
     batcherSelect := fun _ => Arm_time_After;
     GenerateWeb3Server := None;
     ready := [];
     pick := 0;
     arrivals := [Sig_cancelChan] |}.

(** A forwarder with a target and one feed. *)
Definition cfg_forwarder : NodeConfig :=
  {| BridgeUtilsAddress := "0xb"; Feed_Input_URLs := ["ws://feed"];
     Healthcheck_Addr := ""; Healthcheck_L1Node := false;
     Healthcheck_Metrics := false; Healthcheck_Port := "";
     Healthcheck_Sequencer := false; L1_URL := "http://l1";
     Node_Aggregator_InboxAddress := ""; Node_Aggregator_MaxBatchTime := 10;
     Node_Aggregator_Stateful := false; Node_ChainID := 42161;
     Node_Forwarder_Target := "http://sequencer:8547";
     Node_Sequencer_CreateBatchBlockInterval := 270;
     Node_Sequencer_DelayedMessagesTargetDelay := 12;
     Node_Sequencer_Lockout_Redis := "";
     Node_Sequencer_Lockout_SelfRPCURL := "";
     Node_Type := "forwarder"; Persistent_Chain := "/data/chain";
     Persistent_GlobalConfig := "/data"; PProfEnable := true;
     Rollup_Address := "0xa"; Rollup_FromBlock := 0;
     Rollup_Machine_Filename := "arbos.mexe"; WaitToCatchUp := false |}.

(** The collaborators of [env_ok], except that the batcher cannot be set
    up: the timer of the first wait fires, the second wait is cut short by
    cancellation. *)
Definition env_cancelled_setup : Env :=
  {| WalletArgsString := WalletArgsString env_ok;
     ParseLogFlags := None;
     NewMonitor := None;
     StartInboxReader := StartInboxReader env_ok;
     inboxSelect := fun _ => Arm_time_After;
     GetKeystore := GetKeystore env_ok;
     WaitForBalance := None;
     txdb_New := None;
     SetupBatcher := fun _ _ => Err "nonce too low";
     SetupLockout := SetupLockout env_ok;
     batcherSelect := fun k =>
       match k with
       | O => Arm_time_After
       | S _ => Arm_ctx_Done
       end;
     GenerateWeb3Server := None;
     ready := [];
     pick := 0;
     arrivals := [Sig_cancelChan] |}.

(** The collaborators of [env_ok], except that the batcher can never be
    set up and nobody cancels. *)
Definition env_setup_never_ready : Env :=
  {| WalletArgsString := WalletArgsString env_ok;
     ParseLogFlags := None;
     NewMonitor := None;
     StartInboxReader := StartInboxReader env_ok;
     inboxSelect := fun _ => Arm_time_After;
     GetKeystore := GetKeystore env_ok;
     WaitForBalance := None;
     txdb_New := None;
     SetupBatcher := fun _ _ => Err "nonce too low";
     SetupLockout := SetupLockout env_ok;
     batcherSelect := fun _ => Arm_time_After;
     GenerateWeb3Server := None;
     ready := [];
     pick := 0;
     arrivals := [] |}.

(** * Properties *)

Arguments String.append : simpl never.
Arguments nl : simpl never.
Arguments printSampleUsage : simpl never.
Arguments checkConfig : simpl never.
Arguments validate : simpl never.
Arguments publishHealth : simpl never.
Arguments subscribeFeed : simpl never.
Arguments resolveBatcherMode : simpl never.
Arguments setupAttempt : simpl never.
Arguments terminalSelect : simpl never.
Arguments prepare : simpl never.
Arguments serve : simpl never.
Arguments launch : simpl never.
Open Scope list_scope.

(** ** Validation *)

Lemma length_zero_is_empty (s : string) :
  (String.length s =? 0)%nat = is_empty s.
Proof. destruct s; reflexivity. Qed.

Lemma is_empty_true (s : string) : is_empty s = true <-> s = "".
Proof. unfold is_empty. apply String.eqb_eq. Qed.

Lemma is_empty_false (s : string) : is_empty s = false <-> s <> "".
Proof. unfold is_empty. apply String.eqb_neq. Qed.

Lemma usageGate_rules (config : NodeConfig) :
  usageGate config = existsb (violated config) gateRules.
Proof.
  unfold usageGate. rewrite !length_zero_is_empty. simpl.
  rewrite orb_false_r, !orb_assoc. reflexivity.
Qed.

Lemma checkConfig_spec (config : NodeConfig) :
  checkConfig config =
  (if existsb (violated config) checkedRules
   then Return nil_error else Val (checked config),
   {| events := reported config; deferred := [] |}).
Proof.
  unfold checkConfig, reported, checked, rule_event, checkedRules, violated,
    is_empty, existsb, filter.
  destruct (Node_Type config =? "forwarder") eqn:Ef;
    [apply String.eqb_eq in Ef; rewrite Ef
    |destruct (Node_Type config =? "aggregator") eqn:Ea;
      [apply String.eqb_eq in Ea; rewrite Ea
      |destruct (Node_Type config =? "sequencer") eqn:Es]];
  destruct (BridgeUtilsAddress config =? "");
  destruct (Persistent_Chain config =? "");
  destruct (Rollup_Address config =? "");
  destruct (Node_ChainID config =? 0)%N;
  destruct (Rollup_Machine_Filename config =? "");
  try destruct (Node_Forwarder_Target config =? "");
  try destruct (Node_Aggregator_InboxAddress config =? "");
  reflexivity.
Qed.

Lemma validate_Ok (env : Env) (config : NodeConfig) :
  validate env (Ok config) =
  if usageGate config
  then (Return nil_error, {| events := usage env; deferred := [] |})
  else checkConfig config.
Proof. unfold validate. destruct (usageGate config); reflexivity. Qed.

Lemma validate_Err (env : Env) (err : Error) :
  validate env (Err err) =
  (Return nil_error,
   {| events :=
        usage env ++
        (if strings_Contains err "help requested" then []
         else [Ev_Print (err ++ nl)%string]);
      deferred := [] |}).
Proof.
  unfold validate. destruct (strings_Contains err "help requested"); reflexivity.
Qed.

(** What [startup] does with a configuration that [validate] turns down. *)
Lemma startup_rejects (env : Env) (config : NodeConfig) (fuel : nat) :
  existsb (violated config) allRules = true ->
  startup env (Ok config) fuel =
  (Returned nil_error,
   (if usageGate config then usage env else reported config) ++ [Ev_cancelFunc]).
Proof.
  intros Hbad. unfold startup, startup_body.
  unfold allRules in Hbad. rewrite existsb_app, <- usageGate_rules in Hbad.
  assert (Hv := validate_Ok env config).
  destruct (usageGate config).
  - simpl. rewrite Hv. reflexivity.
  - cbn [orb] in Hbad. rewrite checkConfig_spec, Hbad in Hv.
    simpl. rewrite Hv. reflexivity.
Qed.

Lemma existsb_false_filter {A} (f : A -> bool) (l : list A) :
  existsb f l = false -> filter f l = [].
Proof.
  induction l as [|a l IH]; simpl; [reflexivity|].
  destruct (f a); simpl; [discriminate|exact IH].
Qed.

Lemma validate_accepts (env : Env) (config : NodeConfig) :
  existsb (violated config) allRules = false ->
  validate env (Ok config) = (Val (checked config), log_nil).
Proof.
  unfold allRules. rewrite existsb_app, <- usageGate_rules.
  intros H. apply orb_false_iff in H. destruct H as [Hg Hc].
  rewrite validate_Ok, Hg, checkConfig_spec, Hc.
  unfold reported. rewrite (existsb_false_filter _ _ Hc). reflexivity.
Qed.

(** ** Traces *)

Lemma not_in_class (c : Event -> bool) (l : list Event) (e : Event) :
  forallb c l = true -> c e = false -> ~ In e l.
Proof.
  intros Hl He Hin. rewrite forallb_forall in Hl.
  apply Hl in Hin. congruence.
Qed.

Lemma forallb_weaken (c d : Event -> bool) (l : list Event) :
  (forall e, c e = true -> d e = true) ->
  forallb c l = true -> forallb d l = true.
Proof.
  intros Hcd. rewrite !forallb_forall. auto.
Qed.

Lemma in_setup_in_prepare (e : Event) : in_setup e = true -> in_prepare e = true.
Proof. unfold in_prepare. intros ->. reflexivity. Qed.

Lemma in_batcher_loop_in_serve (e : Event) :
  in_batcher_loop e = true -> in_serve e = true.
Proof. unfold in_serve. intros ->. reflexivity. Qed.

(** ** The inbox-reader loop *)

Lemma inboxReaderLoop_log (env : Env) (fuel k : nat) :
  deferred (snd (inboxReaderLoop env fuel k)) = [] /\
  forallb in_prepare (events (snd (inboxReaderLoop env fuel k))) = true.
Proof.
  revert k. induction fuel as [|fuel IH]; intros k; [split; reflexivity|].
  simpl. specialize (IH (S k)).
  destruct (StartInboxReader env k) as [v|err]; [split; reflexivity|].
  destruct (inboxSelect env k); [split; reflexivity|].
  destruct (inboxReaderLoop env fuel (S k)) as [[v| e | m | |] w];
    simpl in *; destruct IH as [-> ->]; split; reflexivity.
Qed.

Lemma inboxReaderLoop_exit (env : Env) (fuel k : nat) :
  match fst (inboxReaderLoop env fuel k) with
  | Val _ | OutOfFuel =>
      ~ In Ev_ctx_Done (events (snd (inboxReaderLoop env fuel k)))
  | Return err =>
      err = cancelled_inbox /\
      In Ev_ctx_Done (events (snd (inboxReaderLoop env fuel k)))
  | Panic _ | Blocked => False
  end.
Proof.
  revert k. induction fuel as [|fuel IH]; intros k; [simpl; tauto|].
  simpl. specialize (IH (S k)).
  destruct (StartInboxReader env k) as [v|err]; [simpl; intuition discriminate|].
  destruct (inboxSelect env k); [simpl; auto|].
  destruct (inboxReaderLoop env fuel (S k)) as [[v| e | m | |] w];
    simpl in *; intuition discriminate.
Qed.

(** ** The batcher loop *)

Lemma setupAttempt_log (env : Env) (config : NodeConfig) (mode : BatcherMode)
    (k : nat) :
  deferred (snd (setupAttempt env config mode k)) = [] /\
  forallb in_batcher_loop (events (snd (setupAttempt env config mode k))) = true.
Proof.
  unfold setupAttempt, assert_SequencerBatcher.
  destruct (SetupBatcher env k mode) as [b|err]; [|split; reflexivity].
  destruct (negb (Redis (Node_Sequencer_Lockout config) =? "")); [|split; reflexivity].
  destruct (batcher_type b); split; reflexivity.
Qed.

(** A pass ends with the answer of the last call it made, or panics in
    the type assertion. *)
Lemma setupAttempt_exit (env : Env) (config : NodeConfig) (mode : BatcherMode)
    (k : nat) :
  match fst (setupAttempt env config mode k) with
  | Val _ => True
  | Panic _ =>
      Node_Sequencer_Lockout_Redis config <> "" /\
      exists b, SetupBatcher env k mode = Ok b /\
                batcher_type b <> T_SequencerBatcher
  | _ => False
  end.
Proof.
  unfold setupAttempt, assert_SequencerBatcher.
  destruct (SetupBatcher env k mode) as [b|err]; [|exact I].
  simpl Redis.
  destruct (Node_Sequencer_Lockout_Redis config =? "") eqn:E; [exact I|].
  apply String.eqb_neq in E.
  destruct (batcher_type b) eqn:Eb; simpl; try exact I;
    (split; [exact E|exists b; split; [reflexivity|congruence]]).
Qed.

Lemma setupAttempt_no_ctx_Done (env : Env) (config : NodeConfig)
    (mode : BatcherMode) (k : nat) :
  ~ In Ev_ctx_Done (events (snd (setupAttempt env config mode k))).
Proof.
  unfold setupAttempt, assert_SequencerBatcher.
  destruct (SetupBatcher env k mode) as [b|err];
    [|simpl; intuition discriminate].
  destruct (negb (Redis (Node_Sequencer_Lockout config) =? ""));
    [|simpl; intuition discriminate].
  destruct (batcher_type b); simpl; intuition discriminate.
Qed.

Lemma batcherLoop_log (env : Env) (config : NodeConfig) (mode : BatcherMode)
    (fuel k : nat) :
  deferred (snd (batcherLoop env config mode fuel k)) = [] /\
  forallb in_batcher_loop
    (events (snd (batcherLoop env config mode fuel k))) = true.
Proof.
  revert k. induction fuel as [|fuel IH]; intros k; [split; reflexivity|].
  simpl. specialize (IH (S k)).
  destruct (setupAttempt_log env config mode k) as [Hd He].
  destruct (setupAttempt env config mode k) as [[[b|err]| e | m | |] w];
    simpl in *; try (split; [assumption|assumption]).
  - rewrite Hd, forallb_app, He. split; reflexivity.
  - destruct (batcherSelect env k); simpl.
    + rewrite Hd, forallb_app, He. split; reflexivity.
    + destruct (batcherLoop env config mode fuel (S k)) as [[v| e | m | |] w'];
        simpl in *; destruct IH as [-> IH]; rewrite Hd, forallb_app, He;
        simpl; rewrite ?IH; split; reflexivity.
Qed.

Lemma batcherLoop_exit (env : Env) (config : NodeConfig) (mode : BatcherMode)
    (fuel k : nat) :
  match fst (batcherLoop env config mode fuel k) with
  | Val _ | OutOfFuel =>
      ~ In Ev_ctx_Done (events (snd (batcherLoop env config mode fuel k)))
  | Return err =>
      err = cancelled_batcher /\
      In Ev_ctx_Done (events (snd (batcherLoop env config mode fuel k)))
  | Panic _ =>
      ~ In Ev_ctx_Done (events (snd (batcherLoop env config mode fuel k))) /\
      Node_Sequencer_Lockout_Redis config <> "" /\
      exists i b, SetupBatcher env i mode = Ok b /\
                  batcher_type b <> T_SequencerBatcher
  | Blocked => False
  end.
Proof.
  revert k. induction fuel as [|fuel IH]; intros k; [simpl; tauto|].
  simpl. specialize (IH (S k)).
  pose proof (setupAttempt_exit env config mode k) as Hx.
  pose proof (setupAttempt_no_ctx_Done env config mode k) as Hn.
  destruct (setupAttempt env config mode k) as [[[b|err]| e | m | |] w];
    simpl in *; try contradiction.
  - rewrite in_app_iff. simpl. intuition discriminate.
  - destruct (batcherSelect env k); simpl.
    + split; [reflexivity|]. rewrite in_app_iff. simpl. auto.
    + destruct (batcherLoop env config mode fuel (S k)) as [[v| e | m | |] w'];
        simpl in *; rewrite ?in_app_iff; simpl; try solve [intuition discriminate].
  - destruct Hx as [Hr [b [Hb Ht]]]. split; [exact Hn|].
    split; [exact Hr|]. exists k, b. auto.
Qed.

(** ** Retrying until success *)

Lemma count_app (c : Event -> bool) (l1 l2 : list Event) :
  count c (l1 ++ l2) = count c l1 + count c l2.
Proof. unfold count. rewrite filter_app, length_app. reflexivity. Qed.

Lemma count_flat_map {A} (c : Event -> bool) (f : A -> list Event) (m : nat)
    (l : list A) :
  (forall x, In x l -> count c (f x) = m) ->
  count c (flat_map f l) = m * List.length l.
Proof.
  induction l as [|a l IH]; intros H; simpl; [unfold count; simpl; lia|].
  rewrite count_app, (H a (or_introl eq_refl)), IH; [lia|].
  intros x Hx. apply H. right. exact Hx.
Qed.

Lemma inboxReaderLoop_retries (env : Env) (v : InboxReader) :
  forall N k fuel,
    (forall i, k <= i < k + N -> failed (StartInboxReader env i) = true) ->
    (forall i, k <= i < k + N -> inboxSelect env i = Arm_time_After) ->
    StartInboxReader env (k + N) = Ok v ->
    N < fuel ->
    inboxReaderLoop env fuel k =
    (Val v,
     {| events := flat_map (inbox_failure env) (seq k N)
                  ++ [Ev_StartInboxReader (Ok v)];
        deferred := [] |}).
Proof.
  induction N as [|N IH]; intros k fuel Hf Hw Hs Hfuel;
    (destruct fuel as [|fuel]; [lia|]); simpl.
  - rewrite Nat.add_0_r in Hs. rewrite Hs. reflexivity.
  - unfold inbox_failure at 1.
    assert (Hk : k <= k < k + S N) by lia.
    pose proof (Hf k Hk) as Hfk. pose proof (Hw k Hk) as Hwk.
    destruct (StartInboxReader env k) as [x|err]; [discriminate|].
    rewrite Hwk.
    rewrite (IH (S k) fuel); simpl; try reflexivity; try lia.
    + intros i Hi. apply Hf. lia.
    + intros i Hi. apply Hw. lia.
    + replace (S (k + N)) with (k + S N) by lia. exact Hs.
Qed.

Lemma setupAttempt_counts (env : Env) (config : NodeConfig) (mode : BatcherMode)
    (i : nat) :
  count is_SetupBatcher (events (snd (setupAttempt env config mode i))) = 1 /\
  count is_warning (events (snd (setupAttempt env config mode i))) = 0 /\
  count is_five_second_wait (events (snd (setupAttempt env config mode i))) = 0.
Proof.
  unfold setupAttempt, assert_SequencerBatcher.
  destruct (SetupBatcher env i mode) as [b|err]; [|repeat split; reflexivity].
  destruct (negb (Redis (Node_Sequencer_Lockout config) =? ""));
    [|repeat split; reflexivity].
  destruct (batcher_type b); repeat split; reflexivity.
Qed.

Lemma batcherLoop_retries (env : Env) (config : NodeConfig) (mode : BatcherMode)
    (b : Batcher) :
  forall N k fuel,
    (forall i, k <= i < k + N -> pass_failed env config mode i = true) ->
    (forall i, k <= i < k + N -> batcherSelect env i = Arm_time_After) ->
    pass_result env config mode (k + N) = Some (Ok b) ->
    N < fuel ->
    batcherLoop env config mode fuel k =
    (Val b,
     {| events := flat_map (pass_failure env config mode) (seq k N)
                  ++ events (snd (setupAttempt env config mode (k + N)))
                  ++ [Ev_go_batch_Start b];
        deferred := [] |}).
Proof.
  induction N as [|N IH]; intros k fuel Hf Hw Hs Hfuel;
    (destruct fuel as [|fuel]; [lia|]); simpl.
  - rewrite Nat.add_0_r in *. unfold pass_result in Hs.
    destruct (setupAttempt_log env config mode k) as [Hd _].
    destruct (setupAttempt env config mode k) as [[r| e | m | |] w];
      simpl in *; try discriminate.
    injection Hs as ->. unfold log_app. simpl. rewrite Hd. reflexivity.
  - assert (Hk : k <= k < k + S N) by lia.
    pose proof (Hf k Hk) as Hfk. pose proof (Hw k Hk) as Hwk.
    unfold pass_failure at 1. unfold pass_failed, pass_error, pass_result in *.
    destruct (setupAttempt_log env config mode k) as [Hd _].
    destruct (setupAttempt env config mode k) as [[[x|err]| e | m | |] w];
      simpl in *; try discriminate.
    rewrite Hwk. simpl.
    rewrite (IH (S k) fuel); simpl; try lia.
    + unfold log_app. simpl. rewrite Hd.
      replace (S (k + N)) with (k + S N) by lia.
      rewrite <- !app_assoc. reflexivity.
    + intros i Hi. apply Hf. lia.
    + intros i Hi. apply Hw. lia.
    + replace (S (k + N)) with (k + S N) by lia. exact Hs.
Qed.

Lemma inboxReaderLoop_value (env : Env) (v : InboxReader) (fuel k : nat) :
  fst (inboxReaderLoop env fuel k) = Val v ->
  exists i, StartInboxReader env i = Ok v.
Proof.
  revert k. induction fuel as [|fuel IH]; intros k; [discriminate|].
  simpl. specialize (IH (S k)).
  destruct (StartInboxReader env k) as [x|err] eqn:E.
  - simpl. intros [= ->]. exists k. exact E.
  - destruct (inboxSelect env k); [discriminate|].
    destruct (inboxReaderLoop env fuel (S k)) as [[x| e | m | |] w];
      simpl in *; try discriminate. exact IH.
Qed.

Lemma batcherLoop_value (env : Env) (config : NodeConfig) (mode : BatcherMode)
    (b : Batcher) (fuel k : nat) :
  fst (batcherLoop env config mode fuel k) = Val b ->
  exists i, pass_result env config mode i = Some (Ok b).
Proof.
  revert k. induction fuel as [|fuel IH]; intros k; [discriminate|].
  simpl. specialize (IH (S k)).
  destruct (setupAttempt env config mode k) as [[[x|err]| e | m | |] w] eqn:E;
    simpl; try discriminate.
  - intros [= ->]. exists k. unfold pass_result. rewrite E. reflexivity.
  - destruct (batcherSelect env k); [discriminate|].
    destruct (batcherLoop env config mode fuel (S k)) as [[x| e | m | |] w'];
      simpl in *; try discriminate. exact IH.
Qed.

Lemma inbox_failure_counts (env : Env) (i : nat) :
  failed (StartInboxReader env i) = true ->
  count is_StartInboxReader (inbox_failure env i) = 1 /\
  count is_warning (inbox_failure env i) = 1 /\
  count is_five_second_wait (inbox_failure env i) = 1.
Proof.
  unfold inbox_failure.
  destruct (StartInboxReader env i); [discriminate|].
  repeat split; reflexivity.
Qed.

Lemma pass_failure_counts (env : Env) (config : NodeConfig) (mode : BatcherMode)
    (i : nat) :
  pass_failed env config mode i = true ->
  count is_SetupBatcher (pass_failure env config mode i) = 1 /\
  count is_warning (pass_failure env config mode i) = 1 /\
  count is_five_second_wait (pass_failure env config mode i) = 1.
Proof.
  unfold pass_failure, pass_failed, pass_error. intros H.
  destruct (setupAttempt_counts env config mode i) as (H1 & H2 & H3).
  rewrite !count_app, H1, H2, H3.
  destruct (pass_result env config mode i) as [[x|err]|]; try discriminate.
  repeat split; reflexivity.
Qed.

(** ** A wait cut short by cancellation *)

Lemma inboxReaderLoop_cancelled (env : Env) :
  forall N k fuel,
    (forall i, k <= i <= k + N -> failed (StartInboxReader env i) = true) ->
    (forall i, k <= i < k + N -> inboxSelect env i = Arm_time_After) ->
    inboxSelect env (k + N) = Arm_ctx_Done ->
    N < fuel ->
    inboxReaderLoop env fuel k =
    (Return (errors_New "ctx cancelled StartInboxReader retry loop"),
     {| events := flat_map (inbox_failure env) (seq k N)
                  ++ [Ev_StartInboxReader (StartInboxReader env (k + N));
                      Ev_Log WarnLevel (err_of (StartInboxReader env (k + N)))
                        "failed to start inbox reader, waiting and retrying";
                      Ev_ctx_Done];
        deferred := [] |}).
Proof.
  induction N as [|N IH]; intros k fuel Hf Hw Hs Hfuel;
    (destruct fuel as [|fuel]; [lia|]); simpl.
  - rewrite Nat.add_0_r in *.
    assert (Hk : k <= k <= k) by lia. pose proof (Hf k Hk) as Hfk.
    destruct (StartInboxReader env k) as [x|err]; [discriminate|].
    rewrite Hs. reflexivity.
  - unfold inbox_failure at 1.
    assert (Hk : k <= k <= k + S N) by lia.
    assert (Hk' : k <= k < k + S N) by lia.
    pose proof (Hf k Hk) as Hfk. pose proof (Hw k Hk') as Hwk.
    destruct (StartInboxReader env k) as [x|err]; [discriminate|].
    rewrite Hwk.
    rewrite (IH (S k) fuel); simpl; try lia.
    + replace (S (k + N)) with (k + S N) by lia. reflexivity.
    + intros i Hi. apply Hf. lia.
    + intros i Hi. apply Hw. lia.
    + replace (S (k + N)) with (k + S N) by lia. exact Hs.
Qed.

Lemma batcherLoop_cancelled (env : Env) (config : NodeConfig)
    (mode : BatcherMode) :
  forall N k fuel,
    (forall i, k <= i <= k + N -> pass_failed env config mode i = true) ->
    (forall i, k <= i < k + N -> batcherSelect env i = Arm_time_After) ->
    batcherSelect env (k + N) = Arm_ctx_Done ->
    N < fuel ->
    batcherLoop env config mode fuel k =
    (Return (errors_New "ctx cancelled setup batcher"),
     {| events := flat_map (pass_failure env config mode) (seq k N)
                  ++ events (snd (setupAttempt env config mode (k + N)))
                  ++ [Ev_Log WarnLevel (pass_error env config mode (k + N))
                        "failed to setup batcher, waiting and retrying";
                      Ev_ctx_Done];
        deferred := [] |}).
Proof.
  induction N as [|N IH]; intros k fuel Hf Hw Hs Hfuel;
    (destruct fuel as [|fuel]; [lia|]); simpl.
  - rewrite Nat.add_0_r in *.
    assert (Hk : k <= k <= k) by lia. pose proof (Hf k Hk) as Hfk.
    unfold pass_failed, pass_error, pass_result in *.
    destruct (setupAttempt_log env config mode k) as [Hd _].
    destruct (setupAttempt env config mode k) as [[[x|err]| e | m | |] w];
      simpl in *; try discriminate.
    rewrite Hs. simpl. unfold log_app. simpl. rewrite Hd. reflexivity.
  - assert (Hk : k <= k <= k + S N) by lia.
    assert (Hk' : k <= k < k + S N) by lia.
    pose proof (Hf k Hk) as Hfk. pose proof (Hw k Hk') as Hwk.
    unfold pass_failure at 1. unfold pass_failed, pass_error, pass_result in Hfk |- *.
    destruct (setupAttempt_log env config mode k) as [Hd _].
    destruct (setupAttempt env config mode k) as [[[x|err]| e | m | |] w];
      simpl in *; try discriminate.
    rewrite Hwk. simpl.
    rewrite (IH (S k) fuel); simpl; try lia.
    + unfold log_app. simpl. rewrite Hd.
      replace (S (k + N)) with (k + S N) by lia.
      rewrite <- !app_assoc. reflexivity.
    + intros i Hi. apply Hf. lia.
    + intros i Hi. apply Hw. lia.
    + replace (S (k + N)) with (k + S N) by lia. exact Hs.
Qed.

(** How a retry loop has ended, or why it is still running, read off the
    answers of its collaborators. *)
Lemma inboxReaderLoop_ends (env : Env) (fuel k : nat) :
  match fst (inboxReaderLoop env fuel k) with
  | Val v =>
      exists N, N < fuel /\ StartInboxReader env (k + N) = Ok v /\
                forall i, k <= i < k + N ->
                          failed (StartInboxReader env i) = true /\
                          inboxSelect env i = Arm_time_After
  | Return _ =>
      exists N, N < fuel /\ inboxSelect env (k + N) = Arm_ctx_Done /\
                (forall i, k <= i <= k + N ->
                           failed (StartInboxReader env i) = true) /\
                (forall i, k <= i < k + N -> inboxSelect env i = Arm_time_After)
  | OutOfFuel =>
      forall i, k <= i < k + fuel ->
                failed (StartInboxReader env i) = true /\
                inboxSelect env i = Arm_time_After
  | Panic _ | Blocked => False
  end.
Proof.
  revert k. induction fuel as [|fuel IH]; intros k; [simpl; intros i Hi; lia|].
  simpl. specialize (IH (S k)).
  destruct (StartInboxReader env k) as [x|err] eqn:E.
  { simpl. exists 0. rewrite Nat.add_0_r. split; [lia|]. split; [exact E|].
    intros i Hi. lia. }
  assert (Hfk : failed (StartInboxReader env k) = true) by (rewrite E; reflexivity).
  destruct (inboxSelect env k) eqn:Es.
  { simpl. exists 0. rewrite Nat.add_0_r. split; [lia|]. split; [exact Es|].
    split; intros i Hi; [replace i with k by lia; exact Hfk|lia]. }
  destruct (inboxReaderLoop env fuel (S k)) as [[v| e | m | |] w];
    simpl in *; try contradiction.
  - destruct IH as (N & HN & Hs & Hall). exists (S N). split; [lia|].
    replace (k + S N) with (S (k + N)) by lia. split; [exact Hs|].
    intros i Hi. destruct (Nat.eq_dec i k) as [->|Hne]; [auto|].
    apply Hall. lia.
  - destruct IH as (N & HN & Hs & Hf & Hw). exists (S N). split; [lia|].
    replace (k + S N) with (S (k + N)) by lia. split; [exact Hs|].
    split; intros i Hi; (destruct (Nat.eq_dec i k) as [->|Hne]; [auto|]);
      [apply Hf|apply Hw]; lia.
  - intros i Hi. destruct (Nat.eq_dec i k) as [->|Hne]; [auto|].
    apply IH. lia.
Qed.

Lemma batcherLoop_ends (env : Env) (config : NodeConfig) (mode : BatcherMode)
    (fuel k : nat) :
  match fst (batcherLoop env config mode fuel k) with
  | Val b =>
      exists N, N < fuel /\ pass_result env config mode (k + N) = Some (Ok b) /\
                forall i, k <= i < k + N ->
                          pass_failed env config mode i = true /\
                          batcherSelect env i = Arm_time_After
  | Return _ =>
      exists N, N < fuel /\ batcherSelect env (k + N) = Arm_ctx_Done /\
                (forall i, k <= i <= k + N ->
                           pass_failed env config mode i = true) /\
                (forall i, k <= i < k + N -> batcherSelect env i = Arm_time_After)
  | OutOfFuel =>
      forall i, k <= i < k + fuel ->
                pass_failed env config mode i = true /\
                batcherSelect env i = Arm_time_After
  | Panic _ => True
  | Blocked => False
  end.
Proof.
  revert k. induction fuel as [|fuel IH]; intros k; [simpl; intros i Hi; lia|].
  simpl. specialize (IH (S k)).
  pose proof (setupAttempt_exit env config mode k) as Hx.
  assert (Hpass : forall r, fst (setupAttempt env config mode k) = Val r ->
                            pass_result env config mode k = Some r).
  { intros r Hr. unfold pass_result. rewrite Hr. reflexivity. }
  destruct (setupAttempt env config mode k) as [[[x|err]| e | m | |] w];
    simpl in *; try contradiction; try exact I.
  { exists 0. rewrite Nat.add_0_r. split; [lia|].
    split; [apply Hpass; reflexivity|]. intros i Hi. lia. }
  assert (Hfk : pass_failed env config mode k = true).
  { unfold pass_failed. rewrite (Hpass _ eq_refl). reflexivity. }
  destruct (batcherSelect env k) eqn:Es.
  { simpl. exists 0. rewrite Nat.add_0_r. split; [lia|]. split; [exact Es|].
    split; intros i Hi; [replace i with k by lia; exact Hfk|lia]. }
  destruct (batcherLoop env config mode fuel (S k)) as [[v| e | m | |] w'];
    simpl in *; try contradiction; try exact I.
  - destruct IH as (N & HN & Hs & Hall). exists (S N). split; [lia|].
    replace (k + S N) with (S (k + N)) by lia. split; [exact Hs|].
    intros i Hi. destruct (Nat.eq_dec i k) as [->|Hne]; [auto|].
    apply Hall. lia.
  - destruct IH as (N & HN & Hs & Hf & Hw). exists (S N). split; [lia|].
    replace (k + S N) with (S (k + N)) by lia. split; [exact Hs|].
    split; intros i Hi; (destruct (Nat.eq_dec i k) as [->|Hne]; [auto|]);
      [apply Hf|apply Hw]; lia.
  - intros i Hi. destruct (Nat.eq_dec i k) as [->|Hne]; [auto|].
    apply IH. lia.
Qed.

(** C3. Both retry loops (lines 202-219 and 276-303): when the first [N]
    passes fail, pass [N+1] succeeds and no wait is cut short by
    cancellation, the loop makes exactly [N+1] calls of the constructor,
    logs a warning after each of the [N] failures, waits five seconds after
    each warning and yields the value of the successful call.  When
    instead the wait after a failed pass is cut short by cancellation (the
    [ctx.Done()] arm is taken), the loop ends there with its cancellation
    error, after the warning of that pass and without another call.  That
    is the only way a loop ends without a value: a loop that returned an
    error returned its cancellation error, after a failed pass whose wait
    took the [ctx.Done()] arm; a loop that yielded a value got it from a
    call that succeeded after failed passes whose timers all fired; and a
    loop that has done neither has seen every pass so far fail and every
    timer fire.  (For the batcher loop this supposes that
    [rpc.SetupBatcher] hands a sequencer batcher to the type assertion of
    line 290.) *)
Theorem retry_until_success (env : Env) (config : NodeConfig) (mode : BatcherMode) :
  (forall N v fuel,
      (forall i, i < N -> failed (StartInboxReader env i) = true) ->
      (forall i, i < N -> inboxSelect env i = Arm_time_After) ->
      StartInboxReader env N = Ok v ->
      N < fuel ->
      let tr := flat_map (inbox_failure env) (seq 0 N)
                ++ [Ev_StartInboxReader (Ok v)] in
      inboxReaderLoop env fuel 0 = (Val v, {| events := tr; deferred := [] |}) /\
      count is_StartInboxReader tr = N + 1 /\
      count is_warning tr = N /\
      count is_five_second_wait tr = N) /\
  (forall N fuel,
      (forall i, i <= N -> failed (StartInboxReader env i) = true) ->
      (forall i, i < N -> inboxSelect env i = Arm_time_After) ->
      inboxSelect env N = Arm_ctx_Done ->
      N < fuel ->
      let tr := flat_map (inbox_failure env) (seq 0 N)
                ++ [Ev_StartInboxReader (StartInboxReader env N);
                    Ev_Log WarnLevel (err_of (StartInboxReader env N))
                      "failed to start inbox reader, waiting and retrying";
                    Ev_ctx_Done] in
      inboxReaderLoop env fuel 0 =
        (Return (errors_New "ctx cancelled StartInboxReader retry loop"),
         {| events := tr; deferred := [] |}) /\
      count is_StartInboxReader tr = N + 1 /\
      count is_warning tr = N + 1 /\
      count is_five_second_wait tr = N) /\
  (forall fuel,
      match fst (inboxReaderLoop env fuel 0) with
      | Val v =>
          (exists i, StartInboxReader env i = Ok v) /\
          ~ In Ev_ctx_Done (events (snd (inboxReaderLoop env fuel 0))) /\
          exists N, N < fuel /\ StartInboxReader env N = Ok v /\
                    forall i, i < N ->
                              failed (StartInboxReader env i) = true /\
                              inboxSelect env i = Arm_time_After
      | Return err =>
          err = errors_New "ctx cancelled StartInboxReader retry loop" /\
          In Ev_ctx_Done (events (snd (inboxReaderLoop env fuel 0))) /\
          exists N, N < fuel /\ inboxSelect env N = Arm_ctx_Done /\
                    (forall i, i <= N ->
                               failed (StartInboxReader env i) = true) /\
                    (forall i, i < N -> inboxSelect env i = Arm_time_After)
      | OutOfFuel =>
          forall i, i < fuel ->
                    failed (StartInboxReader env i) = true /\
                    inboxSelect env i = Arm_time_After
      | Panic _ | Blocked => False
      end) /\
  (forall N b fuel,
      (forall i, i < N -> pass_failed env config mode i = true) ->
      (forall i, i < N -> batcherSelect env i = Arm_time_After) ->
      pass_result env config mode N = Some (Ok b) ->
      N < fuel ->
      let tr := flat_map (pass_failure env config mode) (seq 0 N)
                ++ events (snd (setupAttempt env config mode N))
                ++ [Ev_go_batch_Start b] in
      batcherLoop env config mode fuel 0 =
        (Val b, {| events := tr; deferred := [] |}) /\
      count is_SetupBatcher tr = N + 1 /\
      count is_warning tr = N /\
      count is_five_second_wait tr = N) /\
  (forall N fuel,
      (forall i, i <= N -> pass_failed env config mode i = true) ->
      (forall i, i < N -> batcherSelect env i = Arm_time_After) ->
      batcherSelect env N = Arm_ctx_Done ->
      N < fuel ->
      let tr := flat_map (pass_failure env config mode) (seq 0 N)
                ++ events (snd (setupAttempt env config mode N))
                ++ [Ev_Log WarnLevel (pass_error env config mode N)
                      "failed to setup batcher, waiting and retrying";
                    Ev_ctx_Done] in
      batcherLoop env config mode fuel 0 =
        (Return (errors_New "ctx cancelled setup batcher"),
         {| events := tr; deferred := [] |}) /\
      count is_SetupBatcher tr = N + 1 /\
      count is_warning tr = N + 1 /\
      count is_five_second_wait tr = N) /\
  (forall fuel,
      (forall i b, SetupBatcher env i mode = Ok b ->
                   Node_Sequencer_Lockout_Redis config <> "" ->
                   batcher_type b = T_SequencerBatcher) ->
      match fst (batcherLoop env config mode fuel 0) with
      | Val b =>
          (exists i, pass_result env config mode i = Some (Ok b)) /\
          ~ In Ev_ctx_Done (events (snd (batcherLoop env config mode fuel 0))) /\
          exists N, N < fuel /\ pass_result env config mode N = Some (Ok b) /\
                    forall i, i < N ->
                              pass_failed env config mode i = true /\
                              batcherSelect env i = Arm_time_After
      | Return err =>
          err = errors_New "ctx cancelled setup batcher" /\
          In Ev_ctx_Done (events (snd (batcherLoop env config mode fuel 0))) /\
          exists N, N < fuel /\ batcherSelect env N = Arm_ctx_Done /\
                    (forall i, i <= N -> pass_failed env config mode i = true) /\
                    (forall i, i < N -> batcherSelect env i = Arm_time_After)
      | OutOfFuel =>
          forall i, i < fuel ->
                    pass_failed env config mode i = true /\
                    batcherSelect env i = Arm_time_After
      | Panic _ | Blocked => False
      end).
Proof.
  split; [|split; [|split; [|split; [|split]]]].
  - intros N v fuel Hf Hw Hs Hfuel tr. split.
    + apply inboxReaderLoop_retries; auto; intros i Hi; [apply Hf|apply Hw]; lia.
    + unfold tr. rewrite !count_app.
      rewrite (count_flat_map is_StartInboxReader _ 1),
              (count_flat_map is_warning _ 1),
              (count_flat_map is_five_second_wait _ 1), length_seq;
        try (intros i Hi; apply in_seq in Hi;
             apply inbox_failure_counts; apply Hf; lia).
      repeat split; unfold count; simpl; lia.
  - intros N fuel Hf Hw Hs Hfuel tr. split.
    + apply inboxReaderLoop_cancelled; auto; intros i Hi;
        [apply Hf|apply Hw]; lia.
    + unfold tr. rewrite !count_app.
      rewrite (count_flat_map is_StartInboxReader _ 1),
              (count_flat_map is_warning _ 1),
              (count_flat_map is_five_second_wait _ 1), length_seq;
        try (intros i Hi; apply in_seq in Hi;
             apply inbox_failure_counts; apply Hf; lia).
      assert (HN : failed (StartInboxReader env N) = true) by (apply Hf; lia).
      destruct (StartInboxReader env N) as [x|err]; [discriminate HN|].
      repeat split; unfold count; simpl; lia.
  - intros fuel.
    pose proof (inboxReaderLoop_exit env fuel 0) as Hx.
    pose proof (fun v => inboxReaderLoop_value env v fuel 0) as Hv.
    pose proof (inboxReaderLoop_ends env fuel 0) as He.
    destruct (inboxReaderLoop env fuel 0) as [[v| e | m | |] w];
      simpl in *; auto.
    + split; [auto|]. split; [exact Hx|].
      destruct He as (N & HN & Hs & Hall). exists N. split; [exact HN|].
      split; [exact Hs|]. intros i Hi. apply Hall. lia.
    + destruct Hx as [Hx1 Hx2]. split; [exact Hx1|]. split; [exact Hx2|].
      destruct He as (N & HN & Hs & Hf & Hw). exists N. split; [exact HN|].
      split; [exact Hs|]. split; intros i Hi; [apply Hf|apply Hw]; lia.
    + intros i Hi. apply He. lia.
  - intros N b fuel Hf Hw Hs Hfuel tr. split.
    + apply batcherLoop_retries; auto; intros i Hi; [apply Hf|apply Hw]; lia.
    + destruct (setupAttempt_counts env config mode N) as (H1 & H2 & H3).
      unfold tr. rewrite !count_app, H1, H2, H3.
      rewrite (count_flat_map is_SetupBatcher _ 1),
              (count_flat_map is_warning _ 1),
              (count_flat_map is_five_second_wait _ 1), length_seq;
        try (intros i Hi; apply in_seq in Hi;
             apply pass_failure_counts; apply Hf; lia).
      repeat split; unfold count; simpl; lia.
  - intros N fuel Hf Hw Hs Hfuel tr. split.
    + apply batcherLoop_cancelled; auto; intros i Hi;
        [apply Hf|apply Hw]; lia.
    + destruct (setupAttempt_counts env config mode N) as (H1 & H2 & H3).
      unfold tr. rewrite !count_app, H1, H2, H3.
      rewrite (count_flat_map is_SetupBatcher _ 1),
              (count_flat_map is_warning _ 1),
              (count_flat_map is_five_second_wait _ 1), length_seq;
        try (intros i Hi; apply in_seq in Hi;
             apply pass_failure_counts; apply Hf; lia).
      assert (HN : pass_failed env config mode N = true) by (apply Hf; lia).
      unfold pass_failed, pass_error in *.
      destruct (pass_result env config mode N) as [[x|err]|];
        try discriminate HN.
      repeat split; unfold count; simpl; lia.
  - intros fuel Hty.
    pose proof (batcherLoop_exit env config mode fuel 0) as Hx.
    pose proof (fun b => batcherLoop_value env config mode b fuel 0) as Hv.
    pose proof (batcherLoop_ends env config mode fuel 0) as He.
    destruct (batcherLoop env config mode fuel 0) as [[v| e | m | |] w];
      simpl in *; auto.
    + split; [auto|]. split; [exact Hx|].
      destruct He as (N & HN & Hs & Hall). exists N. split; [exact HN|].
      split; [exact Hs|]. intros i Hi. apply Hall. lia.
    + destruct Hx as [Hx1 Hx2]. split; [exact Hx1|]. split; [exact Hx2|].
      destruct He as (N & HN & Hs & Hf & Hw). exists N. split; [exact HN|].
      split; [exact Hs|]. split; intros i Hi; [apply Hf|apply Hw]; lia.
    + destruct Hx as (_ & Hr & i & b & Hb & Ht). apply Ht. eapply Hty; eauto.
    + intros i Hi. apply He. lia.
Qed.

(** ** The blocks of startup *)

(** Splits a membership [H : In e l] along the parts of [l] and closes
    the cases in which [e] cannot be there: [e] differs from a listed
    event, or belongs to no class that bounds that part of [l]. *)
Ltac split_in H :=
  repeat first [rewrite in_app_iff in H | progress simpl in H];
  repeat (destruct H as [H|H]);
  try discriminate H; try contradiction;
  try match goal with
      | Hc : forallb ?c ?l = true |- _ =>
          match type of H with
          | In ?e l => exfalso; exact (not_in_class c l e Hc eq_refl H)
          end
      | Hn : ~ In ?e ?l |- _ =>
          match type of H with
          | In e l => exfalso; exact (Hn H)
          end
      end.

Ltac not_in := let H := fresh "Hin" in intros H; split_in H.

Lemma publishHealth_spec (config : NodeConfig) :
  exists l, publishHealth config = (Val tt, {| events := l; deferred := [] |})
            /\ forallb in_setup l = true.
Proof.
  unfold publishHealth.
  destruct (Node_Type config =? "forwarder"); eexists; split; reflexivity.
Qed.

Lemma connectFeeds_spec (urls : list string) :
  exists l, connectFeeds urls = (Val tt, {| events := l; deferred := [] |})
            /\ forallb in_setup l = true.
Proof.
  induction urls as [|url urls (l & E & H)]; simpl.
  - exists []. split; reflexivity.
  - rewrite E. exists (Ev_ConnectInBackground url :: l). split; [reflexivity|exact H].
Qed.

Lemma subscribeFeed_spec (config : NodeConfig) :
  exists l, subscribeFeed config = (Val tt, {| events := l; deferred := [] |})
            /\ forallb in_setup l = true.
Proof.
  unfold subscribeFeed.
  destruct (List.length (Feed_Input_URLs config) =? 0)%nat.
  - eexists. split; reflexivity.
  - apply connectFeeds_spec.
Qed.

Lemma resolveBatcherMode_spec (env : Env) (config : NodeConfig) (rd : InboxReader) :
  exists r l,
    resolveBatcherMode env config rd = (r, {| events := l; deferred := [] |})
    /\ forallb in_setup l = true
    /\ match r with
       | Val mode =>
           is_SequencerBatcherMode mode = (Node_Type config =? "sequencer")%string
       | Return (Some _) => True
       | _ => False
       end.
Proof.
  unfold resolveBatcherMode.
  destruct (Node_Type config =? "forwarder")%string eqn:Ef.
  - apply String.eqb_eq in Ef. rewrite Ef.
    do 2 eexists. split; [reflexivity|]. split; reflexivity.
  - destruct (GetKeystore env) as [auth|err];
      [|do 2 eexists; split; [reflexivity|split; [reflexivity|exact I]]].
    destruct (WaitForBalance env) as [err|];
      [do 2 eexists; split; [reflexivity|split; [reflexivity|exact I]]|].
    destruct (Node_Type config =? "sequencer")%string;
      [|destruct (Node_Aggregator_Stateful config)];
      do 2 eexists; (split; [reflexivity|split; reflexivity]).
Qed.

Lemma prepare_spec (env : Env) (config : NodeConfig) (fuel : nat) :
  forallb in_prepare (events (snd (prepare env config fuel))) = true /\
  match fst (prepare env config fuel) with
  | Val (rd, mode) =>
      deferred (snd (prepare env config fuel)) = [Ev_mon_Close; shutdown_message]
      /\ ~ In Ev_ctx_Done (events (snd (prepare env config fuel)))
      /\ is_SequencerBatcherMode mode = (Node_Type config =? "sequencer")%string
  | Return err =>
      (deferred (snd (prepare env config fuel)) = [shutdown_message] \/
       deferred (snd (prepare env config fuel)) = [Ev_mon_Close; shutdown_message])
      /\ (In Ev_ctx_Done (events (snd (prepare env config fuel))) ->
          err = cancelled_inbox)
  | OutOfFuel => ~ In Ev_ctx_Done (events (snd (prepare env config fuel)))
  | Panic _ | Blocked => False
  end.
Proof.
  unfold prepare.
  destruct (publishHealth_spec config) as (l1 & E1 & H1).
  destruct (subscribeFeed_spec config) as (l2 & E2 & H2).
  pose proof (forallb_weaken _ _ _ in_setup_in_prepare H1) as H1'.
  pose proof (forallb_weaken _ _ _ in_setup_in_prepare H2) as H2'.
  destruct (ParseLogFlags env) as [e0|].
  { simpl. split; [reflexivity|]. split; [left; reflexivity|not_in]. }
  destruct (PProfEnable config);
  (destruct (NewMonitor env) as [e1|];
   [simpl; split; [reflexivity|]; split; [left; reflexivity|not_in]|]);
  simpl; rewrite E1; simpl; rewrite E2; simpl;
  destruct (inboxReaderLoop_log env fuel 0) as [Hd He];
  pose proof (inboxReaderLoop_exit env fuel 0) as Hx;
  (destruct (inboxReaderLoop env fuel 0) as [[rd| e | m | |] w]; simpl in *;
   try contradiction);
  try (destruct (resolveBatcherMode_spec env config rd) as (r & l3 & E3 & H3 & Hr);
       pose proof (forallb_weaken _ _ _ in_setup_in_prepare H3) as H3';
       rewrite E3;
       destruct r as [mode| [e|] | m | |]; simpl in *; try contradiction);
  unfold log_app; simpl; rewrite ?Hd; simpl;
  rewrite ?forallb_app; simpl; rewrite ?forallb_app, ?H1', ?H2', ?He, ?H3'; simpl.
  all: try (split; [reflexivity|]).
  all: try solve [not_in].
  all: try solve [split; [right; reflexivity|]; try tauto; not_in].
  all: try solve [split; [reflexivity|]; split; [not_in|assumption]].
  all: try solve [split; [right; reflexivity|]; intros _; tauto].
Qed.

Lemma serve_spec (env : Env) (config : NodeConfig) (mode : BatcherMode)
    (fuel : nat) :
  deferred (snd (serve env config mode fuel)) = [] /\
  forallb in_serve (events (snd (serve env config mode fuel))) = true /\
  match fst (serve env config mode fuel) with
  | Val _ => ~ In Ev_ctx_Done (events (snd (serve env config mode fuel)))
  | Return err =>
      ~ In Ev_go_LaunchPublicServer (events (snd (serve env config mode fuel)))
      /\ (In Ev_ctx_Done (events (snd (serve env config mode fuel))) ->
          err = cancelled_batcher)
  | Panic _ =>
      ~ In Ev_go_LaunchPublicServer (events (snd (serve env config mode fuel)))
      /\ ~ In Ev_ctx_Done (events (snd (serve env config mode fuel)))
      /\ Node_Sequencer_Lockout_Redis config <> ""%string
      /\ exists i b, SetupBatcher env i mode = Ok b /\
                     batcher_type b <> T_SequencerBatcher
  | OutOfFuel =>
      ~ In Ev_go_LaunchPublicServer (events (snd (serve env config mode fuel)))
      /\ ~ In Ev_ctx_Done (events (snd (serve env config mode fuel)))
  | Blocked => False
  end.
Proof.
  unfold serve.
  destruct (batcherLoop_log env config mode fuel 0) as [Hd He].
  pose proof (forallb_weaken _ _ _ in_batcher_loop_in_serve He) as He'.
  pose proof (batcherLoop_exit env config mode fuel 0) as Hx.
  destruct (batcherLoop env config mode fuel 0) as [[b| e | m | |] w];
    simpl in *; try contradiction.
  - destruct (GenerateWeb3Server env) as [e|]; unfold log_app; simpl;
      rewrite Hd, forallb_app, He'; simpl;
      (split; [reflexivity|]); (split; [reflexivity|]).
    + split; [not_in|intros Hin; exfalso; revert Hin; not_in].
    + not_in.
  - split; [exact Hd|]. split; [exact He'|]. split; [not_in|]. tauto.
  - split; [exact Hd|]. split; [exact He'|]. split; [not_in|]. tauto.
  - split; [exact Hd|]. split; [exact He'|]. split; [not_in|]. tauto.
Qed.

(** ** The calls of the batcher loop *)

Lemma wraps_none (l : list Event) :
  forallb (fun e => negb (is_SetupLockout e)) l = true ->
  wraps_fresh_batchers l.
Proof.
  intros H pre b conf r post ->. rewrite forallb_app in H.
  apply andb_true_iff in H. destruct H as [_ H]. discriminate H.
Qed.

Lemma wraps_app (l1 l2 : list Event) :
  wraps_fresh_batchers l1 -> wraps_fresh_batchers l2 ->
  wraps_fresh_batchers (l1 ++ l2).
Proof.
  intros H1 H2 pre b conf r post E.
  apply app_eq_app in E. destruct E as (l & [[E1 E2]|[E1 E2]]).
  - destruct l as [|x l]; simpl in E2.
    + subst l2. destruct (H2 [] b conf r post eq_refl) as (pre' & mode & E).
      destruct pre'; discriminate E.
    + injection E2 as <- E2. apply (H1 pre b conf r l). exact E1.
  - destruct (H2 l b conf r post E2) as (pre' & mode & ->).
    exists (l1 ++ pre'), mode. rewrite E1, app_assoc. reflexivity.
Qed.

Lemma setupAttempt_wraps (env : Env) (config : NodeConfig) (mode : BatcherMode)
    (k : nat) :
  wraps_fresh_batchers (events (snd (setupAttempt env config mode k))).
Proof.
  unfold setupAttempt, assert_SequencerBatcher.
  destruct (SetupBatcher env k mode) as [b|err]; [|apply wraps_none; reflexivity].
  destruct (negb (Redis (Node_Sequencer_Lockout config) =? "")%string);
    [|apply wraps_none; reflexivity].
  destruct (batcher_type b); try (apply wraps_none; reflexivity).
  simpl. intros pre b' conf r post E.
  destruct pre as [|x [|y pre]]; simpl in E.
  - discriminate E.
  - injection E as <- <- _ _ _. exists [], mode. reflexivity.
  - injection E as _ _ E. destruct pre; discriminate E.
Qed.

Lemma setupAttempt_calls (env : Env) (config : NodeConfig) (mode : BatcherMode)
    (k : nat) :
  Forall (call_ok config mode) (events (snd (setupAttempt env config mode k))).
Proof.
  unfold setupAttempt, assert_SequencerBatcher.
  destruct (SetupBatcher env k mode) as [b|err];
    [|repeat constructor].
  simpl Redis.
  destruct (Node_Sequencer_Lockout_Redis config =? "")%string eqn:E;
    [repeat constructor|].
  apply String.eqb_neq in E.
  destruct (batcher_type b) eqn:Eb; simpl; repeat constructor; assumption.
Qed.

Lemma batcherLoop_calls (env : Env) (config : NodeConfig) (mode : BatcherMode)
    (fuel k : nat) :
  wraps_fresh_batchers (events (snd (batcherLoop env config mode fuel k))) /\
  Forall (call_ok config mode) (events (snd (batcherLoop env config mode fuel k))).
Proof.
  revert k. induction fuel as [|fuel IH]; intros k.
  { split; [apply wraps_none; reflexivity|constructor]. }
  simpl. specialize (IH (S k)).
  pose proof (setupAttempt_wraps env config mode k) as Hw.
  pose proof (setupAttempt_calls env config mode k) as Hc.
  destruct (setupAttempt env config mode k) as [[[b|err]| e | m | |] w];
    simpl in *; try (split; assumption).
  - split; [apply wraps_app; [exact Hw|apply wraps_none; reflexivity]|].
    apply Forall_app. split; [exact Hc|repeat constructor].
  - destruct (batcherSelect env k); simpl.
    + split; [apply wraps_app; [exact Hw|apply wraps_none; reflexivity]|].
      apply Forall_app. split; [exact Hc|repeat constructor].
    + destruct IH as [IHw IHc].
      destruct (batcherLoop env config mode fuel (S k)) as [[v| e | m | |] w'];
        simpl in *;
        (split;
         [apply wraps_app; [exact Hw|];
          apply (wraps_app [_; _]); [apply wraps_none; reflexivity|exact IHw]
         |apply Forall_app; split; [exact Hc|];
          repeat (constructor; [exact I|]); exact IHc]).
Qed.

Lemma serve_calls (env : Env) (config : NodeConfig) (mode : BatcherMode)
    (fuel : nat) :
  wraps_fresh_batchers (events (snd (serve env config mode fuel))) /\
  Forall (call_ok config mode) (events (snd (serve env config mode fuel))).
Proof.
  unfold serve.
  destruct (batcherLoop_calls env config mode fuel 0) as [Hw Hc].
  destruct (batcherLoop env config mode fuel 0) as [[b| e | m | |] w];
    simpl in *; try (split; assumption).
  destruct (GenerateWeb3Server env) as [e|]; simpl;
    (split;
     [apply wraps_app; [exact Hw|apply wraps_none; reflexivity]
     |apply Forall_app; split; [exact Hc|repeat constructor]]).
Qed.

(** ** startup as a whole *)

Lemma usage_prints (env : Env) : forallb is_print (usage env) = true.
Proof. reflexivity. Qed.

Lemma reported_prints (config : NodeConfig) :
  forallb is_print (reported config) = true.
Proof.
  unfold reported. induction (filter (violated config) checkedRules) as [|r l IH];
    [reflexivity|].
  simpl. rewrite forallb_app, IH, andb_true_r.
  unfold rule_event. destruct (rule_text config r); reflexivity.
Qed.

(** A configuration that is turned down, or that could not be parsed,
    leaves only printed text behind. *)
Lemma startup_turned_down (env : Env) (parsed : Result NodeConfig) (fuel : nat) :
  match parsed with
  | Ok config => existsb (violated config) allRules = true
  | Err _ => True
  end ->
  exists text,
    startup env parsed fuel = (Returned nil_error, text ++ [Ev_cancelFunc]) /\
    forallb is_print text = true.
Proof.
  destruct parsed as [config|err]; intros H.
  - rewrite (startup_rejects env config fuel H).
    eexists. split; [reflexivity|].
    destruct (usageGate config); [apply usage_prints|apply reported_prints].
  - exists (usage env ++
            (if strings_Contains err "help requested" then []
             else [Ev_Print (err ++ nl)%string])).
    split.
    + unfold startup, startup_body. simpl. rewrite validate_Err. reflexivity.
    + rewrite forallb_app, usage_prints.
      destruct (strings_Contains err "help requested"); reflexivity.
Qed.

Lemma in_prepare_not_release (e : Event) :
  in_prepare e = true -> negb (is_release e) = true.
Proof.
  destruct e; try (cbv; congruence);
    match goal with l : Level |- _ => destruct l end; cbv; congruence.
Qed.

Lemma in_serve_not_release (e : Event) :
  in_serve e = true -> negb (is_release e) = true.
Proof.
  destruct e; try (cbv; congruence);
    match goal with l : Level |- _ => destruct l end; cbv; congruence.
Qed.

Lemma checked_WaitToCatchUp (config : NodeConfig) :
  WaitToCatchUp (checked config) =
  (Node_Type config =? "sequencer")%string || WaitToCatchUp config.
Proof.
  unfold checked. destruct (Node_Type config =? "sequencer")%string; reflexivity.
Qed.

Lemma checked_Node_Type (config : NodeConfig) :
  Node_Type (checked config) = Node_Type config.
Proof.
  unfold checked. destruct (Node_Type config =? "sequencer")%string; reflexivity.
Qed.

Lemma checked_Redis (config : NodeConfig) :
  Node_Sequencer_Lockout_Redis (checked config) =
  Node_Sequencer_Lockout_Redis config.
Proof.
  unfold checked. destruct (Node_Type config =? "sequencer")%string; reflexivity.
Qed.

Lemma existsb_false_In {A} (f : A -> bool) (l : list A) (x : A) :
  existsb f l = false -> In x l -> f x = false.
Proof.
  induction l as [|a l IH]; simpl; [tauto|].
  intros H [->|Hin]; apply orb_false_iff in H; destruct H; auto.
Qed.

(** An accepted configuration has a lockout only as a sequencer. *)
Lemma accepted_lockout (config : NodeConfig) :
  existsb (violated config) allRules = false ->
  Node_Sequencer_Lockout_Redis (checked config) <> ""%string ->
  Node_Type config = "sequencer"%string.
Proof.
  intros Hv Hr. rewrite checked_Redis in Hr.
  assert (H : violated config R_lockout_sequencer_only = false).
  { apply (existsb_false_In _ _ _ Hv). simpl. tauto. }
  simpl in H. apply is_empty_false in Hr. rewrite Hr in H.
  destruct (Node_Type config =? "sequencer")%string eqn:E; [|discriminate H].
  apply String.eqb_eq. exact E.
Qed.

Lemma in_prepare_not_lockout (e : Event) :
  in_prepare e = true -> negb (is_SetupLockout e) = true.
Proof.
  destruct e; try (cbv; congruence);
    match goal with l : Level |- _ => destruct l end; cbv; congruence.
Qed.

(** Splits a run of [startup] on an accepted configuration into its exit
    paths, with what is known of [prepare] and [serve] on each. *)
Ltac walk env config fuel Hv :=
  unfold startup, startup_body;
  rewrite (validate_accepts env config Hv);
  unfold launch; simpl;
  let HA := fresh "HA" in
  let HxA := fresh "HxA" in
  destruct (prepare_spec env (checked config) fuel) as [HA HxA];
  destruct (prepare env (checked config) fuel) as [[[?rd ?mode]| ?e | ?m | |] ?wA];
  simpl in HA, HxA; try contradiction;
  [ simpl;
    destruct (txdb_New env) as [?e|];
    [ simpl
    | simpl;
      destruct (WaitToCatchUp (checked config)) eqn:?Hwait; simpl;
      match goal with
      | |- context [serve env ?c ?md fuel] =>
          let HdB := fresh "HdB" in
          let HB := fresh "HB" in
          let HxB := fresh "HxB" in
          let HwB := fresh "HwB" in
          let HcB := fresh "HcB" in
          destruct (serve_spec env c md fuel) as (HdB & HB & HxB);
          destruct (serve_calls env c md fuel) as (HwB & HcB);
          destruct (serve env c md fuel) as [[[]| ?e | ?m | |] ?wB];
          simpl in HdB, HB, HxB, HwB, HcB; try contradiction;
          [ unfold terminalSelect;
            destruct (selected env) as [[?err|?err|]|] eqn:?Hsel; simpl
          | simpl ..]
      end ]
  | simpl ..];
  repeat match goal with H : _ /\ _ |- _ => destruct H end;
  try match goal with
      | H : deferred _ = _ \/ deferred _ = _ |- _ => destruct H
      end;
  repeat match goal with H : deferred ?w = _ |- _ => rewrite H; clear H end;
  rewrite ?app_nil_r; simpl.

(** C9. Whenever [startup] returns or panics after the transaction
    database was opened (line 264 answered without error), its trace ends
    with the deferred calls in the reverse of the order in which they were
    deferred: close the transaction database, close the monitor, log
    "Cleanly shutting down node" (and last the cancel function of line
    90); none of them ran before. *)
Theorem releases_run_in_reverse_order (env : Env) (parsed : Result NodeConfig)
    (fuel : nat) :
  In (Ev_txdb_New nil_error) (snd (startup env parsed fuel)) ->
  exited (fst (startup env parsed fuel)) = true ->
  exists pre,
    snd (startup env parsed fuel) =
      pre ++ [Ev_db_Close; Ev_mon_Close;
              Ev_Log NoLevel nil_error "Cleanly shutting down node";
              Ev_cancelFunc] /\
    forallb (fun e => negb (is_release e)) pre = true.
Proof.
  assert (Hcases :
    match parsed with
    | Ok config => existsb (violated config) allRules = true
    | Err _ => True
    end \/ exists config, parsed = Ok config /\
                          existsb (violated config) allRules = false).
  { destruct parsed as [config|err]; [|left; exact I].
    destruct (existsb (violated config) allRules) eqn:E; [left; reflexivity|].
    right. exists config. auto. }
  destruct Hcases as [Hbad|(config & -> & Hv)].
  - destruct (startup_turned_down env parsed fuel Hbad) as (text & -> & Ht).
    simpl. intros Hin. exfalso. revert Hin. not_in.
  - walk env config fuel Hv.
    all: intros Hin Hex; try discriminate Hex.
    all: first
      [ solve [exfalso; revert Hin; not_in]
      | eexists; split; [reflexivity|];
        rewrite ?forallb_app; simpl;
        rewrite ?forallb_app, (forallb_weaken _ _ _ in_prepare_not_release HA),
          ?(forallb_weaken _ _ _ in_serve_not_release HB);
        reflexivity ].
Qed.

Lemma accepted_or_not (parsed : Result NodeConfig) :
  match parsed with
  | Ok config => existsb (violated config) allRules = true
  | Err _ => True
  end \/
  exists config, parsed = Ok config /\
                 existsb (violated config) allRules = false.
Proof.
  destruct parsed as [config|err]; [|left; exact I].
  destruct (existsb (violated config) allRules) eqn:E; [left; reflexivity|].
  right. exists config. auto.
Qed.

Lemma in_prepare_not_recv (e : Event) :
  in_prepare e = true -> negb (is_recv e) = true.
Proof.
  destruct e; try (cbv; congruence);
    match goal with l : Level |- _ => destruct l end; cbv; congruence.
Qed.

Lemma in_serve_not_recv (e : Event) :
  in_serve e = true -> negb (is_recv e) = true.
Proof.
  destruct e; try (cbv; congruence);
    match goal with l : Level |- _ => destruct l end; cbv; congruence.
Qed.

(** What a run returned in which an arm of cancellation was taken. *)
Lemma cancellation_seen (env : Env) (parsed : Result NodeConfig)
    (fuel : nat) :
  (In Ev_recv_cancelChan (snd (startup env parsed fuel)) ->
   fst (startup env parsed fuel) = Returned nil_error) /\
  (In Ev_ctx_Done (snd (startup env parsed fuel)) ->
   fst (startup env parsed fuel) =
     Returned (errors_New "ctx cancelled StartInboxReader retry loop") \/
   fst (startup env parsed fuel) =
     Returned (errors_New "ctx cancelled setup batcher")).
Proof.
  destruct (accepted_or_not parsed) as [Hbad|(config & -> & Hv)].
  - destruct (startup_turned_down env parsed fuel Hbad) as (text & -> & Ht).
    simpl. split; not_in.
  - walk env config fuel Hv.
    all: split; intros Hin; split_in Hin; try reflexivity.
    all: try solve [left; f_equal; auto].
    all: try solve [right; f_equal; auto].
Qed.

(** C5. Once the public server is launched, [startup] is in its final
    [select] on exactly three channels: [txDBErrChan], [errChan] and
    [cancelChan].  The communication the [select] proceeds with decides the
    run: its error is returned (nil for [cancelChan]), it is the only
    receive of the run, and after it only the deferred calls run, so what
    arrives later is never looked at.  When no channel is ready on entry
    the [select] blocks and that communication is the first to arrive; with
    none ever arriving [startup] waits for ever.  (When some are ready on
    entry, it is one of those.) *)
Theorem first_signal_wins (env : Env) (parsed : Result NodeConfig) (fuel : nat) :
  In Ev_go_LaunchPublicServer (snd (startup env parsed fuel)) ->
  (forall s later,
      ready env = [] -> arrivals env = s :: later ->
      fst (startup env parsed fuel) = Returned (signal_error s) /\
      exists pre,
        snd (startup env parsed fuel) = pre ++ received s :: releases /\
        forallb (fun e => negb (is_recv e)) pre = true) /\
  (ready env = [] -> arrivals env = [] ->
   fst (startup env parsed fuel) = Waiting) /\
  (ready env <> [] ->
   exists s pre,
     In s (ready env) /\
     fst (startup env parsed fuel) = Returned (signal_error s) /\
     snd (startup env parsed fuel) = pre ++ received s :: releases /\
     forallb (fun e => negb (is_recv e)) pre = true).
Proof.
  assert (Hsel :
    (forall s later, ready env = [] -> arrivals env = s :: later ->
                     selected env = Some s) /\
    (ready env = [] -> arrivals env = [] -> selected env = None) /\
    (ready env <> [] -> exists s, In s (ready env) /\ selected env = Some s)).
  { unfold selected. split; [|split].
    - intros s later -> ->. reflexivity.
    - intros -> ->. reflexivity.
    - destruct (ready env) as [|s0 rest]; [congruence|]. intros _.
      eexists. split; [|reflexivity].
      apply nth_In. apply Nat.mod_upper_bound. discriminate. }
  destruct Hsel as (Hfirst & Hnone & Hready).
  assert (Hrun : forall s, selected env = Some s ->
            In Ev_go_LaunchPublicServer (snd (startup env parsed fuel)) ->
            fst (startup env parsed fuel) = Returned (signal_error s) /\
            exists pre,
              snd (startup env parsed fuel) = pre ++ received s :: releases /\
              forallb (fun e => negb (is_recv e)) pre = true).
  { intros s Hs.
    destruct (accepted_or_not parsed) as [Hbad|(config & -> & Hv)].
    - destruct (startup_turned_down env parsed fuel Hbad) as (text & -> & Ht).
      simpl. not_in.
    - walk env config fuel Hv.
      all: intros Hin.
      all: try solve [exfalso; split_in Hin].
      all: rewrite Hs in *; try discriminate.
      all: match goal with H : Some _ = Some _ |- _ => injection H as <- end.
      all: split; [reflexivity|].
      all: eexists; (split; [rewrite <- app_assoc; reflexivity|]).
      all: rewrite ?forallb_app; simpl;
        rewrite ?forallb_app, (forallb_weaken _ _ _ in_prepare_not_recv HA),
          ?(forallb_weaken _ _ _ in_serve_not_recv HB); reflexivity. }
  intros Hin. split; [|split].
  - intros s later Hr Ha. apply Hrun; [eapply Hfirst; eassumption|exact Hin].
  - intros Hr Ha. specialize (Hnone Hr Ha). clear Hrun Hfirst Hready.
    revert Hin.
    destruct (accepted_or_not parsed) as [Hbad|(config & -> & Hv)].
    + destruct (startup_turned_down env parsed fuel Hbad) as (text & -> & Ht).
      simpl. not_in.
    + walk env config fuel Hv.
      all: intros Hin.
      all: try solve [exfalso; split_in Hin].
      all: try reflexivity.
      all: rewrite Hnone in *; discriminate.
  - intros Hr. destruct (Hready Hr) as (s & Hs & Hsel).
    destruct (Hrun s Hsel Hin) as (Hres & pre & Htr & Hpre).
    exists s, pre. auto.
Qed.




(** Proves a membership in a trace written with [++] and [::]. *)
Ltac in_trace := rewrite ?in_app_iff; simpl; tauto.

(** C8, as the code has it. A configuration that passes validation leaves
    it with [WaitToCatchUp] true when the node type is "sequencer", and
    with the configured value of the flag otherwise (line 139 is the only
    assignment).  [inboxReader.WaitToCatchUp] is called in exactly the
    runs that open the transaction database with that flag true: always
    for a sequencer, and for another role when the flag was configured. *)
Theorem catch_up_wait (env : Env) (config : NodeConfig) (fuel : nat) :
  (forall config', fst (validate env (Ok config)) = Val config' ->
     WaitToCatchUp config' =
     (Node_Type config =? "sequencer")%string || WaitToCatchUp config) /\
  ((exists rd, In (Ev_WaitToCatchUp rd) (snd (startup env (Ok config) fuel))) <->
   In (Ev_txdb_New nil_error) (snd (startup env (Ok config) fuel)) /\
   (Node_Type config = "sequencer"%string \/ WaitToCatchUp config = true)).
Proof.
  split.
  - intros config'. rewrite validate_Ok.
    destruct (usageGate config); [discriminate|].
    rewrite checkConfig_spec.
    destruct (existsb (violated config) checkedRules); [discriminate|].
    simpl. intros [= <-]. apply checked_WaitToCatchUp.
  - assert (Hflag : WaitToCatchUp (checked config) = true <->
                    Node_Type config = "sequencer"%string \/
                    WaitToCatchUp config = true).
    { rewrite checked_WaitToCatchUp, orb_true_iff, String.eqb_eq. tauto. }
    destruct (existsb (violated config) allRules) eqn:Hv.
    + destruct (startup_turned_down env (Ok config) fuel Hv) as (text & -> & Ht).
      simpl. split; [intros [rd Hin]|intros [Hin _]]; split_in Hin.
    + revert Hflag. walk env config fuel Hv.
      all: intros Hflag; split; [intros [rd' Hin]|intros [Hin Hf]].
      all: try solve [exfalso; split_in Hin].
      all: try solve [split; [in_trace|apply Hflag; reflexivity]].
      all: try solve [eexists; in_trace].
      all: try solve [apply Hflag in Hf; congruence].
Qed.

(** ** The lockout wrap *)

Ltac wraps_solve :=
  repeat match goal with
    | |- wraps_fresh_batchers (_ ++ _) => apply wraps_app
    | |- wraps_fresh_batchers (events _) =>
        first [ assumption
              | apply wraps_none;
                eapply forallb_weaken; [exact in_prepare_not_lockout|eassumption] ]
    | |- wraps_fresh_batchers [] => apply wraps_none; reflexivity
    | |- wraps_fresh_batchers (?x :: ?l) =>
        first [ solve [apply wraps_none; reflexivity]
              | change (wraps_fresh_batchers ([x] ++ l)); apply wraps_app ]
    end.

Lemma is_print_not_lockout (e : Event) :
  is_print e = true -> negb (is_SetupLockout e) = true.
Proof. destruct e; cbv; congruence. Qed.

(** Every pass of the batcher loop begins with a call of
    [rpc.SetupBatcher]. *)
Lemma batcherLoop_starts (env : Env) (config : NodeConfig) (mode : BatcherMode)
    (fuel k : nat) :
  exists rest,
    events (snd (batcherLoop env config mode (S fuel) k)) =
    Ev_SetupBatcher mode (SetupBatcher env k mode) :: rest.
Proof.
  simpl. unfold setupAttempt, assert_SequencerBatcher.
  destruct (SetupBatcher env k mode) as [b|err].
  - destruct (negb (Redis (Node_Sequencer_Lockout config) =? "")%string).
    + destruct (batcher_type b); try (eexists; reflexivity).
      simpl. destruct (SetupLockout env k b (Node_Sequencer_Lockout config));
        simpl; [eexists; reflexivity|].
      destruct (batcherSelect env k); simpl; [eexists; reflexivity|].
      destruct (batcherLoop env config mode fuel (S k)) as [[]];
        eexists; reflexivity.
    + simpl. eexists; reflexivity.
  - simpl. destruct (batcherSelect env k); simpl; [eexists; reflexivity|].
    destruct (batcherLoop env config mode fuel (S k)) as [[]];
      eexists; reflexivity.
Qed.

(** C4. In every run of [startup], each call of [rpc.SetupLockout] comes
    right after a successful call of [rpc.SetupBatcher] and wraps the
    batcher which that call built, so the wrap is never tried again on its
    own.  In the loop of lines 276-303, when pass [k] builds a batcher, fails
    to wrap it and the timer fires, what follows the warning and the
    five-second wait is the call of [rpc.SetupBatcher] of pass [k+1]. *)
Theorem lockout_failure_rebuilds_batcher (env : Env) (parsed : Result NodeConfig)
    (fuel : nat) :
  wraps_fresh_batchers (snd (startup env parsed fuel)) /\
  (forall config mode n k b e,
      SetupBatcher env k mode = Ok b ->
      Node_Sequencer_Lockout_Redis config <> ""%string ->
      batcher_type b = T_SequencerBatcher ->
      SetupLockout env k b (Node_Sequencer_Lockout config) = Err e ->
      batcherSelect env k = Arm_time_After ->
      exists rest,
        events (snd (batcherLoop env config mode (S (S n)) k)) =
        [Ev_SetupBatcher mode (Ok b);
         Ev_SetupLockout b (Node_Sequencer_Lockout config) (Err e);
         Ev_Log WarnLevel (Some e) "failed to setup batcher, waiting and retrying";
         Ev_time_After (5 * time_Second);
         Ev_SetupBatcher mode (SetupBatcher env (S k) mode)] ++ rest).
Proof.
  split.
  - destruct (accepted_or_not parsed) as [Hbad|(config & -> & Hv)].
    + destruct (startup_turned_down env parsed fuel Hbad) as (text & -> & Ht).
      simpl. apply wraps_app; apply wraps_none; [|reflexivity].
      eapply forallb_weaken; [exact is_print_not_lockout|exact Ht].
    + walk env config fuel Hv.
      all: unfold shutdown_message; wraps_solve.
  - intros config mode n k b e Hb Hr Ht Hl Hw.
    destruct (batcherLoop_starts env config mode n (S k)) as (rest & Hrest).
    set (next := batcherLoop env config mode (S n) (S k)) in *.
    change (batcherLoop env config mode (S (S n)) k)
      with (bind (setupAttempt env config mode k) (fun r =>
              match r with
              | Ok batch => bind (emit (Ev_go_batch_Start batch)) (fun _ => ret batch)
              | Err err =>
                  bind (emit (Ev_Log WarnLevel (Some err)
                                "failed to setup batcher, waiting and retrying"))
                    (fun _ =>
                       match batcherSelect env k with
                       | Arm_ctx_Done =>
                           bind (emit Ev_ctx_Done)
                             (fun _ => return_ (errors_New "ctx cancelled setup batcher"))
                       | Arm_time_After =>
                           bind (emit (Ev_time_After (5 * time_Second)))
                             (fun _ => next)
                       end)
              end)).
    clearbody next.
    unfold setupAttempt, assert_SequencerBatcher.
    apply is_empty_false in Hr. unfold is_empty in Hr.
    rewrite Hb. simpl Redis. rewrite Hr, Ht. simpl. rewrite Hl, Hw. simpl.
    destruct next as [[v| x | m | |] w];
      simpl in *; rewrite Hrest; exists rest; reflexivity.
Qed.

(** C10. In a run of [startup], [rpc.SetupLockout] is called, and the
    type assertion before it is evaluated, only when the node type is
    "sequencer": validation turned down every other configuration with a
    redis address.  Every [rpc.SetupBatcher] call of such a run is given a
    [SequencerBatcherMode], so the batcher being wrapped was built from that
    mode; and when [rpc.SetupBatcher] answers a [SequencerBatcherMode] with
    a sequencer batcher only, the assertion never fails: [startup] does not
    panic. *)
Theorem lockout_wraps_sequencer_batcher (env : Env) (config : NodeConfig)
    (fuel : nat) :
  (forall b conf r,
      In (Ev_SetupLockout b conf r) (snd (startup env (Ok config) fuel)) ->
      Node_Type config = "sequencer"%string /\
      batcher_type b = T_SequencerBatcher) /\
  (forall mode r,
      In (Ev_SetupBatcher mode r) (snd (startup env (Ok config) fuel)) ->
      is_SequencerBatcherMode mode = (Node_Type config =? "sequencer")%string) /\
  (forall msg,
      fst (startup env (Ok config) fuel) = Panicked msg ->
      Node_Type config = "sequencer"%string) /\
  ((forall i mode b,
       SetupBatcher env i mode = Ok b ->
       is_SequencerBatcherMode mode = true ->
       batcher_type b = T_SequencerBatcher) ->
   forall msg, fst (startup env (Ok config) fuel) <> Panicked msg).
Proof.
  destruct (existsb (violated config) allRules) eqn:Hv.
  - destruct (startup_turned_down env (Ok config) fuel Hv) as (text & -> & Ht).
    simpl. repeat split; try discriminate.
    all: intros; match goal with H : In _ _ |- _ => split_in H end.
  - pose proof (accepted_lockout config Hv) as Hseq.
    pose proof (checked_Node_Type config) as Hty.
    walk env config fuel Hv.
    all: try rewrite Hty in *.
    all: split;
      [ intros b conf r Hin; split_in Hin;
        (match goal with
         | Hc : Forall _ ?l, H : In _ ?l |- _ =>
             rewrite Forall_forall in Hc; apply Hc in H; simpl in H
         end; split; [apply Hseq|]; tauto)
      | split;
        [ intros md r Hin; split_in Hin;
          match goal with
          | Hc : Forall _ ?l, H : In _ ?l |- _ =>
              rewrite Forall_forall in Hc; apply Hc in H; simpl in H
          end; congruence
        | split;
          [ intros msg Hp; try discriminate Hp; apply Hseq; assumption
          | intros Hresp msg Hp; try discriminate Hp;
            match goal with
            | H : exists i b, _ |- _ => destruct H as (i & b & Hb & Hne)
            end;
            apply Hne; apply (Hresp i _ _ Hb);
            assert (Hs : Node_Type config = "sequencer"%string)
              by (apply Hseq; assumption);
            rewrite Hs in *; assumption ] ] ].
Qed.

(** ** Validation, seen from startup *)

(** The tests of lines 106 and 114 repeat two disjuncts of line 93-94:
    past that condition they never fire, so their two messages are never
    printed. *)
Lemma gate_shadows_checks (config : NodeConfig) :
  usageGate config = false ->
  violated config R_bridge_utils_address = false /\
  violated config R_rollup_address = false.
Proof.
  rewrite usageGate_rules. intros H.
  split; apply (existsb_false_In _ _ _ H); simpl; tauto.
Qed.

Lemma checked_rule_has_text (config : NodeConfig) (r : Rule) :
  In r checkedRules -> exists text, rule_text config r = Some text.
Proof.
  simpl. intros H.
  repeat (destruct H as [<-|H]; [eexists; reflexivity|]). contradiction.
Qed.

(** C1, as the code has it. Validation has two stages.  The first is
    the condition of lines 93-96.  A command line that cannot be parsed
    gets the usage text, then the text of the error on a line of its own
    unless that text contains "help requested", and nothing else.  A
    configuration caught by the rest of the condition (global
    configuration path, L1 URL, rollup address, bridge-utils address, the
    two lockout rules) gets the usage text and nothing else: no rule is
    named, and the rules of the second stage are not looked at.  A
    configuration that passes that condition has every rule of lines
    105-143 tested, and [startup] first prints one line for each of them
    that is violated, in the order of the source, not only for the
    first. *)
Theorem validation_reports (env : Env) (config : NodeConfig) (fuel : nat) :
  (usageGate config = true ->
   startup env (Ok config) fuel =
     (Returned nil_error, usage env ++ [Ev_cancelFunc])) /\
  (usageGate config = false ->
   (exists rest, snd (startup env (Ok config) fuel) = reported config ++ rest) /\
   (forall r, In r checkedRules -> violated config r = true ->
      exists text, rule_text config r = Some text /\
                   In (Ev_Print text) (snd (startup env (Ok config) fuel)))) /\
  (usageGate config = true <-> existsb (violated config) gateRules = true) /\
  (forall err,
      startup env (Err err) fuel =
        (Returned nil_error,
         usage env
         ++ (if strings_Contains err "help requested" then []
             else [Ev_Print (err ++ nl)%string])
         ++ [Ev_cancelFunc])).
Proof.
  split; [|split; [|split]].
  - intros Hg. rewrite startup_rejects, Hg; [reflexivity|].
    unfold allRules. rewrite existsb_app, <- usageGate_rules, Hg. reflexivity.
  - intros Hg. destruct (existsb (violated config) checkedRules) eqn:Hc.
    + rewrite startup_rejects, Hg;
        [|unfold allRules; rewrite existsb_app, Hc; apply orb_true_r].
      simpl. split; [eexists; reflexivity|].
      intros r Hr Hviol.
      destruct (checked_rule_has_text config r Hr) as (text & Ht).
      exists text. split; [exact Ht|].
      apply in_or_app. left. unfold reported. apply in_flat_map.
      exists r. split; [apply filter_In; auto|].
      unfold rule_event. rewrite Ht. left. reflexivity.
    + split.
      * unfold reported. rewrite (existsb_false_filter _ _ Hc).
        eexists. reflexivity.
      * intros r Hr Hviol.
        rewrite (existsb_false_In _ _ _ Hc Hr) in Hviol. discriminate.
  - rewrite usageGate_rules. tauto.
  - intros err. unfold startup, startup_body. simpl. rewrite validate_Err.
    reflexivity.
Qed.

(** C6, as the code has it. For a configuration that violates any rule,
    [startup] returns nil and its whole trace is printed text followed by
    the deferred [cancelFunc]: no monitor, health check, inbox reader,
    database, batcher or server is started.  The text is the usage text
    when a rule of the condition of lines 93-96 is violated; otherwise it is
    one line for each violated rule, without the usage text. *)
Theorem invalid_config_starts_nothing (env : Env) (config : NodeConfig)
    (fuel : nat) :
  existsb (violated config) allRules = true ->
  startup env (Ok config) fuel =
    (Returned nil_error,
     (if existsb (violated config) gateRules then usage env else reported config)
     ++ [Ev_cancelFunc]) /\
  forallb is_print
    (if existsb (violated config) gateRules then usage env else reported config)
  = true.
Proof.
  intros Hbad. rewrite <- usageGate_rules. split.
  - apply startup_rejects. exact Hbad.
  - destruct (usageGate config); [apply usage_prints|apply reported_prints].
Qed.

(** C7. A configuration with a lockout redis address and a node type
    other than "sequencer", and a configuration with exactly one of the
    lockout redis address and the lockout self-RPC URL set, whatever its
    node type, are turned down by the condition of lines 93-96: [startup]
    prints the usage text and returns nil, and nothing is started. *)
Theorem lockout_rules (env : Env) (config : NodeConfig) (fuel : nat) :
  (Node_Type config <> "sequencer"%string /\
   Node_Sequencer_Lockout_Redis config <> ""%string) \/
  (Node_Sequencer_Lockout_Redis config = ""%string /\
   Node_Sequencer_Lockout_SelfRPCURL config <> ""%string) \/
  (Node_Sequencer_Lockout_Redis config <> ""%string /\
   Node_Sequencer_Lockout_SelfRPCURL config = ""%string) ->
  usageGate config = true /\
  startup env (Ok config) fuel =
    (Returned nil_error, usage env ++ [Ev_cancelFunc]).
Proof.
  intros H.
  assert (Hg : usageGate config = true).
  { rewrite usageGate_rules. apply existsb_exists.
    destruct H as [[Ht Hr]|[[Hr Hs]|[Hr Hs]]].
    - exists R_lockout_sequencer_only. split; [simpl; tauto|]. simpl.
      apply String.eqb_neq in Ht. apply is_empty_false in Hr.
      rewrite Ht, Hr. reflexivity.
    - exists R_lockout_pair. split; [simpl; tauto|]. simpl.
      apply is_empty_true in Hr. apply is_empty_false in Hs.
      rewrite Hr, Hs. reflexivity.
    - exists R_lockout_pair. split; [simpl; tauto|]. simpl.
      apply is_empty_false in Hr. apply is_empty_true in Hs.
      rewrite Hr, Hs. reflexivity. }
  split; [exact Hg|].
  rewrite startup_rejects, Hg; [reflexivity|].
  unfold allRules. rewrite existsb_app, <- usageGate_rules, Hg. reflexivity.
Qed.

(** ** The properties on the sample runs *)

(** Proves a membership in a list of events that is written out. *)
Ltac listed := vm_compute; repeat first [left; reflexivity | right].

(** A sequencer without an L1 URL and without a chain id is told neither:
    the condition of line 93 prints the usage text and returns before the
    chain id is looked at. *)
Lemma usage_gate_hides_violations :
  violated cfg_no_url_no_chain_id R_l1_url = true /\
  violated cfg_no_url_no_chain_id R_chain_id = true /\
  rule_text cfg_no_url_no_chain_id R_chain_id
    = Some ("Missing --rollup.chain-id" ++ nl)%string /\
  startup env_ok (Ok cfg_no_url_no_chain_id) 3
    = (Returned nil_error, usage env_ok ++ [Ev_cancelFunc]) /\
  ~ In (Ev_Print ("Missing --rollup.chain-id" ++ nl)%string)
       (snd (startup env_ok (Ok cfg_no_url_no_chain_id) 3)).
Proof.
  repeat split; try reflexivity.
  vm_compute. intros H.
  repeat (destruct H as [H|H]; [discriminate H|]). exact H.
Qed.

Lemma validation_reports_witness :
  startup env_ok (Ok cfg_no_url_no_chain_id) 3
    = (Returned nil_error, usage env_ok ++ [Ev_cancelFunc]) /\
  In (Ev_Print ("Missing --rollup.chain-id" ++ nl)%string)
     (snd (startup env_ok (Ok cfg_no_chain_id_no_machine) 3)) /\
  In (Ev_Print ("Missing --rollup.machine.filename" ++ nl)%string)
     (snd (startup env_ok (Ok cfg_no_chain_id_no_machine) 3)) /\
  startup env_ok (Err "unknown flag: --l1.ur"%string) 3
    = (Returned nil_error,
       usage env_ok ++ [Ev_Print ("unknown flag: --l1.ur" ++ nl)%string;
                        Ev_cancelFunc]).
Proof.
  split.
  - apply (proj1 (validation_reports env_ok cfg_no_url_no_chain_id 3)).
    reflexivity.
  - destruct (proj1 (proj2 (validation_reports env_ok
                              cfg_no_chain_id_no_machine 3))
                eq_refl) as [_ H].
    split; [|split].
    + destruct (H R_chain_id) as (text & Ht & Hin);
        [simpl; tauto|reflexivity|].
      injection Ht as <-. exact Hin.
    + destruct (H R_machine_filename) as (text & Ht & Hin);
        [simpl; tauto|reflexivity|].
      injection Ht as <-. exact Hin.
    + rewrite (proj2 (proj2 (proj2 (validation_reports env_ok
                                      cfg_no_chain_id_no_machine 3)))
                 "unknown flag: --l1.ur"%string).
      reflexivity.
Defined.

(** A forwarder without a target is told so, but [printSampleUsage] is
    not called for it. *)
Lemma forwarder_without_target_gets_no_usage :
  violated cfg_forwarder_no_target R_forwarder_target = true /\
  startup env_ok (Ok cfg_forwarder_no_target) 3
    = (Returned nil_error,
       [Ev_Print ("Forwarder node needs --node.forwarder.target" ++ nl)%string;
        Ev_cancelFunc]) /\
  forall e, In e (usage env_ok) ->
            ~ In e (snd (startup env_ok (Ok cfg_forwarder_no_target) 3)).
Proof.
  repeat split; try reflexivity.
  intros e He. vm_compute in He. vm_compute. intros H.
  repeat (destruct He as [He|He]; [subst e|]); try contradiction;
    repeat (destruct H as [H|H]; [discriminate H|]); exact H.
Qed.

Lemma invalid_config_starts_nothing_witness :
  startup env_ok (Ok cfg_forwarder_no_target) 3
    = (Returned nil_error,
       [Ev_Print ("Forwarder node needs --node.forwarder.target" ++ nl)%string;
        Ev_cancelFunc]).
Proof.
  exact (proj1 (invalid_config_starts_nothing env_ok cfg_forwarder_no_target 3
                  eq_refl)).
Defined.

Lemma lockout_rules_witness :
  startup env_ok (Ok cfg_redis_without_self) 3
    = (Returned nil_error, usage env_ok ++ [Ev_cancelFunc]).
Proof.
  apply (lockout_rules env_ok cfg_redis_without_self 3).
  right. right. split; [discriminate|reflexivity].
Defined.

(** The inbox reader cannot be started and the operator cancels during
    the wait: [startup] returns an error, not nil. *)
Lemma cancelled_retry_returns_error :
  In Ev_ctx_Done (snd (startup env_cancelled_retry (Ok cfg_sequencer) 3)) /\
  fst (startup env_cancelled_retry (Ok cfg_sequencer) 3)
    = Returned (Some "ctx cancelled StartInboxReader retry loop"%string) /\
  fst (startup env_cancelled_retry (Ok cfg_sequencer) 3) <> Returned nil_error.
Proof.
  split; [listed|]. split; [reflexivity|discriminate].
Qed.

Lemma retry_until_success_witness :
  inboxReaderLoop env_flaky 3 0 =
    (Val 2,
     {| events := flat_map (inbox_failure env_flaky) (seq 0 2)
                  ++ [Ev_StartInboxReader (Ok 2)];
        deferred := [] |}) /\
  count is_SetupBatcher
    (flat_map (pass_failure env_flaky cfg_forwarder_no_target
                 (ForwarderBatcherMode "")) (seq 0 2)
     ++ events (snd (setupAttempt env_flaky cfg_forwarder_no_target
                       (ForwarderBatcherMode "") 2))
     ++ [Ev_go_batch_Start {| batcher_type := T_Forwarder; batcher_id := 2 |}])
  = 3 /\
  fst (batcherLoop env_ok cfg_sequencer
         (SequencerBatcherMode {| From := "0xf" |} 0 12 270) 3 0)
  = Val {| batcher_type := T_LockoutBatcher; batcher_id := 0 |} /\
  inboxReaderLoop env_cancelled_retry 3 0 =
    (Return (errors_New "ctx cancelled StartInboxReader retry loop"),
     {| events :=
          [Ev_StartInboxReader (Err "dial tcp: connection refused");
           Ev_Log WarnLevel (Some "dial tcp: connection refused"%string)
             "failed to start inbox reader, waiting and retrying";
           Ev_ctx_Done];
        deferred := [] |}) /\
  fst (batcherLoop env_cancelled_setup cfg_sequencer
         (SequencerBatcherMode {| From := "0xf" |} 0 12 270) 3 0)
  = Return (errors_New "ctx cancelled setup batcher") /\
  (exists N, N < 3 /\ batcherSelect env_cancelled_setup N = Arm_ctx_Done).
Proof.
  destruct (retry_until_success env_flaky cfg_forwarder_no_target
              (ForwarderBatcherMode "")) as (Hinbox & _ & _ & Hbatcher & _).
  destruct (retry_until_success env_ok cfg_sequencer
              (SequencerBatcherMode {| From := "0xf" |} 0 12 270))
    as (_ & _ & _ & _ & _ & Hexit).
  destruct (retry_until_success env_cancelled_retry cfg_sequencer
              (SequencerBatcherMode {| From := "0xf" |} 0 12 270))
    as (_ & Hcut & _).
  destruct (retry_until_success env_cancelled_setup cfg_sequencer
              (SequencerBatcherMode {| From := "0xf" |} 0 12 270))
    as (_ & _ & _ & _ & Hcut' & Hexit').
  split; [|split; [|split; [|split; [|split]]]].
  - apply (Hinbox 2 2 3).
    + intros i Hi. destruct i as [|[|i]]; [reflexivity|reflexivity|lia].
    + intros i Hi. reflexivity.
    + reflexivity.
    + lia.
  - apply (Hbatcher 2 {| batcher_type := T_Forwarder; batcher_id := 2 |} 3).
    + intros i Hi. destruct i as [|[|i]]; [reflexivity|reflexivity|lia].
    + intros i Hi. reflexivity.
    + reflexivity.
    + lia.
  - specialize (Hexit 3).
    assert (Hty : forall i b,
               SetupBatcher env_ok i
                 (SequencerBatcherMode {| From := "0xf" |} 0 12 270) = Ok b ->
               Node_Sequencer_Lockout_Redis cfg_sequencer <> ""%string ->
               batcher_type b = T_SequencerBatcher).
    { intros i b Hb _. simpl in Hb. injection Hb as <-. reflexivity. }
    specialize (Hexit Hty). reflexivity.
  - apply (Hcut 0 3).
    + intros i Hi. reflexivity.
    + intros i Hi. lia.
    + reflexivity.
    + lia.
  - rewrite (proj1 (Hcut' 1 3
               ltac:(intros i Hi; reflexivity)
               ltac:(intros i Hi; destruct i; [reflexivity|lia])
               eq_refl ltac:(lia))).
    reflexivity.
  - specialize (Hexit' 3).
    assert (Hty : forall i b,
               SetupBatcher env_cancelled_setup i
                 (SequencerBatcherMode {| From := "0xf" |} 0 12 270) = Ok b ->
               Node_Sequencer_Lockout_Redis cfg_sequencer <> ""%string ->
               batcher_type b = T_SequencerBatcher).
    { intros i b Hb _. discriminate Hb. }
    specialize (Hexit' Hty).
    destruct (fst (batcherLoop env_cancelled_setup cfg_sequencer
                     (SequencerBatcherMode {| From := "0xf" |} 0 12 270) 3 0))
      eqn:E; try discriminate E.
    destruct Hexit' as (_ & _ & N & HN & Hs & _). exists N. auto.
Defined.

Lemma lockout_failure_rebuilds_batcher_witness :
  exists rest,
    events (snd (batcherLoop env_lockout_fails_once cfg_sequencer
                   (SequencerBatcherMode {| From := "0xf" |} 0 12 270) 2 0)) =
    [Ev_SetupBatcher (SequencerBatcherMode {| From := "0xf" |} 0 12 270)
       (Ok {| batcher_type := T_SequencerBatcher; batcher_id := 0 |});
     Ev_SetupLockout {| batcher_type := T_SequencerBatcher; batcher_id := 0 |}
       (Node_Sequencer_Lockout cfg_sequencer) (Err "redis: connection refused");
     Ev_Log WarnLevel (Some "redis: connection refused"%string)
       "failed to setup batcher, waiting and retrying";
     Ev_time_After (5 * time_Second);
     Ev_SetupBatcher (SequencerBatcherMode {| From := "0xf" |} 0 12 270)
       (SetupBatcher env_lockout_fails_once 1
          (SequencerBatcherMode {| From := "0xf" |} 0 12 270))] ++ rest.
Proof.
  apply (proj2 (lockout_failure_rebuilds_batcher env_lockout_fails_once
                  (Ok cfg_sequencer) 3)
           cfg_sequencer (SequencerBatcherMode {| From := "0xf" |} 0 12 270)
           0 0 {| batcher_type := T_SequencerBatcher; batcher_id := 0 |}
           "redis: connection refused"%string).
  - reflexivity.
  - discriminate.
  - reflexivity.
  - reflexivity.
  - reflexivity.
Defined.

Lemma first_signal_wins_witness :
  fst (startup env_lockout_fails_once (Ok cfg_sequencer) 3)
    = Returned (Some "txdb: core thread failed"%string).
Proof.
  assert (Hin : In Ev_go_LaunchPublicServer
                  (snd (startup env_lockout_fails_once (Ok cfg_sequencer) 3)))
    by listed.
  apply (proj1 (first_signal_wins env_lockout_fails_once (Ok cfg_sequencer) 3 Hin)
           (Sig_txDBErrChan (Some "txdb: core thread failed"%string))
           [Sig_cancelChan] eq_refl eq_refl).
Defined.

(** An aggregator whose configuration sets the flag waits for the inbox
    reader to catch up, although it is no sequencer. *)
Lemma aggregator_can_wait :
  Node_Type cfg_aggregator_waits = "aggregator"%string /\
  fst (validate env_ok (Ok cfg_aggregator_waits)) = Val cfg_aggregator_waits /\
  WaitToCatchUp cfg_aggregator_waits = true /\
  In (Ev_WaitToCatchUp 0) (snd (startup env_ok (Ok cfg_aggregator_waits) 3)).
Proof.
  repeat split; try reflexivity. listed.
Qed.

Lemma catch_up_wait_witness :
  (forall config',
      fst (validate env_ok (Ok cfg_sequencer)) = Val config' ->
      WaitToCatchUp config' = true) /\
  exists rd, In (Ev_WaitToCatchUp rd) (snd (startup env_ok (Ok cfg_sequencer) 3)).
Proof.
  split.
  - intros config' H.
    rewrite (proj1 (catch_up_wait env_ok cfg_sequencer 3) config' H).
    reflexivity.
  - apply (proj2 (catch_up_wait env_ok cfg_sequencer 3)).
    split; [listed|left; reflexivity].
Defined.

Lemma releases_run_in_reverse_order_witness :
  exists pre,
    snd (startup env_lockout_fails_once (Ok cfg_sequencer) 3) =
      pre ++ [Ev_db_Close; Ev_mon_Close;
              Ev_Log NoLevel nil_error "Cleanly shutting down node";
              Ev_cancelFunc] /\
    forallb (fun e => negb (is_release e)) pre = true.
Proof.
  apply (releases_run_in_reverse_order env_lockout_fails_once
           (Ok cfg_sequencer) 3).
  - listed.
  - reflexivity.
Defined.

Lemma lockout_wraps_sequencer_batcher_witness :
  In (Ev_SetupLockout {| batcher_type := T_SequencerBatcher; batcher_id := 0 |}
        (Node_Sequencer_Lockout cfg_sequencer)
        (Ok {| batcher_type := T_LockoutBatcher; batcher_id := 0 |}))
     (snd (startup env_ok (Ok cfg_sequencer) 3)) /\
  Node_Type cfg_sequencer = "sequencer"%string /\
  forall msg, fst (startup env_ok (Ok cfg_sequencer) 3) <> Panicked msg.
Proof.
  destruct (lockout_wraps_sequencer_batcher env_ok cfg_sequencer 3)
    as (Hlock & _ & _ & Hpanic).
  assert (Hin : In (Ev_SetupLockout
                      {| batcher_type := T_SequencerBatcher; batcher_id := 0 |}
                      (Node_Sequencer_Lockout cfg_sequencer)
                      (Ok {| batcher_type := T_LockoutBatcher; batcher_id := 0 |}))
                   (snd (startup env_ok (Ok cfg_sequencer) 3))) by listed.
  split; [exact Hin|]. split; [exact (proj1 (Hlock _ _ _ Hin))|].
  apply Hpanic. intros i mode b Hb Hm.
  destruct mode; try discriminate Hm.
  simpl in Hb. injection Hb as <-. reflexivity.
Defined.

(** * Further properties of startup and main *)

(** ** An unparsable command line: lines 92-103 *)

Lemma prefix_exists (a s : string) :
  String.prefix a s = true <-> exists post, s = (a ++ post)%string.
Proof.
  revert s. induction a as [|c a IH]; intros s; simpl.
  - split; [intros _; exists s; reflexivity|destruct s; reflexivity].
  - destruct s as [|d s]; [split; [discriminate|intros [post H]; discriminate H]|].
    simpl. destruct (Ascii.ascii_dec c d) as [->|Hcd].
    + rewrite IH. split; intros [post H]; exists post.
      * rewrite H. reflexivity.
      * simpl in H. injection H as H. exact H.
    + split; [discriminate|]. intros [post H]. simpl in H.
      injection H as H _. congruence.
Qed.

(** [strings_Contains] finds [substr] wherever it lies in [s]. *)
Lemma strings_Contains_exists (s substr : string) :
  strings_Contains s substr = true <->
  exists pre post, s = (pre ++ substr ++ post)%string.
Proof.
  induction s as [|c s IH].
  - change (strings_Contains "" substr)
      with (String.prefix substr "" || false).
    rewrite orb_false_r, prefix_exists. split.
    + intros [post H]. exists ""%string, post. exact H.
    + intros (pre & post & H). destruct pre; [exists post; exact H|discriminate H].
  - change (strings_Contains (String c s) substr)
      with (String.prefix substr (String c s) || strings_Contains s substr).
    rewrite orb_true_iff, prefix_exists, IH. split.
    + intros [[post H]|(pre & post & H)].
      * exists ""%string, post. exact H.
      * exists (String c pre), post. rewrite H. reflexivity.
    + intros (pre & post & H). destruct pre as [|d pre].
      * left. exists post. exact H.
      * right. simpl in H. injection H as _ H. exists pre, post. exact H.
Qed.

(** X1. When [configuration.ParseNode] fails, [startup] prints the usage
    text, then the text of the error on a line of its own unless that text
    contains "help requested" somewhere, and returns nil; nothing else
    happens but the deferred [cancelFunc]. *)
Theorem parse_error_prints_usage (env : Env) (err : Error) (fuel : nat) :
  startup env (Err err) fuel =
    (Returned nil_error,
     usage env
     ++ (if strings_Contains err "help requested" then []
         else [Ev_Print (err ++ nl)%string])
     ++ [Ev_cancelFunc]) /\
  (strings_Contains err "help requested" = true <->
   exists pre post, err = (pre ++ "help requested" ++ post)%string).
Proof.
  split; [|apply strings_Contains_exists].
  unfold startup, startup_body. simpl. rewrite validate_Err. reflexivity.
Qed.

(** ** Reading a trace through a class of events *)

Lemma flat_map_class_nil {B} (c : Event -> bool) (f : Event -> list B)
    (l : list Event) :
  forallb c l = true -> (forall e, c e = true -> f e = []) ->
  flat_map f l = [].
Proof.
  intros Hl Hf. induction l as [|e l IH]; [reflexivity|].
  simpl in *. apply andb_true_iff in Hl. destruct Hl as [He Hl].
  rewrite (Hf e He), (IH Hl). reflexivity.
Qed.

Lemma flat_map_class_Forall {B} (P : B -> Prop) (c : Event -> bool)
    (f : Event -> list B) (l : list Event) :
  forallb c l = true -> (forall e, c e = true -> Forall P (f e)) ->
  Forall P (flat_map f l).
Proof.
  intros Hl Hf. induction l as [|e l IH]; [constructor|].
  simpl in *. apply andb_true_iff in Hl. destruct Hl as [He Hl].
  apply Forall_app. split; [apply Hf; exact He|apply IH; exact Hl].
Qed.

Lemma count_class_zero (c d : Event -> bool) (l : list Event) :
  forallb c l = true -> (forall e, c e = true -> d e = false) ->
  count d l = 0.
Proof.
  intros Hl Hd. induction l as [|e l IH]; [reflexivity|].
  simpl in *. apply andb_true_iff in Hl. destruct Hl as [He Hl].
  unfold count in *. simpl. rewrite (Hd e He). apply IH. exact Hl.
Qed.

Lemma stages_app (l1 l2 : list Event) :
  stages (l1 ++ l2) = stages l1 ++ stages l2.
Proof. apply flat_map_app. Qed.

Lemma connected_app (l1 l2 : list Event) :
  connected (l1 ++ l2) = connected l1 ++ connected l2.
Proof. apply flat_map_app. Qed.

(** Destructs an event, and its log level if it has one. *)
Ltac by_event e :=
  destruct e;
  try match goal with l : Level |- _ => destruct l end;
  try match goal with o : error |- _ => destruct o end.

(** ** Lists of stages in order *)

Lemma sorted_app (l1 l2 : list nat) (m : nat) :
  StronglySorted precedes l1 -> Forall (fun n => n <= m) l1 ->
  StronglySorted precedes l2 -> Forall (fun n => m < n) l2 ->
  StronglySorted precedes (l1 ++ l2).
Proof.
  intros H1 Hb1 H2 Hb2. induction H1 as [|a l1 Hs IH Ha]; [exact H2|].
  simpl. constructor.
  - apply IH. inversion Hb1. assumption.
  - apply Forall_app. split; [exact Ha|].
    inversion Hb1 as [|? ? Hle _]. subst.
    eapply Forall_impl; [|exact Hb2]. intros b Hb. left. simpl in *. lia.
Qed.

Lemma sorted_repeated (n : nat) (l : list nat) :
  repeats n = true -> Forall (eq n) l -> StronglySorted precedes l.
Proof.
  intros Hr Hl. induction Hl as [|a l <- Hl IH]; constructor; [exact IH|].
  eapply Forall_impl; [|exact Hl]. intros b <-. right. auto.
Qed.

Lemma sorted_repeated_app (n : nat) (l1 l2 : list nat) :
  repeats n = true -> Forall (eq n) l1 ->
  StronglySorted precedes l2 -> Forall (fun k => n <= k) l2 ->
  StronglySorted precedes (l1 ++ l2).
Proof.
  intros Hr H1 H2 Hb. induction H1 as [|a l1 <- H1 IH]; [exact H2|].
  simpl. constructor; [exact IH|].
  apply Forall_app. split.
  - eapply Forall_impl; [|exact H1]. intros b <-. right. auto.
  - eapply Forall_impl; [|exact Hb]. intros b Hle. simpl in Hle.
    destruct (Nat.eq_dec n b) as [<-|Hne]; [right; auto|left; lia].
Qed.

(** In a sorted list of stages, an earlier stage is at most a later one,
    and a stage that does not repeat occurs at most once. *)
Lemma sorted_split (pre mid post : list nat) (a b : nat) :
  StronglySorted precedes (pre ++ a :: mid ++ b :: post) ->
  a <= b /\ (a = b -> repeats a = true).
Proof.
  induction pre as [|x pre IH]; simpl; intros H.
  - inversion H as [|? ? _ Hall]. subst.
    apply Forall_app in Hall. destruct Hall as [_ Hall].
    inversion Hall as [|? ? [Hlt|[Heq Hr]] _]; subst; split; try lia; auto.
  - inversion H. auto.
Qed.

(** ** More on the blocks of startup *)

Lemma inboxReaderLoop_class (env : Env) (fuel k : nat) :
  forallb in_inbox_loop (events (snd (inboxReaderLoop env fuel k))) = true /\
  forallb fixed_wait (events (snd (inboxReaderLoop env fuel k))) = true /\
  forall rd, fst (inboxReaderLoop env fuel k) = Val rd ->
             In (Ev_StartInboxReader (Ok rd))
                (events (snd (inboxReaderLoop env fuel k))).
Proof.
  revert k. induction fuel as [|fuel IH]; intros k.
  { repeat split; try reflexivity. discriminate. }
  simpl. specialize (IH (S k)).
  destruct (StartInboxReader env k) as [v|err].
  { repeat split; try reflexivity. simpl. intros rd [= <-]. left. reflexivity. }
  destruct (inboxSelect env k).
  { repeat split; try reflexivity. discriminate. }
  destruct (inboxReaderLoop env fuel (S k)) as [[v| e | m | |] w];
    simpl in *; destruct IH as (H1 & H2 & H3); rewrite H1, H2;
    repeat split; try reflexivity; try discriminate.
  intros rd Hrd. right. right. right. apply H3. exact Hrd.
Qed.

Lemma setupAttempt_more (env : Env) (config : NodeConfig) (mode : BatcherMode)
    (k : nat) :
  forallb fixed_wait (events (snd (setupAttempt env config mode k))) = true /\
  Forall (eq 14) (stages (events (snd (setupAttempt env config mode k)))) /\
  forall b, fst (setupAttempt env config mode k) = Val (Ok b) ->
    if (Node_Sequencer_Lockout_Redis config =? "")%string
    then In (Ev_SetupBatcher mode (Ok b))
            (events (snd (setupAttempt env config mode k)))
    else exists sb, In (Ev_SetupLockout sb (Node_Sequencer_Lockout config) (Ok b))
                       (events (snd (setupAttempt env config mode k))).
Proof.
  unfold setupAttempt, assert_SequencerBatcher. simpl Redis.
  destruct (SetupBatcher env k mode) as [b|err].
  2:{ split; [reflexivity|]. split; [repeat constructor|]. discriminate. }
  destruct (Node_Sequencer_Lockout_Redis config =? "")%string.
  { simpl. split; [reflexivity|]. split; [repeat constructor|].
    intros b' [= <-]. left. reflexivity. }
  simpl.
  destruct (batcher_type b); simpl;
    try (split; [reflexivity|]; split; [repeat constructor|]; discriminate).
  destruct (SetupLockout env k b (Node_Sequencer_Lockout config)) as [b''|err];
    simpl; (split; [reflexivity|]); (split; [repeat constructor|]);
    [|discriminate].
  intros b' [= <-]. exists b. right. left. reflexivity.
Qed.

Lemma in_stages (tr : list Event) (e : Event) (n : nat) :
  In e tr -> stage e = Some n -> In n (stages tr).
Proof.
  intros Hin Hs. unfold stages. apply in_flat_map. exists e.
  split; [exact Hin|]. rewrite Hs. left. reflexivity.
Qed.

Lemma batcherLoop_more (env : Env) (config : NodeConfig) (mode : BatcherMode)
    (fuel k : nat) :
  forallb fixed_wait (events (snd (batcherLoop env config mode fuel k))) = true /\
  StronglySorted precedes
    (stages (events (snd (batcherLoop env config mode fuel k)))) /\
  Forall (fun n => 14 <= n <= 15)
    (stages (events (snd (batcherLoop env config mode fuel k)))) /\
  (forall b,
      In (Ev_go_batch_Start b) (events (snd (batcherLoop env config mode fuel k))) ->
      if (Node_Sequencer_Lockout_Redis config =? "")%string
      then In (Ev_SetupBatcher mode (Ok b))
              (events (snd (batcherLoop env config mode fuel k)))
      else exists sb,
          In (Ev_SetupLockout sb (Node_Sequencer_Lockout config) (Ok b))
             (events (snd (batcherLoop env config mode fuel k)))) /\
  (forall b, fst (batcherLoop env config mode fuel k) = Val b ->
             In (Ev_go_batch_Start b)
                (events (snd (batcherLoop env config mode fuel k)))).
Proof.
  revert k. induction fuel as [|fuel IH]; intros k.
  { simpl. split; [reflexivity|]. split; [constructor|]. split; [constructor|].
    split; [intros b []|discriminate]. }
  simpl. specialize (IH (S k)).
  destruct (setupAttempt_more env config mode k) as (Hw & Hs & Hv).
  assert (Hno : forall b, ~ In (Ev_go_batch_Start b)
                            (events (snd (setupAttempt env config mode k)))).
  { intros b Hin. apply (in_stages _ _ 15) in Hin; [|reflexivity].
    rewrite Forall_forall in Hs. apply Hs in Hin. discriminate Hin. }
  assert (H14 : Forall (fun n => 14 <= n <= 15)
                  (stages (events (snd (setupAttempt env config mode k))))).
  { eapply Forall_impl; [|exact Hs]. intros n <-. lia. }
  destruct (setupAttempt env config mode k) as [[[b|err]| e | m | |] w];
    simpl in *.
  - rewrite forallb_app, Hw, stages_app. simpl.
    split; [reflexivity|]. split; [|split; [|split]].
    + apply (sorted_repeated_app 14); [reflexivity|exact Hs| |];
        repeat constructor.
    + apply Forall_app. split; [exact H14|repeat constructor].
    + intros b' Hin. apply in_app_or in Hin. destruct Hin as [Hin|Hin].
      * exfalso. exact (Hno b' Hin).
      * destruct Hin as [[= <-]|[]]. specialize (Hv b eq_refl).
        destruct (Node_Sequencer_Lockout_Redis config =? "")%string.
        -- apply in_or_app. left. exact Hv.
        -- destruct Hv as [sb Hsb]. exists sb. apply in_or_app. left. exact Hsb.
    + intros b' [= <-]. apply in_or_app. right. left. reflexivity.
  - destruct (batcherSelect env k); simpl.
    + rewrite forallb_app, Hw, stages_app, app_nil_r. simpl.
      split; [reflexivity|].
      split; [apply (sorted_repeated 14); [reflexivity|exact Hs]|].
      split; [exact H14|]. split; [|discriminate].
      intros b' Hin. apply in_app_or in Hin. destruct Hin as [Hin|Hin].
      * exfalso. exact (Hno b' Hin).
      * simpl in Hin. destruct Hin as [Hin|[Hin|[]]]; discriminate Hin.
    + destruct IH as (IHw & IHs & IHb & IHi & IHv).
      assert (Hgoal :
        forall w',
          forallb fixed_wait (events w') = true ->
          StronglySorted precedes (stages (events w')) ->
          Forall (fun n => 14 <= n <= 15) (stages (events w')) ->
          (forall b, In (Ev_go_batch_Start b) (events w') ->
             if (Node_Sequencer_Lockout_Redis config =? "")%string
             then In (Ev_SetupBatcher mode (Ok b)) (events w')
             else exists sb,
                 In (Ev_SetupLockout sb (Node_Sequencer_Lockout config) (Ok b))
                    (events w')) ->
          let ev := events w ++
                    Ev_Log WarnLevel (Some err)
                      "failed to setup batcher, waiting and retrying"
                    :: Ev_time_After (5 * time_Second) :: events w' in
          forallb fixed_wait ev = true /\
          StronglySorted precedes (stages ev) /\
          Forall (fun n => 14 <= n <= 15) (stages ev) /\
          (forall b, In (Ev_go_batch_Start b) ev ->
             if (Node_Sequencer_Lockout_Redis config =? "")%string
             then In (Ev_SetupBatcher mode (Ok b)) ev
             else exists sb,
                 In (Ev_SetupLockout sb (Node_Sequencer_Lockout config) (Ok b))
                    ev)).
      { intros w' Gw Gs Gb Gi ev. unfold ev.
        rewrite forallb_app, Hw, stages_app. simpl. rewrite Gw.
        split; [reflexivity|]. split; [|split].
        - apply (sorted_repeated_app 14); [reflexivity|exact Hs|exact Gs|].
          eapply Forall_impl; [|exact Gb]. simpl. intros n Hn. lia.
        - apply Forall_app. split; [exact H14|exact Gb].
        - intros b' Hin. apply in_app_or in Hin. destruct Hin as [Hin|Hin].
          + exfalso. exact (Hno b' Hin).
          + simpl in Hin. destruct Hin as [Hin|[Hin|Hin]]; try discriminate Hin.
            specialize (Gi b' Hin).
            destruct (Node_Sequencer_Lockout_Redis config =? "")%string.
            * apply in_or_app. right. right. right. exact Gi.
            * destruct Gi as [sb Hsb]. exists sb.
              apply in_or_app. right. right. right. exact Hsb. }
      destruct (batcherLoop env config mode fuel (S k)) as [[v| e | m | |] w'];
        simpl in *;
        destruct (Hgoal w' IHw IHs IHb IHi) as (G1 & G2 & G3 & G4);
        (split; [exact G1|]); (split; [exact G2|]); (split; [exact G3|]);
        (split; [exact G4|]); try discriminate.
      intros b' Hb'. apply in_or_app. right. right. right. apply IHv. exact Hb'.
  - split; [exact Hw|]. split; [apply (sorted_repeated 14); [reflexivity|exact Hs]|].
    split; [exact H14|]. split; [|discriminate].
    intros b' Hin. exfalso. exact (Hno b' Hin).
  - split; [exact Hw|]. split; [apply (sorted_repeated 14); [reflexivity|exact Hs]|].
    split; [exact H14|]. split; [|discriminate].
    intros b' Hin. exfalso. exact (Hno b' Hin).
  - split; [exact Hw|]. split; [apply (sorted_repeated 14); [reflexivity|exact Hs]|].
    split; [exact H14|]. split; [|discriminate].
    intros b' Hin. exfalso. exact (Hno b' Hin).
  - split; [exact Hw|]. split; [apply (sorted_repeated 14); [reflexivity|exact Hs]|].
    split; [exact H14|]. split; [|discriminate].
    intros b' Hin. exfalso. exact (Hno b' Hin).
Qed.

Lemma serve_more (env : Env) (config : NodeConfig) (mode : BatcherMode)
    (fuel : nat) :
  StronglySorted precedes (stages (events (snd (serve env config mode fuel)))) /\
  Forall (fun n => 14 <= n <= 20)
    (stages (events (snd (serve env config mode fuel)))) /\
  forallb fixed_wait (events (snd (serve env config mode fuel))) = true /\
  (forall err, fst (serve env config mode fuel) = Return err ->
     err = cancelled_batcher \/
     exists c, GenerateWeb3Server env = Some c /\ err = Some c) /\
  (forall b,
      In (Ev_go_batch_Start b) (events (snd (serve env config mode fuel))) ->
      if (Node_Sequencer_Lockout_Redis config =? "")%string
      then In (Ev_SetupBatcher mode (Ok b))
              (events (snd (serve env config mode fuel)))
      else exists sb,
          In (Ev_SetupLockout sb (Node_Sequencer_Lockout config) (Ok b))
             (events (snd (serve env config mode fuel)))) /\
  (forall b, In (Ev_NewServer b) (events (snd (serve env config mode fuel))) ->
             In (Ev_go_batch_Start b) (events (snd (serve env config mode fuel)))).
Proof.
  unfold serve.
  destruct (batcherLoop_more env config mode fuel 0) as (Hw & Hs & Hb & Hi & Hv).
  pose proof (batcherLoop_exit env config mode fuel 0) as Hx.
  destruct (batcherLoop_log env config mode fuel 0) as [_ Hc].
  assert (Hwide : Forall (fun n => 14 <= n <= 20)
                    (stages (events (snd (batcherLoop env config mode fuel 0))))).
  { eapply Forall_impl; [|exact Hb]. simpl. intros n Hn. lia. }
  assert (Hlow : Forall (fun n => n <= 15)
                   (stages (events (snd (batcherLoop env config mode fuel 0))))).
  { eapply Forall_impl; [|exact Hb]. simpl. intros n Hn. lia. }
  assert (Hns : forall b, ~ In (Ev_NewServer b)
                            (events (snd (batcherLoop env config mode fuel 0)))).
  { intros b. apply (not_in_class in_batcher_loop); [exact Hc|reflexivity]. }
  destruct (batcherLoop env config mode fuel 0) as [[b| e | m | |] w];
    simpl in *.
  - specialize (Hv b eq_refl).
    destruct (GenerateWeb3Server env) as [c|]; unfold log_app; simpl;
      rewrite forallb_app, Hw, stages_app; simpl.
    + split; [apply (sorted_app _ _ 15); [exact Hs|exact Hlow| |];
              repeat constructor; lia|].
      split; [apply Forall_app; split; [exact Hwide|repeat constructor; lia]|].
      split; [reflexivity|].
      split; [intros err [= <-]; right; exists c; auto|].
      split.
      * intros b' Hin. apply in_app_or in Hin.
        destruct Hin as [Hin|Hin];
          [|simpl in Hin; repeat (destruct Hin as [Hin|Hin]; try discriminate Hin);
            contradiction].
        specialize (Hi b' Hin).
        destruct (Node_Sequencer_Lockout_Redis config =? "")%string.
        -- apply in_or_app. left. exact Hi.
        -- destruct Hi as [sb Hsb]. exists sb. apply in_or_app. left. exact Hsb.
      * intros b' Hin. apply in_app_or in Hin. destruct Hin as [Hin|Hin].
        -- exfalso. exact (Hns b' Hin).
        -- simpl in Hin.
           repeat (destruct Hin as [Hin|Hin]; try discriminate Hin);
             try contradiction.
           injection Hin as <-. apply in_or_app. left. exact Hv.
    + split; [apply (sorted_app _ _ 15); [exact Hs|exact Hlow| |];
              repeat constructor; lia|].
      split; [apply Forall_app; split; [exact Hwide|repeat constructor; lia]|].
      split; [reflexivity|].
      split; [discriminate|].
      split.
      * intros b' Hin. apply in_app_or in Hin.
        destruct Hin as [Hin|Hin];
          [|simpl in Hin; repeat (destruct Hin as [Hin|Hin]; try discriminate Hin);
            contradiction].
        specialize (Hi b' Hin).
        destruct (Node_Sequencer_Lockout_Redis config =? "")%string.
        -- apply in_or_app. left. exact Hi.
        -- destruct Hi as [sb Hsb]. exists sb. apply in_or_app. left. exact Hsb.
      * intros b' Hin. apply in_app_or in Hin. destruct Hin as [Hin|Hin].
        -- exfalso. exact (Hns b' Hin).
        -- simpl in Hin.
           repeat (destruct Hin as [Hin|Hin]; try discriminate Hin);
             try contradiction.
           injection Hin as <-. apply in_or_app. left. exact Hv.
  - destruct Hx as [-> _]. repeat (split; [assumption|]).
    split; [intros err [= <-]; left; reflexivity|].
    split; [exact Hi|]. intros b Hin. exfalso. exact (Hns b Hin).
  - repeat (split; [assumption|]). split; [discriminate|].
    split; [exact Hi|]. intros b Hin. exfalso. exact (Hns b Hin).
  - contradiction.
  - repeat (split; [assumption|]). split; [discriminate|].
    split; [exact Hi|]. intros b Hin. exfalso. exact (Hns b Hin).
Qed.

(** Stage lists that are written out. *)
Ltac sorted_list :=
  repeat first
    [ apply SSorted_nil | apply SSorted_cons | apply Forall_nil
    | apply Forall_cons | (left; lia) | (right; split; reflexivity) ].

Ltac bounds_list :=
  repeat first [apply Forall_nil | apply Forall_cons | (cbv beta; lia)].

Lemma publishHealth_more (config : NodeConfig) :
  publishHealth config =
    (Val tt, {| events := events (snd (publishHealth config)); deferred := [] |}) /\
  count is_healthChan_send (events (snd (publishHealth config))) =
    (if (Node_Type config =? "forwarder")%string then 6 else 5) /\
  StronglySorted precedes (stages (events (snd (publishHealth config)))) /\
  Forall (fun n => 5 <= n <= 6) (stages (events (snd (publishHealth config)))) /\
  connected (events (snd (publishHealth config))) = [] /\
  forallb fixed_wait (events (snd (publishHealth config))) = true /\
  forallb in_setup (events (snd (publishHealth config))) = true /\
  ~ In feed_warning (events (snd (publishHealth config))).
Proof.
  unfold publishHealth.
  destruct (Node_Type config =? "forwarder")%string; simpl.
  - split; [reflexivity|]. split; [reflexivity|]. split; [sorted_list|].
    split; [bounds_list|]. split; [reflexivity|]. split; [reflexivity|].
    split; [reflexivity|].
    intros H; repeat (destruct H as [H|H]; [discriminate H|]); exact H.
  - split; [reflexivity|]. split; [reflexivity|]. split; [sorted_list|].
    split; [bounds_list|]. split; [reflexivity|]. split; [reflexivity|].
    split; [reflexivity|].
    intros H; repeat (destruct H as [H|H]; [discriminate H|]); exact H.
Qed.

Lemma connectFeeds_events (urls : list string) :
  connectFeeds urls =
    (Val tt, {| events := map Ev_ConnectInBackground urls; deferred := [] |}).
Proof.
  induction urls as [|url urls IH]; simpl; [reflexivity|].
  rewrite IH. reflexivity.
Qed.

Lemma connected_clients (urls : list string) :
  connected (map Ev_ConnectInBackground urls) = urls /\
  Forall (eq 7) (stages (map Ev_ConnectInBackground urls)) /\
  count is_healthChan_send (map Ev_ConnectInBackground urls) = 0 /\
  forallb fixed_wait (map Ev_ConnectInBackground urls) = true /\
  forallb in_setup (map Ev_ConnectInBackground urls) = true /\
  ~ In feed_warning (map Ev_ConnectInBackground urls).
Proof.
  induction urls as [|u urls (H1 & H2 & H3 & H4 & H5 & H6)]; simpl.
  - split; [reflexivity|]. split; [constructor|]. split; [reflexivity|].
    split; [reflexivity|]. split; [reflexivity|]. intros [].
  - rewrite H1, H4, H5. split; [reflexivity|].
    split; [constructor; [reflexivity|exact H2]|]. split; [exact H3|].
    split; [reflexivity|]. split; [reflexivity|].
    intros [H|H]; [discriminate H|exact (H6 H)].
Qed.

Lemma subscribeFeed_more (config : NodeConfig) :
  subscribeFeed config =
    (Val tt, {| events := events (snd (subscribeFeed config)); deferred := [] |}) /\
  connected (events (snd (subscribeFeed config))) = Feed_Input_URLs config /\
  Forall (eq 7) (stages (events (snd (subscribeFeed config)))) /\
  count is_healthChan_send (events (snd (subscribeFeed config))) = 0 /\
  forallb fixed_wait (events (snd (subscribeFeed config))) = true /\
  forallb in_setup (events (snd (subscribeFeed config))) = true /\
  (In feed_warning (events (snd (subscribeFeed config))) <->
   Feed_Input_URLs config = []).
Proof.
  unfold subscribeFeed. rewrite connectFeeds_events.
  destruct (Feed_Input_URLs config) as [|url urls] eqn:E.
  - simpl. split; [reflexivity|]. split; [reflexivity|]. split; [constructor|].
    split; [reflexivity|]. split; [reflexivity|]. split; [reflexivity|].
    split; [reflexivity|]. intros _. left. reflexivity.
  - destruct (connected_clients (url :: urls)) as (H1 & H2 & H3 & H4 & H5 & H6).
    cbn [List.length Nat.eqb snd events].
    split; [reflexivity|]. split; [exact H1|]. split; [exact H2|].
    split; [exact H3|]. split; [exact H4|]. split; [exact H5|].
    split; [intros H; destruct (H6 H)|discriminate].
Qed.

Lemma resolveBatcherMode_forwarder (env : Env) (config : NodeConfig)
    (rd : InboxReader) (auth : TransactOpts) :
  (Node_Type config =? "forwarder")%string = true ->
  resolveBatcherMode env config rd =
    (Val (resolved_mode config auth rd),
     {| events := [Ev_Log InfoLevel nil_error
                     "Arbitrum node starting in forwarder mode"];
        deferred := [] |}).
Proof.
  intros H. unfold resolveBatcherMode, resolved_mode. rewrite H. reflexivity.
Qed.

Lemma resolveBatcherMode_signer (env : Env) (config : NodeConfig)
    (rd : InboxReader) :
  (Node_Type config =? "forwarder")%string = false ->
  resolveBatcherMode env config rd =
    match GetKeystore env with
    | Err c =>
        (Return (errors_Wrap c "error running GetKeystore"),
         {| events := [Ev_GetKeystore (Err c)]; deferred := [] |})
    | Ok auth =>
        let ev := [Ev_GetKeystore (Ok auth);
                   Ev_Log InfoLevel nil_error "Arbitrum node submitting batches";
                   Ev_WaitForBalance (WaitForBalance env)] in
        match WaitForBalance env with
        | Some c =>
            (Return (errors_Wrap c "error waiting for balance"),
             {| events := ev; deferred := [] |})
        | None =>
            (Val (resolved_mode config auth rd),
             {| events := ev; deferred := [] |})
        end
    end.
Proof.
  intros H. unfold resolveBatcherMode, resolved_mode. rewrite H.
  destruct (GetKeystore env) as [auth|c]; [|reflexivity].
  destruct (WaitForBalance env) as [c|]; [reflexivity|].
  destruct (Node_Type config =? "sequencer")%string;
    [|destruct (Node_Aggregator_Stateful config)]; reflexivity.
Qed.

Lemma prepare_closed (env : Env) (config : NodeConfig) (fuel : nat) :
  (forall c, ParseLogFlags env = Some c ->
     prepare env config fuel =
       (Return (Some c),
        {| events := [Ev_ParseLogFlags (Some c)];
           deferred := [shutdown_message] |})) /\
  (forall c, ParseLogFlags env = None -> NewMonitor env = Some c ->
     prepare env config fuel =
       (Return (errors_Wrap c "error opening monitor"),
        {| events :=
             Ev_ParseLogFlags None
             :: (if PProfEnable config then [Ev_go_pprof] else [])
             ++ [Ev_Log InfoLevel nil_error "Launching arbitrum node";
                 Ev_NewMonitor (Some c)];
           deferred := [shutdown_message] |})).
Proof.
  unfold prepare. split.
  - intros c ->. reflexivity.
  - intros c -> ->. destruct (PProfEnable config); reflexivity.
Qed.

Lemma prepare_open (env : Env) (config : NodeConfig) (fuel : nat) :
  ParseLogFlags env = None -> NewMonitor env = None ->
  deferred (snd (prepare env config fuel)) = [Ev_mon_Close; shutdown_message] /\
  match fst (inboxReaderLoop env fuel 0) with
  | Val rd =>
      events (snd (prepare env config fuel)) =
        opened_events env config fuel
        ++ events (snd (resolveBatcherMode env config rd)) /\
      match fst (resolveBatcherMode env config rd) with
      | Val mode => fst (prepare env config fuel) = Val (rd, mode)
      | Return e => fst (prepare env config fuel) = Return e
      | _ => False
      end
  | Return e =>
      events (snd (prepare env config fuel)) = opened_events env config fuel /\
      fst (prepare env config fuel) = Return e /\ e = cancelled_inbox
  | OutOfFuel =>
      events (snd (prepare env config fuel)) = opened_events env config fuel /\
      fst (prepare env config fuel) = OutOfFuel
  | Panic _ | Blocked => False
  end.
Proof.
  intros Hp Hm. unfold prepare, opened_events. rewrite Hp, Hm.
  destruct (publishHealth_more config) as (EH & _).
  destruct (subscribeFeed_more config) as (EF & _).
  destruct (inboxReaderLoop_log env fuel 0) as [Hd _].
  pose proof (inboxReaderLoop_exit env fuel 0) as Hx.
  destruct (PProfEnable config); simpl; rewrite EH; simpl; rewrite EF; simpl;
    (destruct (inboxReaderLoop env fuel 0) as [[rd| e | m | |] w]; simpl in *;
     try contradiction; rewrite ?Hd);
    try (destruct (resolveBatcherMode_spec env config rd)
           as (r & l & E & _ & Hr);
         rewrite E; destruct r as [mode|[e|]|m| |]; simpl in *;
         try contradiction);
    unfold log_app; simpl; rewrite ?app_nil_r, <- ?app_assoc; simpl;
    rewrite ?Hd; repeat split; try reflexivity; try tauto.
Qed.

Arguments stages : simpl never.
Arguments connected : simpl never.
Arguments count : simpl never.

Lemma stages_cons (e : Event) (l : list Event) :
  stages (e :: l) =
  match stage e with Some n => n :: stages l | None => stages l end.
Proof. unfold stages. simpl. destruct (stage e); reflexivity. Qed.

Lemma stages_nil : stages [] = [].
Proof. reflexivity. Qed.

Lemma connected_cons (e : Event) (l : list Event) :
  connected (e :: l) =
  match e with
  | Ev_ConnectInBackground url => url :: connected l
  | _ => connected l
  end.
Proof. destruct e; reflexivity. Qed.

Lemma connected_nil : connected [] = [].
Proof. reflexivity. Qed.

Lemma count_cons (c : Event -> bool) (e : Event) (l : list Event) :
  count c (e :: l) = (if c e then 1 else 0) + count c l.
Proof. unfold count. simpl. destruct (c e); reflexivity. Qed.

Lemma count_nil (c : Event -> bool) : count c [] = 0.
Proof. reflexivity. Qed.

Lemma sorted_cons_lt (n : nat) (l : list nat) :
  Forall (fun k => n < k) l -> StronglySorted precedes l ->
  StronglySorted precedes (n :: l).
Proof.
  intros Hb Hs. constructor; [exact Hs|].
  eapply Forall_impl; [|exact Hb]. intros k Hk. left. exact Hk.
Qed.

(** Bounds on a list of stages built from parts with known bounds. *)
Ltac bounds :=
  lazymatch goal with
  | |- Forall _ [] => apply Forall_nil
  | |- Forall _ (_ :: _) => apply Forall_cons; [cbv beta; lia|bounds]
  | |- Forall _ (_ ++ _) => apply Forall_app; split; bounds
  | |- Forall _ ?l =>
      match goal with
      | H : Forall _ l |- _ =>
          eapply Forall_impl; [|exact H]; cbv beta; intros; lia
      end
  end.

(** Order of a list of stages built from parts in order. *)
Ltac sorted :=
  lazymatch goal with
  | |- StronglySorted precedes [] => apply SSorted_nil
  | |- StronglySorted precedes (_ :: _) =>
      apply sorted_cons_lt; [solve [bounds]|sorted]
  | |- StronglySorted precedes (stages ?x ++ _) =>
      first
        [ match goal with
          | H : Forall (eq ?n) (stages x) |- _ =>
              apply (sorted_repeated_app n);
              [reflexivity|exact H|sorted|solve [bounds]]
          end
        | match goal with
          | H : Forall (fun k => _ <= k <= ?hi) (stages x) |- _ =>
              apply (sorted_app _ _ hi);
              [sorted|solve [bounds]|sorted|solve [bounds]]
          end ]
  | |- StronglySorted precedes (stages ?x) =>
      first
        [ assumption
        | match goal with
          | H : Forall (eq ?n) (stages x) |- _ =>
              apply (sorted_repeated n); [reflexivity|exact H]
          end ]
  end.

(** Rewrites the stages of a trace along its parts. *)
Ltac observe_stages :=
  repeat (first [rewrite stages_app | rewrite stages_cons | rewrite stages_nil];
          cbn [stage]).

(** Rewrites the observations of a trace along its parts. *)
Ltac observe :=
  repeat (first [ rewrite stages_app | rewrite stages_cons | rewrite stages_nil
                | rewrite connected_app | rewrite connected_cons
                | rewrite connected_nil
                | rewrite count_app | rewrite count_cons | rewrite count_nil
                | rewrite forallb_app ];
          cbn [stage is_healthChan_send]);
  cbn [forallb fixed_wait andb Nat.add]; rewrite ?forallb_app.

Lemma opened_events_more (env : Env) (config : NodeConfig) (fuel : nat) :
  StronglySorted precedes (stages (opened_events env config fuel)) /\
  Forall (fun n => 1 <= n <= 8) (stages (opened_events env config fuel)) /\
  forallb fixed_wait (opened_events env config fuel) = true /\
  In (Ev_NewMonitor None) (opened_events env config fuel) /\
  count is_healthChan_send (opened_events env config fuel) =
    (if (Node_Type config =? "forwarder")%string then 6 else 5) /\
  connected (opened_events env config fuel) = Feed_Input_URLs config /\
  (In feed_warning (opened_events env config fuel) <->
   Feed_Input_URLs config = []) /\
  (forall rd, fst (inboxReaderLoop env fuel 0) = Val rd ->
     In (Ev_StartInboxReader (Ok rd)) (opened_events env config fuel)).
Proof.
  destruct (publishHealth_more config) as (_ & Hc & Hs & Hb & Hn & Hw & _ & Hfw).
  destruct (subscribeFeed_more config) as (_ & Fn & Fs & Fc & Fw & _ & Ffw).
  destruct (inboxReaderLoop_class env fuel 0) as (Lc & Lw & Lv).
  assert (Ls : Forall (eq 8) (stages (events (snd (inboxReaderLoop env fuel 0))))).
  { apply (flat_map_class_Forall _ in_inbox_loop); [exact Lc|].
    intros e He. by_event e; try discriminate He; repeat constructor. }
  assert (Ln : connected (events (snd (inboxReaderLoop env fuel 0))) = []).
  { apply (flat_map_class_nil in_inbox_loop); [exact Lc|].
    intros e He. by_event e; try discriminate He; reflexivity. }
  assert (Lh : count is_healthChan_send
                 (events (snd (inboxReaderLoop env fuel 0))) = 0).
  { apply (count_class_zero in_inbox_loop); [exact Lc|].
    intros e He. by_event e; try discriminate He; reflexivity. }
  assert (Lfw : ~ In feed_warning (events (snd (inboxReaderLoop env fuel 0)))).
  { apply (not_in_class in_inbox_loop); [exact Lc|reflexivity]. }
  unfold opened_events.
  destruct (PProfEnable config); cbn [app]; observe;
    rewrite ?Hw, ?Fw, ?Lw, ?Hc, ?Fc, ?Lh, ?Hn, ?Fn, ?Ln, ?app_nil_r.
  - split; [sorted|]. split; [bounds|]. split; [reflexivity|].
    split; [simpl; tauto|]. split; [lia|]. split; [reflexivity|]. split.
    + split.
      * intros H. simpl in H. rewrite !in_app_iff in H.
        destruct H as [H|[H|[H|[H|[H|[H|[H|H]]]]]]]; try discriminate H; tauto.
      * intros H. simpl. rewrite !in_app_iff. tauto.
    + intros rd Hrd. simpl. rewrite !in_app_iff. auto 10.
  - split; [sorted|]. split; [bounds|]. split; [reflexivity|].
    split; [simpl; tauto|]. split; [lia|]. split; [reflexivity|]. split.
    + split.
      * intros H. simpl in H. rewrite !in_app_iff in H.
        destruct H as [H|[H|[H|[H|[H|[H|H]]]]]]; try discriminate H; tauto.
      * intros H. simpl. rewrite !in_app_iff. tauto.
    + intros rd Hrd. simpl. rewrite !in_app_iff. auto 10.
Qed.

Lemma prepare_more (env : Env) (config : NodeConfig) (fuel : nat) :
  StronglySorted precedes (stages (events (snd (prepare env config fuel)))) /\
  Forall (fun n => 1 <= n <= 10)
    (stages (events (snd (prepare env config fuel)))) /\
  forallb fixed_wait (events (snd (prepare env config fuel))) = true /\
  match ParseLogFlags env, NewMonitor env with
  | None, None =>
      In (Ev_NewMonitor None) (events (snd (prepare env config fuel))) /\
      deferred (snd (prepare env config fuel)) = [Ev_mon_Close; shutdown_message] /\
      count is_healthChan_send (events (snd (prepare env config fuel))) =
        (if (Node_Type config =? "forwarder")%string then 6 else 5) /\
      connected (events (snd (prepare env config fuel))) = Feed_Input_URLs config /\
      (In feed_warning (events (snd (prepare env config fuel))) <->
       Feed_Input_URLs config = [])
  | _, _ =>
      ~ In (Ev_NewMonitor None) (events (snd (prepare env config fuel))) /\
      deferred (snd (prepare env config fuel)) = [shutdown_message] /\
      count is_healthChan_send (events (snd (prepare env config fuel))) = 0 /\
      connected (events (snd (prepare env config fuel))) = [] /\
      ~ In feed_warning (events (snd (prepare env config fuel)))
  end /\
  (forall rd mode,
      fst (prepare env config fuel) = Val (rd, mode) ->
      In (Ev_StartInboxReader (Ok rd)) (events (snd (prepare env config fuel))) /\
      exists auth,
        mode = resolved_mode config auth rd /\
        ((Node_Type config =? "forwarder")%string = false ->
         GetKeystore env = Ok auth /\ WaitForBalance env = None)) /\
  ((Node_Type config =? "forwarder")%string = true ->
   forall e, In e (events (snd (prepare env config fuel))) ->
             stage e <> Some 9 /\ stage e <> Some 10) /\
  (forall err,
      fst (prepare env config fuel) = Return err ->
      (exists c, ParseLogFlags env = Some c /\ err = Some c) \/
      (exists c, NewMonitor env = Some c /\
                 err = errors_Wrap c "error opening monitor") \/
      err = cancelled_inbox \/
      (exists c, GetKeystore env = Err c /\
                 err = errors_Wrap c "error running GetKeystore") \/
      (exists c, WaitForBalance env = Some c /\
                 err = errors_Wrap c "error waiting for balance")).
Proof.
  destruct (ParseLogFlags env) as [c|] eqn:Hp.
  { rewrite (proj1 (prepare_closed env config fuel) c Hp).
    cbn [fst snd events deferred]. observe.
    split; [sorted|]. split; [bounds|]. split; [reflexivity|].
    split.
    { split; [intros [H|[]]; discriminate H|]. split; [reflexivity|].
      split; [reflexivity|]. split; [reflexivity|].
      intros [H|[]]; discriminate H. }
    split; [discriminate|].
    split; [intros _ e [<-|[]]; split; discriminate|].
    intros err [= <-]. left. exists c. auto. }
  destruct (NewMonitor env) as [c|] eqn:Hm.
  { rewrite (proj2 (prepare_closed env config fuel) c Hp Hm).
    cbn [fst snd events deferred].
    destruct (PProfEnable config); cbn [app]; observe;
      (split; [sorted|]); (split; [bounds|]); (split; [reflexivity|]);
      (split;
       [ split; [intros H; simpl in H; intuition discriminate|];
         split; [reflexivity|]; split; [reflexivity|]; split; [reflexivity|];
         intros H; simpl in H; intuition discriminate|]);
      (split; [discriminate|]);
      (split; [intros _ e H; simpl in H;
               repeat (destruct H as [<-|H]; [split; discriminate|]);
               contradiction|]);
      intros err [= <-]; right; left; exists c; auto. }
  destruct (prepare_open env config fuel Hp Hm) as [Hdef Hsh].
  destruct (opened_events_more env config fuel)
    as (Os & Ob & Ow & Om & Oc & On & Ofw & Ov).
  assert (Ob' : Forall (fun n => 1 <= n <= 10)
                  (stages (opened_events env config fuel))).
  { eapply Forall_impl; [|exact Ob]. cbv beta. intros; lia. }
  assert (O9 : forall e, In e (opened_events env config fuel) ->
                         stage e <> Some 9 /\ stage e <> Some 10).
  { intros e He. rewrite Forall_forall in Ob.
    split; intros Hs; apply (in_stages _ _ _ He), Ob in Hs; lia. }
  rewrite Hdef.
  assert (Hcommon : forall l,
    forallb fixed_wait l = true ->
    count is_healthChan_send l = 0 -> connected l = [] ->
    ~ In feed_warning l ->
    forallb fixed_wait (opened_events env config fuel ++ l) = true /\
    (In (Ev_NewMonitor None) (opened_events env config fuel ++ l) /\
     [Ev_mon_Close; shutdown_message] = [Ev_mon_Close; shutdown_message] /\
     count is_healthChan_send (opened_events env config fuel ++ l) =
       (if (Node_Type config =? "forwarder")%string then 6 else 5) /\
     connected (opened_events env config fuel ++ l) = Feed_Input_URLs config /\
     (In feed_warning (opened_events env config fuel ++ l) <->
      Feed_Input_URLs config = []))).
  { intros l Hw Hc Hn Hfw.
    rewrite forallb_app, count_app, connected_app, Ow, Hw, Oc, Hc, On, Hn,
      app_nil_r, Nat.add_0_r.
    split; [reflexivity|]. split; [apply in_or_app; left; exact Om|].
    split; [reflexivity|]. split; [reflexivity|]. split; [reflexivity|].
    rewrite in_app_iff, Ofw. tauto. }
  destruct (fst (inboxReaderLoop env fuel 0)) as [rd|e|m| |] eqn:EL;
    try contradiction.
  - specialize (Ov rd eq_refl). destruct Hsh as [Eev Hfst]. rewrite Eev.
    destruct (Node_Type config =? "forwarder")%string eqn:Efw.
    + rewrite (resolveBatcherMode_forwarder env config rd {| From := "" |} Efw)
        in *.
      cbn [fst snd events] in *. rewrite Hfst.
      destruct (Hcommon
                  [Ev_Log InfoLevel nil_error
                     "Arbitrum node starting in forwarder mode"])
        as (C1 & C2); try reflexivity;
        [intros [H|[]]; discriminate H|].
      observe_stages. rewrite app_nil_r.
      split; [exact Os|]. split; [exact Ob'|]. split; [exact C1|].
      split; [exact C2|].
      split.
      { intros rd' mode' [= <- <-]. split; [apply in_or_app; left; exact Ov|].
        exists {| From := "" |}. split; [reflexivity|discriminate]. }
      split; [|discriminate].
      intros _ e He. apply in_app_or in He. destruct He as [He|[<-|[]]];
        [apply O9; exact He|split; discriminate].
    + rewrite (resolveBatcherMode_signer env config rd Efw) in *.
      destruct (GetKeystore env) as [auth|c] eqn:Ek.
      * cbn zeta in *.
        destruct (WaitForBalance env) as [c|] eqn:Eb;
          cbn [fst snd events] in *; rewrite Hfst;
          (match goal with
           | |- context [opened_events env config fuel ++ ?l] =>
               destruct (Hcommon l) as (C1 & C2); try reflexivity;
               [intros H; simpl in H; intuition discriminate|]
           end);
          observe_stages.
          all: (split; [sorted|]); (split; [bounds|]); (split; [exact C1|]);
          (split; [exact C2|]).
        -- split; [discriminate|]. split; [discriminate|].
           intros err [= <-]. do 4 right. exists c. auto.
        -- split; [|split; discriminate].
           intros rd' mode' [= <- <-].
           split; [apply in_or_app; left; exact Ov|].
           exists auth. auto.
      * cbn [fst snd events] in *. rewrite Hfst.
        destruct (Hcommon [Ev_GetKeystore (Err c)]) as (C1 & C2);
          try reflexivity; [intros [H|[]]; discriminate H|].
        observe_stages.
        split; [sorted|]. split; [bounds|]. split; [exact C1|].
        split; [exact C2|].
        split; [discriminate|]. split; [discriminate|].
        intros err [= <-]. do 3 right. left. exists c. auto.
  - destruct Hsh as (Eev & Hfst & ->). rewrite Eev, Hfst.
    split; [exact Os|]. split; [exact Ob'|]. split; [exact Ow|].
    split; [tauto|]. split; [discriminate|]. split; [intros _; exact O9|].
    intros err [= <-]. right. right. left. reflexivity.
  - destruct Hsh as (Eev & Hfst). rewrite Eev, Hfst.
    split; [exact Os|]. split; [exact Ob'|]. split; [exact Ow|].
    split; [tauto|]. split; [discriminate|]. split; [intros _; exact O9|].
    discriminate.
Qed.

(** ** The transaction database and what follows: lines 262-318 *)

Lemma launch_shape (env : Env) (config : NodeConfig) (fuel : nat) :
  match fst (prepare env config fuel) with
  | Val (rd, mode) =>
      match txdb_New env with
      | Some c =>
          launch env config fuel =
            (Return (errors_Wrap c "error opening txdb"),
             {| events := events (snd (prepare env config fuel))
                          ++ [Ev_RegisterNodeStoreMetrics; Ev_txdb_New (Some c)];
                deferred := deferred (snd (prepare env config fuel)) |})
      | None =>
          launch env config fuel =
            (fst (serve env config mode fuel),
             {| events := events (snd (prepare env config fuel))
                          ++ Ev_RegisterNodeStoreMetrics :: Ev_txdb_New None
                             :: (if WaitToCatchUp config
                                 then [Ev_WaitToCatchUp rd] else [])
                             ++ events (snd (serve env config mode fuel));
                deferred :=
                  Ev_db_Close :: deferred (snd (prepare env config fuel)) |})
      end
  | Return err => launch env config fuel = (Return err, snd (prepare env config fuel))
  | Panic m => launch env config fuel = (Panic m, snd (prepare env config fuel))
  | Blocked => launch env config fuel = (Blocked, snd (prepare env config fuel))
  | OutOfFuel => launch env config fuel = (OutOfFuel, snd (prepare env config fuel))
  end.
Proof.
  unfold launch.
  destruct (prepare env config fuel) as [[[rd mode]|e|m| |] [ev df]];
    try reflexivity.
  simpl.
  destruct (txdb_New env) as [c|]; [reflexivity|].
  destruct (serve_spec env config mode fuel) as (Hd & _).
  destruct (WaitToCatchUp config); simpl;
    destruct (serve env config mode fuel) as [[[]|e|m| |] [ev' df']];
    simpl in *; subst df'; unfold log_app; simpl; reflexivity.
Qed.

Lemma setupAttempt_tail (env : Env) (config : NodeConfig) (mode : BatcherMode)
    (k : nat) :
  forallb in_launch_tail (events (snd (setupAttempt env config mode k))) = true.
Proof.
  unfold setupAttempt, assert_SequencerBatcher. simpl Redis.
  destruct (SetupBatcher env k mode) as [b|err]; [|reflexivity].
  destruct (Node_Sequencer_Lockout_Redis config =? "")%string; [reflexivity|].
  simpl. destruct (batcher_type b); reflexivity.
Qed.

Lemma batcherLoop_tail (env : Env) (config : NodeConfig) (mode : BatcherMode)
    (fuel k : nat) :
  forallb in_launch_tail
    (events (snd (batcherLoop env config mode fuel k))) = true.
Proof.
  revert k. induction fuel as [|fuel IH]; intros k; [reflexivity|].
  simpl. specialize (IH (S k)).
  pose proof (setupAttempt_tail env config mode k) as He.
  destruct (setupAttempt env config mode k) as [[[b|err]| e | m | |] w];
    simpl in *; try assumption.
  - rewrite forallb_app, He. reflexivity.
  - destruct (batcherSelect env k); simpl.
    + rewrite forallb_app, He. reflexivity.
    + destruct (batcherLoop env config mode fuel (S k)) as [[v| e | m | |] w'];
        simpl in *; rewrite forallb_app, He; simpl; exact IH.
Qed.

Lemma serve_tail (env : Env) (config : NodeConfig) (mode : BatcherMode)
    (fuel : nat) :
  forallb in_launch_tail (events (snd (serve env config mode fuel))) = true.
Proof.
  unfold serve.
  pose proof (batcherLoop_tail env config mode fuel 0) as He.
  destruct (batcherLoop env config mode fuel 0) as [[b| e | m | |] w];
    simpl in *; try assumption.
  destruct (GenerateWeb3Server env); simpl; rewrite forallb_app, He; reflexivity.
Qed.

Lemma launch_tail (env : Env) (config : NodeConfig) (fuel : nat) :
  exists T,
    events (snd (launch env config fuel)) =
      events (snd (prepare env config fuel)) ++ T /\
    forallb in_launch_tail T = true /\
    StronglySorted precedes (stages T) /\
    Forall (fun n => 11 <= n <= 20) (stages T) /\
    forallb fixed_wait T = true /\
    ((In (Ev_txdb_New None) T /\
      deferred (snd (launch env config fuel)) =
        Ev_db_Close :: deferred (snd (prepare env config fuel))) \/
     (~ In (Ev_txdb_New None) T /\
      deferred (snd (launch env config fuel)) =
        deferred (snd (prepare env config fuel)))) /\
    (forall e, In e T ->
       exists rd mode,
         fst (prepare env config fuel) = Val (rd, mode) /\
         call_ok config mode e /\
         (forall rd', e = Ev_WaitToCatchUp rd' -> rd' = rd)) /\
    (forall b, In (Ev_NewServer b) T -> In (Ev_go_batch_Start b) T) /\
    (forall b, In (Ev_go_batch_Start b) T ->
       if (Node_Sequencer_Lockout_Redis config =? "")%string
       then exists mode, In (Ev_SetupBatcher mode (Ok b)) T
       else exists sb,
           In (Ev_SetupLockout sb (Node_Sequencer_Lockout config) (Ok b)) T) /\
    (forall err, fst (launch env config fuel) = Return err ->
       fst (prepare env config fuel) = Return err \/
       (exists c, txdb_New env = Some c /\
                  err = errors_Wrap c "error opening txdb") \/
       err = cancelled_batcher \/
       (exists c, GenerateWeb3Server env = Some c /\ err = Some c)) /\
    fst (launch env config fuel) <> Blocked.
Proof.
  pose proof (launch_shape env config fuel) as Hshape.
  destruct (prepare_spec env config fuel) as [_ Hexit].
  destruct (fst (prepare env config fuel)) as [[rd mode]|e|m| |] eqn:EP;
    try contradiction.
  - destruct (txdb_New env) as [c|] eqn:Et; rewrite Hshape;
      cbn [fst snd events deferred].
    + exists [Ev_RegisterNodeStoreMetrics; Ev_txdb_New (Some c)].
      split; [reflexivity|]. split; [reflexivity|].
      observe_stages.
      split; [sorted|]. split; [bounds|]. split; [reflexivity|].
      split; [right; split; [intros [H|[H|[]]]; discriminate H|reflexivity]|].
      split.
      { intros e [<-|[<-|[]]]; exists rd, mode;
          (split; [reflexivity|]); (split; [exact I|]); discriminate. }
      split; [intros b [H|[H|[]]]; discriminate H|].
      split; [intros b [H|[H|[]]]; discriminate H|].
      split; [|discriminate].
      intros err [= <-]. right. left. exists c. auto.
    + destruct (serve_more env config mode fuel)
        as (Ss & Sb & Sw & Se & Sst & Sns).
      destruct (serve_calls env config mode fuel) as [_ Sc].
      pose proof (serve_tail env config mode fuel) as St.
      destruct (serve_spec env config mode fuel) as (_ & _ & Sx).
      exists (Ev_RegisterNodeStoreMetrics :: Ev_txdb_New None
              :: (if WaitToCatchUp config then [Ev_WaitToCatchUp rd] else [])
              ++ events (snd (serve env config mode fuel))).
      split; [reflexivity|].
      split; [destruct (WaitToCatchUp config); simpl; exact St|].
      split; [destruct (WaitToCatchUp config); cbn [app]; observe_stages; sorted|].
      split; [destruct (WaitToCatchUp config); cbn [app]; observe_stages; bounds|].
      split; [destruct (WaitToCatchUp config); simpl; exact Sw|].
      split; [left; split; [right; left; reflexivity|reflexivity]|].
      split.
      { intros e [<-|[<-|He]];
          [exists rd, mode; split; [reflexivity|]; split; [exact I|]; discriminate
          |exists rd, mode; split; [reflexivity|]; split; [exact I|]; discriminate
          |].
        exists rd, mode. split; [reflexivity|].
        apply in_app_or in He. destruct He as [He|He].
        - destruct (WaitToCatchUp config); [|contradiction].
          destruct He as [<-|[]]. split; [exact I|]. intros rd' [= <-]. reflexivity.
        - rewrite Forall_forall in Sc. split; [apply Sc; exact He|].
          intros rd' ->. exfalso. revert He.
          apply (not_in_class in_serve);
            [exact (proj1 (proj2 (serve_spec env config mode fuel)))|reflexivity]. }
      assert (Hin : forall e,
                 (forall rd', e <> Ev_WaitToCatchUp rd') ->
                 e <> Ev_RegisterNodeStoreMetrics -> e <> Ev_txdb_New None ->
                 (In e (Ev_RegisterNodeStoreMetrics :: Ev_txdb_New None
                        :: (if WaitToCatchUp config
                            then [Ev_WaitToCatchUp rd] else [])
                        ++ events (snd (serve env config mode fuel))) <->
                  In e (events (snd (serve env config mode fuel))))).
      { intros e H1 H2 H3. simpl. rewrite in_app_iff.
        destruct (WaitToCatchUp config); simpl; split; intros H;
          try tauto; repeat (destruct H as [H|H]); try tauto;
          try (symmetry in H; tauto).
        exfalso. exact (H1 rd (eq_sym H)). }
      split.
      { intros b Hb. apply Hin in Hb; try discriminate.
        apply Hin; try discriminate. apply Sns. exact Hb. }
      split.
      { intros b Hb. apply Hin in Hb; try discriminate.
        specialize (Sst b Hb).
        destruct (Node_Sequencer_Lockout_Redis config =? "")%string.
        - exists mode. apply Hin; try discriminate. exact Sst.
        - destruct Sst as [sb Hsb]. exists sb. apply Hin; try discriminate.
          exact Hsb. }
      split.
      { intros err Herr. right. right. exact (Se err Herr). }
      intros Hb. rewrite Hb in Sx. exact Sx.
  - rewrite Hshape. exists []. rewrite app_nil_r.
    split; [reflexivity|]. split; [reflexivity|]. split; [constructor|].
    split; [constructor|]. split; [reflexivity|].
    split; [right; split; [intros []|reflexivity]|].
    split; [intros ? []|]. split; [intros ? []|]. split; [intros ? []|].
    split; [|discriminate]. intros err [= <-]. left. reflexivity.
  - rewrite Hshape. exists []. rewrite app_nil_r.
    split; [reflexivity|]. split; [reflexivity|]. split; [constructor|].
    split; [constructor|]. split; [reflexivity|].
    split; [right; split; [intros []|reflexivity]|].
    split; [intros ? []|]. split; [intros ? []|]. split; [intros ? []|].
    split; [|discriminate]. discriminate.
Qed.

(** ** The way out of startup: lines 320-327 and the deferred calls *)

Lemma startup_exit (env : Env) (config : NodeConfig) (fuel : nat) :
  existsb (violated config) allRules = false ->
  exists X,
    snd (startup env (Ok config) fuel) =
      events (snd (launch env (checked config) fuel)) ++ X /\
    match fst (startup env (Ok config) fuel) with
    | Returned err =>
        (fst (launch env (checked config) fuel) = Return err /\
         X = deferred (snd (launch env (checked config) fuel)) ++ [Ev_cancelFunc])
        \/
        (exists s,
            fst (launch env (checked config) fuel) = Val tt /\
            selected env = Some s /\ err = signal_error s /\
            X = received s
                :: deferred (snd (launch env (checked config) fuel))
                ++ [Ev_cancelFunc])
    | Panicked m =>
        fst (launch env (checked config) fuel) = Panic m /\
        X = deferred (snd (launch env (checked config) fuel)) ++ [Ev_cancelFunc]
    | Waiting =>
        fst (launch env (checked config) fuel) = Val tt /\
        selected env = None /\ X = []
    | Unfinished =>
        fst (launch env (checked config) fuel) = OutOfFuel /\ X = []
    end.
Proof.
  intros Hv. unfold startup, startup_body.
  rewrite (validate_accepts env config Hv).
  destruct (launch_tail env (checked config) fuel)
    as (T & _ & _ & _ & _ & _ & _ & _ & _ & _ & _ & Hnb).
  clear T.
  simpl.
  destruct (launch env (checked config) fuel) as [[[]|e|m| |] [ev df]];
    simpl in *; try congruence.
  - unfold terminalSelect.
    destruct (selected env) as [[err|err|]|] eqn:Hsel; simpl;
      rewrite ?app_nil_r.
    + eexists. rewrite <- app_assoc. split; [reflexivity|].
      right. exists (Sig_txDBErrChan err). auto.
    + eexists. rewrite <- app_assoc. split; [reflexivity|].
      right. exists (Sig_errChan err). auto.
    + eexists. rewrite <- app_assoc. split; [reflexivity|].
      right. exists Sig_cancelChan. auto.
    + exists []. rewrite app_nil_r. auto.
  - rewrite app_nil_r. eexists. split; [reflexivity|]. left. auto.
  - rewrite app_nil_r. eexists. split; [reflexivity|]. auto.
  - exists []. rewrite app_nil_r. auto.
Qed.

Lemma launched_monitor (env : Env) (config : NodeConfig) (fuel : nat) :
  (In (Ev_NewMonitor None) (events (snd (launch env config fuel))) <->
   ParseLogFlags env = None /\ NewMonitor env = None) /\
  (forall r, In (Ev_txdb_New r) (events (snd (launch env config fuel))) ->
     In (Ev_NewMonitor None) (events (snd (launch env config fuel)))).
Proof.
  destruct (launch_tail env config fuel)
    as (T & HL & Ht & _ & _ & _ & _ & Hc & _).
  destruct (prepare_more env config fuel) as (_ & _ & _ & Hm & _).
  destruct (prepare_spec env config fuel) as [Hp _].
  rewrite HL. split.
  - rewrite in_app_iff. split.
    + intros [H|H]; [|exfalso; revert H; apply (not_in_class in_launch_tail);
                       [exact Ht|reflexivity]].
      destruct (ParseLogFlags env), (NewMonitor env);
        try (destruct Hm as [Hm _]; contradiction). auto.
    + intros [Hp' Hm']. rewrite Hp', Hm' in Hm. left. exact (proj1 Hm).
  - intros r Hr. apply in_app_or in Hr. destruct Hr as [Hr|Hr];
      [exfalso; revert Hr; apply (not_in_class in_prepare);
       [exact Hp|reflexivity]|].
    destruct (Hc _ Hr) as (rd & mode & Hval & _).
    apply in_or_app. left.
    destruct (ParseLogFlags env) as [c|] eqn:E1.
    { rewrite (proj1 (prepare_closed env config fuel) c E1) in Hval.
      discriminate Hval. }
    destruct (NewMonitor env) as [c|] eqn:E2.
    { rewrite (proj2 (prepare_closed env config fuel) c E1 E2) in Hval.
      discriminate Hval. }
    exact (proj1 Hm).
Qed.

Lemma stage_received (s : Signal) : stage (received s) = Some 21.
Proof. destruct s; reflexivity. Qed.

Lemma startup_way_out (env : Env) (config : NodeConfig) (fuel : nat) :
  existsb (violated config) allRules = false ->
  exists X,
    snd (startup env (Ok config) fuel) =
      events (snd (launch env (checked config) fuel)) ++ X /\
    forallb in_exit X = true /\
    StronglySorted precedes (stages X) /\
    Forall (fun n => 21 <= n <= 25) (stages X) /\
    (In Ev_db_Close X <->
     exited (fst (startup env (Ok config) fuel)) = true /\
     In (Ev_txdb_New None) (events (snd (launch env (checked config) fuel)))) /\
    (In Ev_mon_Close X <->
     exited (fst (startup env (Ok config) fuel)) = true /\
     In (Ev_NewMonitor None) (events (snd (launch env (checked config) fuel)))) /\
    (In shutdown_message X <->
     exited (fst (startup env (Ok config) fuel)) = true) /\
    (exited (fst (startup env (Ok config) fuel)) = true ->
     exists pre, X = pre ++ [Ev_cancelFunc]) /\
    (exited (fst (startup env (Ok config) fuel)) = false -> X = []) /\
    (forall s, In (received s) X <->
               fst (launch env (checked config) fuel) = Val tt /\
               selected env = Some s) /\
    match fst (startup env (Ok config) fuel) with
    | Returned err =>
        fst (launch env (checked config) fuel) = Return err \/
        exists s, fst (launch env (checked config) fuel) = Val tt /\
                  selected env = Some s /\ err = signal_error s
    | Panicked m => fst (launch env (checked config) fuel) = Panic m
    | Waiting =>
        fst (launch env (checked config) fuel) = Val tt /\ selected env = None
    | Unfinished => fst (launch env (checked config) fuel) = OutOfFuel
    end.
Proof.
  intros Hv.
  destruct (startup_exit env config fuel Hv) as (X & Htr & Hx).
  exists X. split; [exact Htr|].
  destruct (launched_monitor env (checked config) fuel) as [Hmon Htx].
  destruct (launch_tail env (checked config) fuel)
    as (T & HL & Ht & _ & _ & _ & Hd & _).
  destruct (prepare_more env (checked config) fuel) as (_ & _ & _ & Hm & _).
  destruct (prepare_spec env (checked config) fuel) as [Hp _].
  assert (HD :
    (In (Ev_NewMonitor None) (events (snd (launch env (checked config) fuel))) /\
     In (Ev_txdb_New None) (events (snd (launch env (checked config) fuel))) /\
     deferred (snd (launch env (checked config) fuel)) =
       [Ev_db_Close; Ev_mon_Close; shutdown_message]) \/
    (In (Ev_NewMonitor None) (events (snd (launch env (checked config) fuel))) /\
     ~ In (Ev_txdb_New None) (events (snd (launch env (checked config) fuel))) /\
     deferred (snd (launch env (checked config) fuel)) =
       [Ev_mon_Close; shutdown_message]) \/
    (~ In (Ev_NewMonitor None) (events (snd (launch env (checked config) fuel))) /\
     ~ In (Ev_txdb_New None) (events (snd (launch env (checked config) fuel))) /\
     deferred (snd (launch env (checked config) fuel)) = [shutdown_message])).
  { assert (Hnp : ~ In (Ev_txdb_New None)
                      (events (snd (prepare env (checked config) fuel)))).
    { apply (not_in_class in_prepare); [exact Hp|reflexivity]. }
    destruct Hd as [[Hin Hd]|[Hnin Hd]].
    - left. assert (Hin' : In (Ev_txdb_New None)
                  (events (snd (launch env (checked config) fuel)))).
      { rewrite HL. apply in_or_app. right. exact Hin. }
      pose proof (Htx _ Hin') as Hmon'.
      split; [exact Hmon'|]. split; [exact Hin'|].
      apply Hmon in Hmon'. destruct Hmon' as [E1 E2]. rewrite E1, E2 in Hm.
      rewrite Hd. destruct Hm as (_ & -> & _). reflexivity.
    - assert (Hnin' : ~ In (Ev_txdb_New None)
                  (events (snd (launch env (checked config) fuel)))).
      { rewrite HL, in_app_iff. tauto. }
      destruct (ParseLogFlags env) as [c1|] eqn:E1;
        [|destruct (NewMonitor env) as [c2|] eqn:E2].
      + right. right. split; [rewrite Hmon; intros [? ?]; discriminate|].
        split; [exact Hnin'|]. rewrite Hd. exact (proj1 (proj2 Hm)).
      + right. right. split; [rewrite Hmon; intros [? ?]; discriminate|].
        split; [exact Hnin'|]. rewrite Hd. exact (proj1 (proj2 Hm)).
      + right. left. split; [apply Hmon; auto|].
        split; [exact Hnin'|]. rewrite Hd. exact (proj1 (proj2 Hm)). }
  clear Hd Hm Hp Ht HL Hmon Htx T.
  destruct (fst (startup env (Ok config) fuel)) as [err|m| |] eqn:Eo;
    cbn [exited].
  - destruct Hx as [[HR ->]|(s & HR & Hs & -> & ->)];
      destruct HD as [(Hm & Ht & ->)|[(Hm & Ht & ->)|(Hm & Ht & ->)]];
      rewrite HR; try destruct s; unfold shutdown_message; cbn [received app];
      (split; [reflexivity|]); observe_stages;
      (split; [sorted|]); (split; [bounds|]);
      (split; [simpl; intuition discriminate|]);
      (split; [simpl; intuition discriminate|]);
      (split; [simpl; intuition discriminate|]);
      (split; [intros _;
               match goal with
               | |- exists pre, ?l = pre ++ _ => exists (removelast l)
               end; reflexivity|]);
      (split; [discriminate|]);
      (split; [intros s'; destruct s'; simpl;
               intuition (try discriminate; try congruence)|]);
      try (left; reflexivity); try (right; eexists; eauto).
  - destruct Hx as [HR ->];
      destruct HD as [(Hm & Ht & ->)|[(Hm & Ht & ->)|(Hm & Ht & ->)]];
      rewrite HR; unfold shutdown_message; cbn [app];
      (split; [reflexivity|]); observe_stages;
      (split; [sorted|]); (split; [bounds|]);
      (split; [simpl; intuition discriminate|]);
      (split; [simpl; intuition discriminate|]);
      (split; [simpl; intuition discriminate|]);
      (split; [intros _;
               match goal with
               | |- exists pre, ?l = pre ++ _ => exists (removelast l)
               end; reflexivity|]);
      (split; [discriminate|]);
      (split; [intros s'; destruct s'; simpl;
               intuition (try discriminate; try congruence)|]);
      reflexivity.
  - destruct Hx as (HR & Hs & ->). rewrite HR, Hs.
    split; [reflexivity|]. split; [constructor|]. split; [constructor|].
    split; [simpl; intuition discriminate|].
    split; [simpl; intuition discriminate|].
    split; [simpl; intuition discriminate|].
    split; [discriminate|]. split; [reflexivity|].
    split; [simpl; intuition discriminate|]. auto.
  - destruct Hx as (HR & ->). rewrite HR.
    split; [reflexivity|]. split; [constructor|]. split; [constructor|].
    split; [simpl; intuition discriminate|].
    split; [simpl; intuition discriminate|].
    split; [simpl; intuition discriminate|].
    split; [discriminate|]. split; [reflexivity|].
    split; [simpl; intuition discriminate|]. reflexivity.
Qed.

Lemma checked_fields (config : NodeConfig) :
  Feed_Input_URLs (checked config) = Feed_Input_URLs config /\
  Node_Sequencer_Lockout (checked config) = Node_Sequencer_Lockout config /\
  (forall auth rd,
      resolved_mode (checked config) auth rd = resolved_mode config auth rd).
Proof.
  unfold checked.
  destruct (Node_Type config =? "sequencer")%string; repeat split.
Qed.



(** ** The order of the calls *)


(** ** Reading a run through its three parts *)

Lemma in_app_class_l (c : Event -> bool) (l1 l2 : list Event) (e : Event) :
  forallb c l2 = true -> c e = false -> (In e (l1 ++ l2) <-> In e l1).
Proof.
  intros Hc He. rewrite in_app_iff. split; [|tauto].
  intros [H|H]; [exact H|]. exfalso. exact (not_in_class c l2 e Hc He H).
Qed.

Lemma in_app_class_r (c : Event -> bool) (l1 l2 : list Event) (e : Event) :
  forallb c l1 = true -> c e = false -> (In e (l1 ++ l2) <-> In e l2).
Proof.
  intros Hc He. rewrite in_app_iff. split; [|tauto].
  intros [H|H]; [|exact H]. exfalso. exact (not_in_class c l1 e Hc He H).
Qed.

Lemma launch_class (env : Env) (config : NodeConfig) (fuel : nat) :
  forallb in_launch (events (snd (launch env config fuel))) = true.
Proof.
  destruct (launch_tail env config fuel) as (T & -> & Ht & _).
  destruct (prepare_spec env config fuel) as [Hp _].
  rewrite forallb_app. apply andb_true_iff. split.
  - apply (forallb_weaken in_prepare); [|exact Hp].
    intros e He. unfold in_launch. rewrite He. reflexivity.
  - apply (forallb_weaken in_launch_tail); [|exact Ht].
    intros e He. unfold in_launch. rewrite He. apply orb_true_r.
Qed.

Lemma in_launch_not_release (e : Event) :
  in_launch e = true -> negb (is_release e) = true.
Proof. by_event e; cbv; congruence. Qed.

Lemma prepare_starts (env : Env) (config : NodeConfig) (fuel : nat) :
  exists r, In (Ev_ParseLogFlags r) (events (snd (prepare env config fuel))).
Proof.
  destruct (ParseLogFlags env) as [c|] eqn:E1.
  { rewrite (proj1 (prepare_closed env config fuel) c E1).
    exists (Some c). left. reflexivity. }
  destruct (NewMonitor env) as [c|] eqn:E2.
  { rewrite (proj2 (prepare_closed env config fuel) c E1 E2).
    exists None. left. reflexivity. }
  exists None.
  destruct (prepare_open env config fuel E1 E2) as [_ H].
  destruct (fst (inboxReaderLoop env fuel 0)); try contradiction;
    [destruct H as [-> _]; apply in_or_app; left
    |destruct H as [-> _] | destruct H as [-> _]];
    unfold opened_events; left; reflexivity.
Qed.

(** ** What is released *)

(** X3. When [startup] returns or panics, it closes the monitor exactly
    when [monitor.NewMonitor] had answered without error, closes the
    transaction database exactly when [txdb.New] had answered without
    error, logs the shutdown message exactly when the configuration had
    been accepted (the log flags were parsed), and ends with [cancelFunc].
    While [startup] has not returned, no deferred call has run. *)
Theorem releases_match_what_was_opened (env : Env)
    (parsed : Result NodeConfig) (fuel : nat) :
  (exited (fst (startup env parsed fuel)) = true ->
   (In Ev_mon_Close (snd (startup env parsed fuel)) <->
    In (Ev_NewMonitor nil_error) (snd (startup env parsed fuel))) /\
   (In Ev_db_Close (snd (startup env parsed fuel)) <->
    In (Ev_txdb_New nil_error) (snd (startup env parsed fuel))) /\
   (In (Ev_Log NoLevel nil_error "Cleanly shutting down node")
       (snd (startup env parsed fuel)) <->
    exists r, In (Ev_ParseLogFlags r) (snd (startup env parsed fuel))) /\
   exists pre, snd (startup env parsed fuel) = pre ++ [Ev_cancelFunc]) /\
  (exited (fst (startup env parsed fuel)) = false ->
   forallb (fun e => negb (is_release e)) (snd (startup env parsed fuel)) = true).
Proof.
  destruct (accepted_or_not parsed) as [Hbad|(config & -> & Hv)].
  - destruct (startup_turned_down env parsed fuel Hbad) as (text & -> & Ht).
    cbn [fst snd exited]. split; [intros _|discriminate].
    split; [split; not_in|]. split; [split; not_in|].
    split; [split; [not_in|intros [r Hr]; revert Hr; not_in]|].
    exists text. reflexivity.
  - destruct (startup_way_out env config fuel Hv)
      as (X & -> & Xc & _ & _ & Xdb & Xmon & Xlog & Xlast & Xnone & _).
    pose proof (launch_class env (checked config) fuel) as Ec.
    split.
    + intros Hex.
      rewrite (in_app_class_r in_launch _ _ Ev_mon_Close Ec eq_refl).
      rewrite (in_app_class_l in_exit _ _ (Ev_NewMonitor nil_error) Xc eq_refl).
      rewrite (in_app_class_r in_launch _ _ Ev_db_Close Ec eq_refl).
      rewrite (in_app_class_l in_exit _ _ (Ev_txdb_New nil_error) Xc eq_refl).
      rewrite (in_app_class_r in_launch _ _ (Ev_Log NoLevel nil_error _) Ec eq_refl).
      split; [rewrite Xmon; tauto|]. split; [rewrite Xdb; tauto|].
      split.
      * split; [intros _|intros _; apply Xlog; exact Hex].
        destruct (launch_tail env (checked config) fuel) as (T & -> & _).
        destruct (prepare_starts env (checked config) fuel) as [r Hr].
        exists r. apply in_or_app. left. apply in_or_app. left. exact Hr.
      * destruct (Xlast Hex) as [pre ->]. eexists. rewrite app_assoc.
        reflexivity.
    + intros Hex. rewrite (Xnone Hex), app_nil_r.
      exact (forallb_weaken _ _ _ in_launch_not_release Ec).
Qed.

(** ** The health check and the feed: lines 172-201 *)

Lemma accepted_settings (env : Env) (config : NodeConfig) (fuel : nat) :
  existsb (violated config) allRules = false ->
  count is_healthChan_send (snd (startup env (Ok config) fuel)) =
    count is_healthChan_send (events (snd (prepare env (checked config) fuel))) /\
  connected (snd (startup env (Ok config) fuel)) =
    connected (events (snd (prepare env (checked config) fuel))) /\
  (In feed_warning (snd (startup env (Ok config) fuel)) <->
   In feed_warning (events (snd (prepare env (checked config) fuel)))) /\
  (In (Ev_NewMonitor nil_error) (snd (startup env (Ok config) fuel)) <->
   ParseLogFlags env = None /\ NewMonitor env = None).
Proof.
  intros Hv.
  destruct (startup_way_out env config fuel Hv) as (X & -> & Xc & _).
  rewrite (in_app_class_l in_exit _ _ (Ev_NewMonitor nil_error) Xc eq_refl).
  rewrite (proj1 (launched_monitor env (checked config) fuel)).
  destruct (launch_tail env (checked config) fuel) as (T & -> & Tc & _).
  rewrite !count_app, !connected_app.
  rewrite (count_class_zero in_launch_tail is_healthChan_send T Tc),
    (count_class_zero in_exit is_healthChan_send X Xc);
    try (intros e He; by_event e; try discriminate He; reflexivity).
  unfold connected at 2 3.
  rewrite (flat_map_class_nil in_launch_tail _ T Tc),
    (flat_map_class_nil in_exit _ X Xc);
    try (intros e He; by_event e; try discriminate He; reflexivity).
  rewrite !app_nil_r, !Nat.add_0_r.
  rewrite (in_app_class_l in_exit _ _ feed_warning Xc eq_refl).
  rewrite (in_app_class_l in_launch_tail _ _ feed_warning Tc eq_refl).
  repeat split; tauto.
Qed.

(** X4. [startup] sends at most six entries on [healthChan], fewer than
    the [largeChannelBuffer] entries the channel buffers, so that no send
    can block: none unless the monitor was opened, and then five, or six
    for a forwarder, whatever happens later in the run. *)
Theorem health_settings_fit_the_buffer (env : Env) (config : NodeConfig)
    (fuel : nat) :
  count is_healthChan_send (snd (startup env (Ok config) fuel))
    < largeChannelBuffer /\
  (In (Ev_NewMonitor nil_error) (snd (startup env (Ok config) fuel)) ->
   count is_healthChan_send (snd (startup env (Ok config) fuel)) =
     if (Node_Type config =? "forwarder")%string then 6 else 5) /\
  (~ In (Ev_NewMonitor nil_error) (snd (startup env (Ok config) fuel)) ->
   count is_healthChan_send (snd (startup env (Ok config) fuel)) = 0).
Proof.
  destruct (existsb (violated config) allRules) eqn:Hv.
  - rewrite (startup_rejects env config fuel Hv). cbn [snd].
    assert (Ht : forallb is_print
                   (if usageGate config then usage env else reported config)
                 = true).
    { destruct (usageGate config); [apply usage_prints|apply reported_prints]. }
    assert (H0 : count is_healthChan_send
                   ((if usageGate config then usage env else reported config)
                    ++ [Ev_cancelFunc]) = 0).
    { rewrite count_app.
      rewrite (count_class_zero is_print is_healthChan_send);
        [reflexivity|exact Ht
        |intros e He; destruct e; try discriminate He; reflexivity]. }
    rewrite H0. unfold largeChannelBuffer. split; [lia|].
    split; [not_in|reflexivity].
  - destruct (accepted_settings env config fuel Hv) as (-> & _ & _ & ->).
    destruct (prepare_more env (checked config) fuel) as (_ & _ & _ & Hm & _).
    rewrite checked_Node_Type in Hm. unfold largeChannelBuffer.
    destruct (ParseLogFlags env), (NewMonitor env);
      destruct Hm as (_ & _ & -> & _);
      (split; [destruct (Node_Type config =? "forwarder")%string; lia|]);
      split; try reflexivity; try tauto;
      intros [? ?]; discriminate.
Qed.

(** X5. Once the monitor is open, [startup] connects one broadcast client
    to each URL of [config.Feed.Input.URLs], in their order and to nothing
    else, and warns that it subscribes to no feed exactly when there is no
    URL.  A run that does not get to open the monitor connects no client
    and does not warn. *)
Theorem feed_clients_follow_the_urls (env : Env) (config : NodeConfig)
    (fuel : nat) :
  (In (Ev_NewMonitor nil_error) (snd (startup env (Ok config) fuel)) ->
   connected (snd (startup env (Ok config) fuel)) = Feed_Input_URLs config /\
   (In (Ev_Log WarnLevel nil_error
          "Missing --feed.url so not subscribing to feed")
       (snd (startup env (Ok config) fuel)) <->
    Feed_Input_URLs config = [])) /\
  (~ In (Ev_NewMonitor nil_error) (snd (startup env (Ok config) fuel)) ->
   connected (snd (startup env (Ok config) fuel)) = [] /\
   ~ In (Ev_Log WarnLevel nil_error
           "Missing --feed.url so not subscribing to feed")
        (snd (startup env (Ok config) fuel))).
Proof.
  change (Ev_Log WarnLevel nil_error
            "Missing --feed.url so not subscribing to feed") with feed_warning.
  destruct (existsb (violated config) allRules) eqn:Hv.
  - rewrite (startup_rejects env config fuel Hv). cbn [snd].
    assert (Ht : forallb is_print
                   (if usageGate config then usage env else reported config)
                 = true).
    { destruct (usageGate config); [apply usage_prints|apply reported_prints]. }
    split; [not_in|]. intros _. split; [|not_in].
    rewrite connected_app. unfold connected.
    rewrite (flat_map_class_nil is_print _ _ Ht); [reflexivity|].
    intros e He. destruct e; try discriminate He. reflexivity.
  - destruct (accepted_settings env config fuel Hv) as (_ & -> & -> & ->).
    destruct (prepare_more env (checked config) fuel) as (_ & _ & _ & Hm & _).
    rewrite (proj1 (checked_fields config)) in Hm.
    destruct (ParseLogFlags env), (NewMonitor env);
      destruct Hm as (_ & _ & _ & Hc & Hw);
      (split; [intros [? ?]; try discriminate; auto|]);
      try solve [intros _; auto];
      intros H; exfalso; apply H; auto.
Qed.

(** ** The batcher mode: lines 221-260 *)

(** X6. Every call of [rpc.SetupBatcher] gets the batcher mode that lines
    221-260 build from the node type: the forwarder mode with the
    configured target, or otherwise the sequencer, stateful or stateless
    mode with the [auth] that [GetKeystore] returned, and only after
    [WaitForBalance] answered without error; the inbox reader in a
    sequencer mode is the one [StartInboxReader] returned.  A forwarder
    never asks for the keystore nor waits for a balance.  The reader on
    which [WaitToCatchUp] is called is that same inbox reader. *)
Theorem batcher_mode_follows_node_type (env : Env) (config : NodeConfig)
    (fuel : nat) :
  (forall mode r,
      In (Ev_SetupBatcher mode r) (snd (startup env (Ok config) fuel)) ->
      exists rd auth,
        In (Ev_StartInboxReader (Ok rd)) (snd (startup env (Ok config) fuel)) /\
        mode = resolved_mode config auth rd /\
        ((Node_Type config =? "forwarder")%string = false ->
         GetKeystore env = Ok auth /\ WaitForBalance env = nil_error)) /\
  ((Node_Type config =? "forwarder")%string = true ->
   forall e, In e (snd (startup env (Ok config) fuel)) ->
             (forall r, e <> Ev_GetKeystore r) /\
             (forall r, e <> Ev_WaitForBalance r)) /\
  (forall rd,
      In (Ev_WaitToCatchUp rd) (snd (startup env (Ok config) fuel)) ->
      In (Ev_StartInboxReader (Ok rd)) (snd (startup env (Ok config) fuel))).
Proof.
  destruct (existsb (violated config) allRules) eqn:Hv.
  - rewrite (startup_rejects env config fuel Hv). cbn [snd].
    assert (Ht : forallb is_print
                   (if usageGate config then usage env else reported config)
                 = true).
    { destruct (usageGate config); [apply usage_prints|apply reported_prints]. }
    split; [intros mode r; not_in|]. split; [|intros rd; not_in].
    intros _ e He. apply in_app_or in He. destruct He as [He|[<-|[]]];
      [|split; discriminate].
    rewrite forallb_forall in Ht. specialize (Ht e He).
    destruct e; try discriminate Ht. split; discriminate.
  - destruct (startup_way_out env config fuel Hv) as (X & -> & Xc & _).
    destruct (launch_tail env (checked config) fuel)
      as (T & -> & Tc & _ & _ & _ & _ & Hcall & _).
    destruct (prepare_more env (checked config) fuel)
      as (_ & _ & _ & _ & Hval & Hfw & _).
    destruct (prepare_spec env (checked config) fuel) as [Pc _].
    rewrite checked_Node_Type in Hval, Hfw.
    split; [|split].
    + intros mode r Hin.
      rewrite (in_app_class_l in_exit _ _ (Ev_SetupBatcher mode r) Xc eq_refl)
        in Hin.
      rewrite (in_app_class_r in_prepare _ _ (Ev_SetupBatcher mode r) Pc eq_refl)
        in Hin.
      destruct (Hcall _ Hin) as (rd & mode' & Hp & Hm & _).
      simpl in Hm. subst mode'.
      destruct (Hval rd mode Hp) as (Hrd & auth & Hmode & Hkey).
      exists rd, auth.
      split; [apply in_or_app; left; apply in_or_app; left; exact Hrd|].
      rewrite (proj2 (proj2 (checked_fields config))) in Hmode. auto.
    + intros Efw e He.
      destruct (in_launch_tail e) eqn:Et;
        [split; intros r ->; discriminate Et|].
      destruct (in_exit e) eqn:Ex;
        [split; intros r ->; discriminate Ex|].
      rewrite (in_app_class_l in_exit _ _ _ Xc Ex) in He.
      rewrite (in_app_class_l in_launch_tail _ _ _ Tc Et) in He.
      destruct (Hfw Efw e He) as [H9 H10].
      split; intros r ->; [apply H9|apply H10]; reflexivity.
    + intros rd Hin.
      rewrite (in_app_class_l in_exit _ _ (Ev_WaitToCatchUp rd) Xc eq_refl)
        in Hin.
      rewrite (in_app_class_r in_prepare _ _ (Ev_WaitToCatchUp rd) Pc eq_refl)
        in Hin.
      destruct (Hcall _ Hin) as (rd' & mode' & Hp & _ & Hrd).
      rewrite (Hrd rd eq_refl).
      destruct (Hval rd' mode' Hp) as (Hin' & _).
      apply in_or_app. left. apply in_or_app. left. exact Hin'.
Qed.

(** ** The errors startup returns *)

(** X7. A non-nil error returned by [startup] is one of these: the error
    of [ParseLogFlags] or of [GenerateWeb3Server] as it is; the error of
    [NewMonitor], [GetKeystore], [WaitForBalance] or [txdb.New] wrapped
    with the message of its call; the cancellation error of one of the two
    retry loops; or the error received from [txDBErrChan] or [errChan] in
    the final [select].  There is no other source: a failure of
    [StartInboxReader], [SetupBatcher] or [SetupLockout] reaches the caller
    only as the cancellation error of its retry loop. *)
Theorem returned_errors (env : Env) (parsed : Result NodeConfig) (fuel : nat)
    (err : Error) :
  fst (startup env parsed fuel) = Returned (Some err) ->
  ParseLogFlags env = Some err \/
  (exists c, NewMonitor env = Some c /\
             Some err = errors_Wrap c "error opening monitor") \/
  Some err = errors_New "ctx cancelled StartInboxReader retry loop" \/
  (exists c, GetKeystore env = Err c /\
             Some err = errors_Wrap c "error running GetKeystore") \/
  (exists c, WaitForBalance env = Some c /\
             Some err = errors_Wrap c "error waiting for balance") \/
  (exists c, txdb_New env = Some c /\
             Some err = errors_Wrap c "error opening txdb") \/
  Some err = errors_New "ctx cancelled setup batcher" \/
  GenerateWeb3Server env = Some err \/
  (exists s, selected env = Some s /\ signal_error s = Some err /\
             In (received s) (snd (startup env parsed fuel))).
Proof.
  destruct (accepted_or_not parsed) as [Hbad|(config & -> & Hv)].
  { destruct (startup_turned_down env parsed fuel Hbad) as (text & -> & _).
    discriminate. }
  destruct (startup_way_out env config fuel Hv)
    as (X & -> & _ & _ & _ & _ & _ & _ & _ & _ & Hrecv & Hout).
  intros Ho. rewrite Ho in Hout.
  destruct Hout as [HL|(s & HL & Hs & He)].
  - destruct (launch_tail env (checked config) fuel)
      as (T & _ & _ & _ & _ & _ & _ & _ & _ & _ & Herr & _).
    destruct (Herr _ HL) as [Hp|[(c & Hc & E)|[E|(c & Hc & E)]]].
    + destruct (prepare_more env (checked config) fuel)
        as (_ & _ & _ & _ & _ & _ & Hperr).
      destruct (Hperr _ Hp)
        as [(c & Hc & E)|[(c & Hc & E)|[E|[(c & Hc & E)|(c & Hc & E)]]]].
      * left. congruence.
      * right. left. exists c. auto.
      * right. right. left. exact E.
      * do 3 right. left. exists c. auto.
      * do 4 right. left. exists c. auto.
    + do 5 right. left. exists c. auto.
    + do 6 right. left. exact E.
    + do 7 right. left. congruence.
  - do 8 right. exists s. split; [exact Hs|]. split; [auto|].
    apply in_or_app. right. apply Hrecv. auto.
Qed.

(** ** Runs that get to a retry loop *)

Lemma startup_outcome (env : Env) (config : NodeConfig) (fuel : nat) :
  existsb (violated config) allRules = false ->
  (forall err,
      fst (launch env (checked config) fuel) = Return err ->
      fst (startup env (Ok config) fuel) = Returned err) /\
  (fst (launch env (checked config) fuel) = OutOfFuel ->
   fst (startup env (Ok config) fuel) = Unfinished) /\
  (forall s,
      fst (launch env (checked config) fuel) = Val tt ->
      selected env = Some s ->
      fst (startup env (Ok config) fuel) = Returned (signal_error s) /\
      In (received s) (snd (startup env (Ok config) fuel))).
Proof.
  intros Hv.
  destruct (startup_way_out env config fuel Hv)
    as (X & Htr & _ & _ & _ & _ & _ & _ & _ & _ & Hrecv & Hout).
  split; [|split].
  - intros err HL.
    destruct (fst (startup env (Ok config) fuel)) as [err'|m| |].
    + destruct Hout as [H|(s & H & _)]; congruence.
    + congruence.
    + destruct Hout as [H _]. congruence.
    + congruence.
  - intros HL.
    destruct (fst (startup env (Ok config) fuel)) as [err'|m| |];
      try reflexivity.
    + destruct Hout as [H|(s & H & _)]; congruence.
    + congruence.
    + destruct Hout as [H _]. congruence.
  - intros s HL Hs. split.
    + destruct (fst (startup env (Ok config) fuel)) as [err'|m| |].
      * destruct Hout as [H|(s' & _ & Hs' & ->)]; [congruence|].
        rewrite Hs in Hs'. injection Hs' as <-. reflexivity.
      * congruence.
      * destruct Hout as [_ H]. congruence.
      * congruence.
    + rewrite Htr. apply in_or_app. right. apply Hrecv. auto.
Qed.

Lemma prepare_succeeds (env : Env) (config : NodeConfig) (fuel M : nat)
    (rd : InboxReader) (auth : TransactOpts) :
  ParseLogFlags env = nil_error -> NewMonitor env = nil_error ->
  (forall i, i < M -> failed (StartInboxReader env i) = true /\
                      inboxSelect env i = Arm_time_After) ->
  StartInboxReader env M = Ok rd -> M < fuel ->
  (Node_Type config =? "forwarder")%string = true \/
  (GetKeystore env = Ok auth /\ WaitForBalance env = nil_error) ->
  fst (prepare env config fuel) = Val (rd, resolved_mode config auth rd).
Proof.
  intros E1 E2 Hf Hs HM Hk.
  destruct (prepare_open env config fuel E1 E2) as [_ Hp].
  rewrite (inboxReaderLoop_retries env rd M 0 fuel) in Hp;
    try assumption; try (intros i Hi; apply Hf; lia).
  cbn [fst] in Hp. destruct Hp as [_ Hp].
  destruct (Node_Type config =? "forwarder")%string eqn:Efw.
  - rewrite (resolveBatcherMode_forwarder env config rd auth Efw) in Hp.
    exact Hp.
  - destruct Hk as [Hk|[Hk Hb]]; [discriminate Hk|].
    rewrite (resolveBatcherMode_signer env config rd Efw), Hk, Hb in Hp.
    exact Hp.
Qed.

Lemma prepare_cancelled (env : Env) (config : NodeConfig) (fuel N : nat) :
  ParseLogFlags env = nil_error -> NewMonitor env = nil_error ->
  (forall i, i <= N -> failed (StartInboxReader env i) = true) ->
  (forall i, i < N -> inboxSelect env i = Arm_time_After) ->
  inboxSelect env N = Arm_ctx_Done -> N < fuel ->
  fst (prepare env config fuel) =
    Return (errors_New "ctx cancelled StartInboxReader retry loop").
Proof.
  intros E1 E2 Hf Hw Hs HN.
  destruct (prepare_open env config fuel E1 E2) as [_ Hp].
  rewrite (inboxReaderLoop_cancelled env N 0 fuel) in Hp;
    try assumption; try (intros i Hi; first [apply Hf|apply Hw]; lia).
  cbn [fst] in Hp. exact (proj1 (proj2 Hp)).
Qed.

Lemma launch_in_batcher_loop (env : Env) (config : NodeConfig) (fuel : nat)
    (rd : InboxReader) (mode : BatcherMode) :
  fst (prepare env config fuel) = Val (rd, mode) ->
  txdb_New env = nil_error ->
  (forall err,
      fst (batcherLoop env config mode fuel 0) = Return err ->
      fst (launch env config fuel) = Return err) /\
  (fst (batcherLoop env config mode fuel 0) = OutOfFuel ->
   fst (launch env config fuel) = OutOfFuel).
Proof.
  intros Hp Ht. pose proof (launch_shape env config fuel) as Hs.
  rewrite Hp, Ht in Hs. rewrite Hs. cbn [fst]. unfold serve.
  destruct (batcherLoop env config mode fuel 0) as [[b| e | m | |] w];
    cbn [fst]; split; try discriminate; intros; simpl; auto; congruence.
Qed.

Lemma setupAttempt_checked (env : Env) (config : NodeConfig)
    (mode : BatcherMode) (k : nat) :
  setupAttempt env (checked config) mode k = setupAttempt env config mode k.
Proof.
  unfold setupAttempt. rewrite (proj1 (proj2 (checked_fields config))).
  reflexivity.
Qed.

Lemma batcherLoop_checked (env : Env) (config : NodeConfig)
    (mode : BatcherMode) (fuel k : nat) :
  batcherLoop env (checked config) mode fuel k =
  batcherLoop env config mode fuel k.
Proof.
  revert k. induction fuel as [|fuel IH]; intros k; [reflexivity|].
  simpl. rewrite setupAttempt_checked.
  destruct (setupAttempt env config mode k) as [[[b|err]| e | m | |] w];
    try reflexivity.
  simpl. destruct (batcherSelect env k); [reflexivity|].
  simpl. rewrite IH. reflexivity.
Qed.

(** A run whose public server was launched got through [launch]. *)
Lemma launched_server (env : Env) (config : NodeConfig) (fuel : nat) :
  In Ev_go_LaunchPublicServer (events (snd (launch env config fuel))) ->
  fst (launch env config fuel) = Val tt.
Proof.
  pose proof (launch_shape env config fuel) as Hs.
  destruct (prepare_spec env config fuel) as [Pc _].
  assert (Hno : ~ In Ev_go_LaunchPublicServer
                    (events (snd (prepare env config fuel)))).
  { apply (not_in_class in_prepare); [exact Pc|reflexivity]. }
  destruct (fst (prepare env config fuel)) as [[rd mode]|e|m| |];
    try (rewrite Hs; cbn [snd]; intros H; contradiction).
  destruct (txdb_New env) as [c|]; rewrite Hs; cbn [fst snd events].
  - intros H. apply in_app_or in H. destruct H as [H|[H|[H|[]]]];
      [contradiction|discriminate H|discriminate H].
  - destruct (serve_spec env config mode fuel) as (_ & _ & Sx).
    intros H. apply in_app_or in H. destruct H as [H|[H|[H|H]]];
      [contradiction|discriminate H|discriminate H|].
    apply in_app_or in H. destruct H as [H|H].
    { destruct (WaitToCatchUp config); [|contradiction].
      destruct H as [H|[]]. discriminate H. }
    destruct (fst (serve env config mode fuel)) as [[]|e|m| |];
      [reflexivity|destruct Sx as [Sx _]; contradiction
      |destruct Sx as [Sx _]; contradiction|contradiction
      |destruct Sx as [Sx _]; contradiction].
Qed.

(** ** Cancellation *)

(** C2, as the code has it. Cancellation seen by the final [select]
    (the [cancelChan] arm, line 325) makes [startup] return nil: a run in
    which that receive occurs returned nil, and a run that launched the
    public server and whose [select] proceeds with [cancelChan] returns
    nil.  Cancellation seen by the wait of a retry loop (the [ctx.Done()]
    arm, lines 215 and 299) makes [startup] return that loop's error, not
    nil: when the inbox-reader loop is reached, its passes up to pass [N]
    fail and the wait of pass [N] is cut short, [startup] returns "ctx
    cancelled StartInboxReader retry loop"; when the batcher loop is
    reached, its passes up to pass [N] fail and the wait of pass [N] is cut
    short, [startup] returns "ctx cancelled setup batcher"; and a run in
    which a [ctx.Done()] arm was taken returned one of the two. *)
Theorem cancellation_outcome (env : Env) (parsed : Result NodeConfig)
    (fuel : nat) :
  (In Ev_recv_cancelChan (snd (startup env parsed fuel)) ->
   fst (startup env parsed fuel) = Returned nil_error) /\
  (In Ev_ctx_Done (snd (startup env parsed fuel)) ->
   fst (startup env parsed fuel) =
     Returned (errors_New "ctx cancelled StartInboxReader retry loop") \/
   fst (startup env parsed fuel) =
     Returned (errors_New "ctx cancelled setup batcher")) /\
  (In Ev_go_LaunchPublicServer (snd (startup env parsed fuel)) ->
   selected env = Some Sig_cancelChan ->
   fst (startup env parsed fuel) = Returned nil_error /\
   In Ev_recv_cancelChan (snd (startup env parsed fuel))) /\
  (forall config N,
      parsed = Ok config ->
      existsb (violated config) allRules = false ->
      ParseLogFlags env = nil_error -> NewMonitor env = nil_error ->
      (forall i, i <= N -> failed (StartInboxReader env i) = true) ->
      (forall i, i < N -> inboxSelect env i = Arm_time_After) ->
      inboxSelect env N = Arm_ctx_Done ->
      N < fuel ->
      fst (startup env parsed fuel) =
        Returned (errors_New "ctx cancelled StartInboxReader retry loop")) /\
  (forall config M rd auth N,
      parsed = Ok config ->
      existsb (violated config) allRules = false ->
      ParseLogFlags env = nil_error -> NewMonitor env = nil_error ->
      (forall i, i < M -> failed (StartInboxReader env i) = true /\
                          inboxSelect env i = Arm_time_After) ->
      StartInboxReader env M = Ok rd -> M < fuel ->
      (Node_Type config =? "forwarder")%string = true \/
      (GetKeystore env = Ok auth /\ WaitForBalance env = nil_error) ->
      txdb_New env = nil_error ->
      (forall i, i <= N ->
                 pass_failed env config (resolved_mode config auth rd) i = true) ->
      (forall i, i < N -> batcherSelect env i = Arm_time_After) ->
      batcherSelect env N = Arm_ctx_Done ->
      N < fuel ->
      fst (startup env parsed fuel) =
        Returned (errors_New "ctx cancelled setup batcher")).
Proof.
  destruct (cancellation_seen env parsed fuel) as [Hrecv Hdone].
  split; [exact Hrecv|]. split; [exact Hdone|]. split; [|split].
  - intros Hin Hsel.
    destruct (accepted_or_not parsed) as [Hbad|(config & -> & Hv)].
    { destruct (startup_turned_down env parsed fuel Hbad) as (text & Htr & Ht).
      rewrite Htr in Hin. exfalso. revert Hin. cbn [snd]. not_in. }
    destruct (startup_way_out env config fuel Hv) as (X & Htr & Xc & _).
    rewrite Htr in Hin.
    rewrite (in_app_class_l in_exit _ _ Ev_go_LaunchPublicServer Xc eq_refl)
      in Hin.
    apply launched_server in Hin.
    exact (proj2 (proj2 (startup_outcome env config fuel Hv))
             Sig_cancelChan Hin Hsel).
  - intros config N -> Hv E1 E2 Hf Hw Hs HN.
    apply (proj1 (startup_outcome env config fuel Hv)).
    pose proof (launch_shape env (checked config) fuel) as Hshape.
    rewrite (prepare_cancelled env (checked config) fuel N E1 E2 Hf Hw Hs HN)
      in Hshape.
    rewrite Hshape. reflexivity.
  - intros config M rd auth N -> Hv E1 E2 Hi Hrd HM Hk Ht Hf Hw Hs HN.
    apply (proj1 (startup_outcome env config fuel Hv)).
    assert (Hp : fst (prepare env (checked config) fuel) =
                 Val (rd, resolved_mode config auth rd)).
    { rewrite <- (proj2 (proj2 (checked_fields config))).
      apply (prepare_succeeds env (checked config) fuel M); try assumption.
      rewrite checked_Node_Type. exact Hk. }
    apply (proj1 (launch_in_batcher_loop env (checked config) fuel rd _ Hp Ht)).
    rewrite batcherLoop_checked.
    rewrite (batcherLoop_cancelled env config _ N 0 fuel);
      try assumption; try reflexivity;
      intros i Hi'; first [apply Hf|apply Hw]; lia.
Qed.

Lemma cancellation_outcome_witness :
  fst (startup env_ok (Ok cfg_sequencer) 3) = Returned nil_error /\
  (fst (startup env_cancelled_retry (Ok cfg_sequencer) 3)
     = Returned (errors_New "ctx cancelled StartInboxReader retry loop") \/
   fst (startup env_cancelled_retry (Ok cfg_sequencer) 3)
     = Returned (errors_New "ctx cancelled setup batcher")) /\
  (fst (startup env_ok (Ok cfg_sequencer) 3) = Returned nil_error /\
   In Ev_recv_cancelChan (snd (startup env_ok (Ok cfg_sequencer) 3))) /\
  fst (startup env_cancelled_retry (Ok cfg_sequencer) 3)
    = Returned (errors_New "ctx cancelled StartInboxReader retry loop") /\
  fst (startup env_cancelled_setup (Ok cfg_sequencer) 3)
    = Returned (errors_New "ctx cancelled setup batcher").
Proof.
  split; [|split; [|split; [|split]]].
  - apply (proj1 (cancellation_outcome env_ok (Ok cfg_sequencer) 3)). listed.
  - apply (proj1 (proj2 (cancellation_outcome env_cancelled_retry
                           (Ok cfg_sequencer) 3))).
    listed.
  - apply (proj1 (proj2 (proj2 (cancellation_outcome env_ok
                                  (Ok cfg_sequencer) 3)))).
    + listed.
    + reflexivity.
  - apply (proj1 (proj2 (proj2 (proj2 (cancellation_outcome env_cancelled_retry
                                         (Ok cfg_sequencer) 3))))
             cfg_sequencer 0).
    + reflexivity.
    + reflexivity.
    + reflexivity.
    + reflexivity.
    + intros i Hi. reflexivity.
    + intros i Hi. lia.
    + reflexivity.
    + lia.
  - apply (proj2 (proj2 (proj2 (proj2 (cancellation_outcome env_cancelled_setup
                                         (Ok cfg_sequencer) 3))))
             cfg_sequencer 0 0 {| From := "0xf" |} 1).
    + reflexivity.
    + reflexivity.
    + reflexivity.
    + reflexivity.
    + intros i Hi. lia.
    + reflexivity.
    + lia.
    + right. split; reflexivity.
    + reflexivity.
    + intros i Hi. reflexivity.
    + intros i Hi. destruct i; [reflexivity|lia].
    + reflexivity.
    + lia.
Defined.

(** ** Retrying without end: lines 202-219 and 276-303 *)

Lemma inboxReaderLoop_never (env : Env) :
  (forall i, failed (StartInboxReader env i) = true) ->
  (forall i, inboxSelect env i = Arm_time_After) ->
  forall fuel k,
    fst (inboxReaderLoop env fuel k) = OutOfFuel /\
    count is_StartInboxReader (events (snd (inboxReaderLoop env fuel k))) = fuel.
Proof.
  intros Hf Hw. induction fuel as [|fuel IH]; intros k; [split; reflexivity|].
  simpl. specialize (Hf k). specialize (IH (S k)).
  destruct (StartInboxReader env k) as [v|err]; [discriminate Hf|].
  rewrite Hw.
  destruct (inboxReaderLoop env fuel (S k)) as [[v| e | m | |] w];
    destruct IH as [IH1 IH2]; try discriminate IH1.
  simpl in *. split; [reflexivity|].
  rewrite !count_cons. cbn [is_StartInboxReader]. rewrite IH2. reflexivity.
Qed.

Lemma batcherLoop_never (env : Env) (config : NodeConfig) (mode : BatcherMode) :
  (forall i, pass_failed env config mode i = true) ->
  (forall i, batcherSelect env i = Arm_time_After) ->
  forall fuel k,
    fst (batcherLoop env config mode fuel k) = OutOfFuel /\
    count is_SetupBatcher (events (snd (batcherLoop env config mode fuel k)))
      = fuel.
Proof.
  intros Hf Hw. induction fuel as [|fuel IH]; intros k; [split; reflexivity|].
  simpl. specialize (Hf k). specialize (IH (S k)).
  unfold pass_failed, pass_result in Hf.
  destruct (setupAttempt_counts env config mode k) as (Hc & _).
  destruct (setupAttempt env config mode k) as [[[b|err]| e | m | |] w];
    try discriminate Hf.
  rewrite Hw.
  destruct (batcherLoop env config mode fuel (S k)) as [[v| e | m | |] w'];
    destruct IH as [IH1 IH2]; try discriminate IH1.
  simpl in *. split; [reflexivity|].
  rewrite count_app, !count_cons. cbn [is_SetupBatcher].
  rewrite Hc, IH2. reflexivity.
Qed.

Lemma in_exit_fixed_wait (e : Event) : in_exit e = true -> fixed_wait e = true.
Proof. by_event e; cbv; congruence. Qed.

Lemma is_print_fixed_wait (e : Event) : is_print e = true -> fixed_wait e = true.
Proof. by_event e; cbv; congruence. Qed.

(** X8. The two retry loops have no limit on the number of passes and no
    back-off.  While [StartInboxReader] keeps failing and the context is
    not cancelled, the loop of lines 202-219 does not end: after any number
    of passes it is still running, having called the constructor once per
    pass, and a run of [startup] that got to the loop has not returned.
    The same holds of the loop of lines 276-303 while its passes fail, and
    of a run of [startup] that got to that loop.  Every timer [startup]
    waits on lasts five seconds. *)
Theorem retries_have_no_limit (env : Env) (config : NodeConfig)
    (mode : BatcherMode) (fuel : nat) :
  ((forall i, failed (StartInboxReader env i) = true) ->
   (forall i, inboxSelect env i = Arm_time_After) ->
   fst (inboxReaderLoop env fuel 0) = OutOfFuel /\
   count is_StartInboxReader (events (snd (inboxReaderLoop env fuel 0))) = fuel /\
   (existsb (violated config) allRules = false ->
    ParseLogFlags env = nil_error -> NewMonitor env = nil_error ->
    fst (startup env (Ok config) fuel) = Unfinished)) /\
  ((forall i, pass_failed env config mode i = true) ->
   (forall i, batcherSelect env i = Arm_time_After) ->
   fst (batcherLoop env config mode fuel 0) = OutOfFuel /\
   count is_SetupBatcher (events (snd (batcherLoop env config mode fuel 0)))
     = fuel /\
   (forall M rd auth,
       existsb (violated config) allRules = false ->
       ParseLogFlags env = nil_error -> NewMonitor env = nil_error ->
       (forall i, i < M -> failed (StartInboxReader env i) = true /\
                           inboxSelect env i = Arm_time_After) ->
       StartInboxReader env M = Ok rd -> M < fuel ->
       (Node_Type config =? "forwarder")%string = true \/
       (GetKeystore env = Ok auth /\ WaitForBalance env = nil_error) ->
       txdb_New env = nil_error ->
       mode = resolved_mode config auth rd ->
       fst (startup env (Ok config) fuel) = Unfinished)) /\
  (forall parsed d,
      In (Ev_time_After d) (snd (startup env parsed fuel)) ->
      d = (5 * time_Second)%Z).
Proof.
  split; [|split].
  - intros Hf Hw.
    destruct (inboxReaderLoop_never env Hf Hw fuel 0) as [Hl Hc].
    split; [exact Hl|]. split; [exact Hc|].
    intros Hv E1 E2.
    destruct (prepare_open env (checked config) fuel E1 E2) as [_ Hp].
    rewrite Hl in Hp. destruct Hp as [_ Hp].
    pose proof (launch_shape env (checked config) fuel) as Hs.
    rewrite Hp in Hs.
    destruct (startup_way_out env config fuel Hv)
      as (X & _ & _ & _ & _ & _ & _ & _ & _ & _ & _ & Hout).
    rewrite Hs in Hout. cbn [fst] in Hout.
    destruct (fst (startup env (Ok config) fuel)) as [err|m| |];
      try reflexivity; try discriminate Hout.
    + destruct Hout as [H|(s & H & _)]; discriminate H.
    + destruct Hout as [H _]. discriminate H.
  - intros Hf Hw.
    destruct (batcherLoop_never env config mode Hf Hw fuel 0) as [Hl Hc].
    split; [exact Hl|]. split; [exact Hc|].
    intros M rd auth Hv E1 E2 Hi Hrd HM Hk Ht Hmode.
    apply (proj1 (proj2 (startup_outcome env config fuel Hv))).
    assert (Hp : fst (prepare env (checked config) fuel) = Val (rd, mode)).
    { rewrite Hmode, <- (proj2 (proj2 (checked_fields config))).
      apply (prepare_succeeds env (checked config) fuel M); try assumption.
      rewrite checked_Node_Type. exact Hk. }
    apply (proj2 (launch_in_batcher_loop env (checked config) fuel rd _ Hp Ht)).
    rewrite batcherLoop_checked. exact Hl.
  - intros parsed d Hin.
    assert (Hw : forallb fixed_wait (snd (startup env parsed fuel)) = true).
    { destruct (accepted_or_not parsed) as [Hbad|(config' & -> & Hv)].
      - destruct (startup_turned_down env parsed fuel Hbad) as (text & -> & Ht).
        cbn [snd]. rewrite forallb_app.
        rewrite (forallb_weaken _ _ _ is_print_fixed_wait Ht). reflexivity.
      - destruct (startup_way_out env config' fuel Hv) as (X & -> & Xc & _).
        destruct (launch_tail env (checked config') fuel)
          as (T & -> & _ & _ & _ & Tw & _).
        destruct (prepare_more env (checked config') fuel) as (_ & _ & Pw & _).
        rewrite !forallb_app, Pw, Tw.
        rewrite (forallb_weaken _ _ _ in_exit_fixed_wait Xc). reflexivity. }
    rewrite forallb_forall in Hw. specialize (Hw _ Hin).
    simpl in Hw. apply Z.eqb_eq in Hw. exact Hw.
Qed.

(** ** The batcher that is started and served: lines 274-312 *)

(** X9. The batcher [startup] starts is the one the last setup call
    returned: the result of [rpc.SetupLockout] when a lockout redis
    address is set, the result of [rpc.SetupBatcher] otherwise; and the
    server of line 308 is built on a batcher that was started.  Nothing
    that a failed pass produced is started or served. *)
Theorem server_gets_the_started_batcher (env : Env) (config : NodeConfig)
    (fuel : nat) :
  (forall b,
      In (Ev_NewServer b) (snd (startup env (Ok config) fuel)) ->
      In (Ev_go_batch_Start b) (snd (startup env (Ok config) fuel))) /\
  (forall b,
      In (Ev_go_batch_Start b) (snd (startup env (Ok config) fuel)) ->
      if (Node_Sequencer_Lockout_Redis config =? "")%string
      then exists mode,
          In (Ev_SetupBatcher mode (Ok b)) (snd (startup env (Ok config) fuel))
      else exists sb,
          In (Ev_SetupLockout sb (Node_Sequencer_Lockout config) (Ok b))
             (snd (startup env (Ok config) fuel))).
Proof.
  destruct (existsb (violated config) allRules) eqn:Hv.
  - rewrite (startup_rejects env config fuel Hv). cbn [snd].
    assert (Ht : forallb is_print
                   (if usageGate config then usage env else reported config)
                 = true).
    { destruct (usageGate config); [apply usage_prints|apply reported_prints]. }
    split; intros b Hin; exfalso; revert Hin; not_in.
  - destruct (startup_way_out env config fuel Hv) as (X & -> & Xc & _).
    destruct (launch_tail env (checked config) fuel)
      as (T & -> & Tc & _ & _ & _ & _ & _ & Hsrv & Hstart & _).
    destruct (prepare_spec env (checked config) fuel) as [Pc _].
    rewrite checked_Redis, (proj1 (proj2 (checked_fields config))) in Hstart.
    assert (Hin : forall e, in_exit e = false -> in_prepare e = false ->
                   (In e ((events (snd (prepare env (checked config) fuel)) ++ T)
                          ++ X) <-> In e T)).
    { intros e Hx Hp.
      rewrite (in_app_class_l in_exit _ _ e Xc Hx).
      apply (in_app_class_r in_prepare _ _ e Pc Hp). }
    split; intros b Hb.
    + apply Hin in Hb; try reflexivity. apply Hin; try reflexivity.
      apply Hsrv. exact Hb.
    + apply Hin in Hb; try reflexivity. specialize (Hstart b Hb).
      destruct (Node_Sequencer_Lockout_Redis config =? "")%string.
      * destruct Hstart as [mode Hm]. exists mode.
        apply Hin; try reflexivity. exact Hm.
      * destruct Hstart as [sb Hm]. exists sb.
        apply Hin; try reflexivity. exact Hm.
Qed.

(** ** What is printed *)

Lemma usage_not_empty (env : Env) : exists text, In (Ev_Print text) (usage env).
Proof. exists nl. left. reflexivity. Qed.

Lemma startup_unparsed (env : Env) (err : Error) (fuel : nat) :
  startup env (Err err) fuel =
    (Returned nil_error,
     usage env ++
     (if strings_Contains err "help requested" then []
      else [Ev_Print (err ++ nl)%string]) ++ [Ev_cancelFunc]).
Proof.
  unfold startup, startup_body. simpl. rewrite validate_Err. reflexivity.
Qed.

(** X10. [startup] prints to standard output exactly when it turns the
    command line down: a configuration that passes every rule prints
    nothing, in any run; a command line that cannot be parsed, and a
    configuration that violates a rule, always print something. *)
Theorem prints_only_when_turned_down (env : Env) (parsed : Result NodeConfig)
    (fuel : nat) :
  (exists text, In (Ev_Print text) (snd (startup env parsed fuel))) <->
  match parsed with
  | Ok config => existsb (violated config) allRules = true
  | Err _ => True
  end.
Proof.
  split.
  - intros [text Hin].
    destruct (accepted_or_not parsed) as [Hbad|(config & -> & Hv)];
      [exact Hbad|exfalso].
    destruct (startup_way_out env config fuel Hv) as (X & Htr & Xc & _).
    rewrite Htr in Hin.
    rewrite (in_app_class_l in_exit _ _ (Ev_Print text) Xc eq_refl) in Hin.
    revert Hin. apply (not_in_class in_launch); [|reflexivity].
    apply launch_class.
  - destruct parsed as [config|err]; intros Hbad.
    + rewrite (startup_rejects env config fuel Hbad). cbn [snd].
      destruct (usageGate config) eqn:Hg.
      * destruct (usage_not_empty env) as [text Ht]. exists text.
        apply in_or_app. left. exact Ht.
      * unfold allRules in Hbad.
        rewrite existsb_app, <- usageGate_rules, Hg in Hbad. cbn [orb] in Hbad.
        apply existsb_exists in Hbad. destruct Hbad as (r & Hr & Hviol).
        destruct (checked_rule_has_text config r Hr) as (text & Ht).
        exists text. apply in_or_app. left.
        unfold reported. apply in_flat_map.
        exists r. split; [apply filter_In; auto|].
        unfold rule_event. rewrite Ht. left. reflexivity.
    + destruct (usage_not_empty env) as [text Ht]. exists text.
      rewrite startup_unparsed. cbn [snd]. apply in_or_app. left. exact Ht.
Qed.

(** ** main: lines 63-78 *)




(** ** The further properties on the sample runs *)

Lemma parse_error_prints_usage_witness :
  startup env_ok (Err "flag: help requested"%string) 3 =
    (Returned nil_error, usage env_ok ++ [Ev_cancelFunc]) /\
  startup env_ok (Err "unknown flag: --l1.ur"%string) 3 =
    (Returned nil_error,
     usage env_ok ++ [Ev_Print ("unknown flag: --l1.ur" ++ nl)%string;
                      Ev_cancelFunc]).
Proof.
  split.
  - rewrite (proj1 (parse_error_prints_usage env_ok "flag: help requested" 3)).
    reflexivity.
  - rewrite (proj1 (parse_error_prints_usage env_ok "unknown flag: --l1.ur" 3)).
    reflexivity.
Defined.


Lemma releases_match_what_was_opened_witness :
  ~ In Ev_mon_Close (snd (startup env_no_monitor (Ok cfg_sequencer) 3)) /\
  In (Ev_Log NoLevel nil_error "Cleanly shutting down node")
     (snd (startup env_no_monitor (Ok cfg_sequencer) 3)).
Proof.
  assert (Hex : exited (fst (startup env_no_monitor (Ok cfg_sequencer) 3)) = true)
    by reflexivity.
  destruct (proj1 (releases_match_what_was_opened env_no_monitor
                     (Ok cfg_sequencer) 3) Hex) as (Hmon & _ & Hlog & _).
  split.
  - intros H. apply Hmon in H. revert H. vm_compute.
    intros H. repeat (destruct H as [H|H]; [discriminate H|]). exact H.
  - apply Hlog. exists nil_error. listed.
Defined.

Lemma health_settings_fit_the_buffer_witness :
  count is_healthChan_send (snd (startup env_ok (Ok cfg_forwarder) 3)) = 6.
Proof.
  apply (proj1 (proj2 (health_settings_fit_the_buffer env_ok cfg_forwarder 3))).
  listed.
Defined.

Lemma feed_clients_follow_the_urls_witness :
  connected (snd (startup env_ok (Ok cfg_forwarder) 3)) = ["ws://feed"%string].
Proof.
  apply (proj1 (feed_clients_follow_the_urls env_ok cfg_forwarder 3)).
  listed.
Defined.

Lemma batcher_mode_follows_node_type_witness :
  (exists rd auth,
      In (Ev_StartInboxReader (Ok rd)) (snd (startup env_ok (Ok cfg_sequencer) 3)) /\
      SequencerBatcherMode {| From := "0xf" |} 0 12 270 =
        resolved_mode cfg_sequencer auth rd /\
      ((Node_Type cfg_sequencer =? "forwarder")%string = false ->
       GetKeystore env_ok = Ok auth /\ WaitForBalance env_ok = nil_error)) /\
  ~ In (Ev_GetKeystore (GetKeystore env_ok))
       (snd (startup env_ok (Ok cfg_forwarder) 3)).
Proof.
  split.
  - apply (proj1 (batcher_mode_follows_node_type env_ok cfg_sequencer 3)
             (SequencerBatcherMode {| From := "0xf" |} 0 12 270)
             (Ok {| batcher_type := T_SequencerBatcher; batcher_id := 0 |})).
    listed.
  - intros Hin.
    apply (proj1 (proj1 (proj2 (batcher_mode_follows_node_type env_ok
                                  cfg_forwarder 3)) eq_refl _ Hin)
             (GetKeystore env_ok)).
    reflexivity.
Defined.

Lemma returned_errors_witness :
  exists c, NewMonitor env_no_monitor = Some c /\
            Some "error opening monitor: open /data/chain: permission denied"%string
            = errors_Wrap c "error opening monitor".
Proof.
  destruct (returned_errors env_no_monitor (Ok cfg_sequencer) 3
              "error opening monitor: open /data/chain: permission denied"
              eq_refl)
    as [H|[H|[H|[(c & H & _)|[(c & H & _)|[(c & H & _)|[H|[H|(s & H & H' & _)]]]]]]]];
    try discriminate H.
  - exact H.
  - injection H as <-. discriminate H'.
Defined.

Lemma retries_have_no_limit_witness :
  fst (inboxReaderLoop env_never_ready 7 0) = OutOfFuel /\
  count is_StartInboxReader (events (snd (inboxReaderLoop env_never_ready 7 0)))
    = 7 /\
  fst (startup env_never_ready (Ok cfg_sequencer) 7) = Unfinished /\
  count is_SetupBatcher
    (events (snd (batcherLoop env_setup_never_ready cfg_sequencer
                    (SequencerBatcherMode {| From := "0xf" |} 0 12 270) 7 0)))
    = 7 /\
  fst (startup env_setup_never_ready (Ok cfg_sequencer) 7) = Unfinished.
Proof.
  destruct (proj1 (retries_have_no_limit env_never_ready cfg_sequencer
                     (ForwarderBatcherMode "") 7)
              (fun i => eq_refl) (fun i => eq_refl)) as (H1 & H2 & H3).
  destruct (proj1 (proj2 (retries_have_no_limit env_setup_never_ready
                            cfg_sequencer
                            (SequencerBatcherMode {| From := "0xf" |} 0 12 270)
                            7))
              (fun i => eq_refl) (fun i => eq_refl)) as (_ & H4 & H5).
  split; [exact H1|]. split; [exact H2|].
  split; [apply H3; reflexivity|]. split; [exact H4|].
  apply (H5 0 0 {| From := "0xf" |}); try reflexivity.
  - intros i Hi. lia.
  - lia.
  - right. split; reflexivity.
Defined.

Lemma server_gets_the_started_batcher_witness :
  In (Ev_go_batch_Start {| batcher_type := T_LockoutBatcher; batcher_id := 0 |})
     (snd (startup env_ok (Ok cfg_sequencer) 3)).
Proof.
  apply (proj1 (server_gets_the_started_batcher env_ok cfg_sequencer 3)).
  listed.
Defined.

Lemma prints_only_when_turned_down_witness :
  exists text,
    In (Ev_Print text) (snd (startup env_ok (Ok cfg_no_url_no_chain_id) 3)).
Proof.
  apply (proj2 (prints_only_when_turned_down env_ok
                  (Ok cfg_no_url_no_chain_id) 3)).
  reflexivity.
Defined.

